(** * The D-Bus broker launcher: a shallow embedding and its properties

    The launcher (the [main.c] of [dbus-broker-launch]) provisions the
    listener socket of the broker, forks the broker, registers the
    activatable names with it over a private controller connection and
    routes activation requests to the service manager.

    The C functions are embedded as functions of a state-and-halt monad over
    a [World]: the part of the process and of its host that the launcher
    observes and changes.  Strings stand for NUL-terminated C strings, an
    [int] is a [Z], a possibly-NULL pointer is an [option].  Calls into
    sd-bus, sd-event, glib and the kernel are embedded by what the launcher
    can observe of them; where the result of such a call depends on the host
    only, it is read from the [Host] record. *)

From Stdlib Require Import ZArith Lia List Ascii.
From stdpp Require Import base gmap strings pretty list.

Local Open Scope Z_scope.

(** ** errno values (Linux, asm-generic) *)

Module Errno.
Definition ENOENT : Z := 2.
Definition ENXIO : Z := 6.
Definition ENOMEM : Z := 12.
Definition EBUSY : Z := 16.
Definition ENOTDIR : Z := 20.
Definition EINVAL : Z := 22.
Definition EBADMSG : Z := 74.
Definition EADDRINUSE : Z := 98.
Definition ENOTCONN : Z := 107.
Definition ENOTRECOVERABLE : Z := 131.
End Errno.
Import Errno.

(** ** util/error.h *)

(** Modelled from the spec: [util/error.h] is not part of the sources; only
    its test is.  [error_origin] marks the first observation of a failure and
    normalizes any positive indicator into a canonical negative code,
    [error_trace] passes a code on unchanged, and [error_fold] converts a
    collaborator's code into a canonical failure.  The test pins
    [error_origin 0 = 0], [error_origin (-1) = -1], [error_origin 1 < 0],
    [error_trace 1 = 1], [error_fold (-1) = -1] and [error_fold 1 < 0]. *)
Definition error_origin (r : Z) : Z :=
  if r =? 0 then 0 else if r <? 0 then r else - ENOTRECOVERABLE.

Definition error_trace (r : Z) : Z := r.

Definition error_fold (r : Z) : Z :=
  if r =? 0 then 0 else if r <? 0 then r else - ENOTRECOVERABLE.

(** The exit codes of the launcher's own functions. *)
Definition _MAIN_SUCCESS : Z := 0.
Definition MAIN_EXIT : Z := 1.
Definition MAIN_FAILED : Z := 2.

(** [<stdlib.h>] and [<signal.h>] *)
Definition EXIT_FAILURE : Z := 1.
Definition CLD_EXITED : Z := 1.
Definition CLD_KILLED : Z := 2.
Definition CLD_DUMPED : Z := 3.

(** ** Bus messages, as sd-bus builds and reads them *)

Module Wire.

(** A value of the D-Bus type system.  An array carries the signature of
    its elements, a variant the signature of its content. *)
#[warnings="-register-all"]
Inductive Value : Type :=
| VStr (s : string)
| VPath (s : string)
| VBool (b : bool)
| VU32 (n : Z)
| VFd (fd : Z)
| VArray (elt : string) (items : list Value)
| VStruct (fields : list Value)
| VVariant (contents : string) (items : list Value)
| VEntry (fields : list Value).

Definition concat_strings (l : list string) : string :=
  fold_right String.append "" l.

Fixpoint signature (v : Value) : string :=
  match v with
  | VStr _ => "s"
  | VPath _ => "o"
  | VBool _ => "b"
  | VU32 _ => "u"
  | VFd _ => "h"
  | VArray elt _ => "a" +:+ elt
  | VStruct fields => "(" +:+ concat_strings (map signature fields) +:+ ")"
  | VVariant _ _ => "v"
  | VEntry fields => "{" +:+ concat_strings (map signature fields) +:+ "}"
  end.

Inductive Kind := Signal | MethodCall.

Record Message := {
  m_kind : Kind;
  m_destination : option string;
  m_path : option string;
  m_interface : string;
  m_member : string;
  m_body : list Value;
}.

(** The container types of [sd_bus_message_open_container]:
    ['a'], ['r'], ['v'] and ['e']. *)
Inductive Container := CArray | CStruct | CVariant | CEntry.

(** A container that was opened and not yet closed. *)
Record Frame := {
  f_type : Container;
  f_contents : string;
  f_items : list Value;
}.

(** A message under construction: its header and finished body values and
    the stack of open containers, innermost first. *)
Record Builder := {
  b_msg : Message;
  b_open : list Frame;
}.

Definition with_body (m : Message) (body : list Value) : Message :=
  {| m_kind := m_kind m; m_destination := m_destination m;
     m_path := m_path m; m_interface := m_interface m;
     m_member := m_member m; m_body := body |}.

Definition push_item (f : Frame) (v : Value) : Frame :=
  {| f_type := f_type f; f_contents := f_contents f;
     f_items := f_items f ++ [v] |}.

(** Put a finished value where the next value of the message goes: into the
    innermost open container, or into the body. *)
Definition emit (b : Builder) (v : Value) : Builder :=
  match b_open b with
  | [] => {| b_msg := with_body (b_msg b) (m_body (b_msg b) ++ [v]);
             b_open := [] |}
  | f :: fs => {| b_msg := b_msg b; b_open := push_item f v :: fs |}
  end.

(** A bus handle; the launcher owns a controller and a regular one. *)
Record Bus := {
  bus_fd : option Z;
  bus_started : bool;
  bus_client : bool;
}.

Definition sd_bus_new : Bus :=
  {| bus_fd := None; bus_started := false; bus_client := false |}.

Definition new_message (k : Kind) (dest : option string)
    (path iface member : string) : Builder :=
  {| b_msg := {| m_kind := k; m_destination := dest; m_path := Some path;
                 m_interface := iface; m_member := member; m_body := [] |};
     b_open := [] |}.

(** A bus that exists and was started. *)
Definition bus_open (bus : option Bus) : bool :=
  match bus with
  | Some b => bus_started b
  | None => false
  end.

(** [sd_bus_message_new_signal] and [sd_bus_message_new_method_call]
    refuse a bus that is NULL or unset with [-ENOTCONN] and leave the
    message pointer untouched. *)
Definition sd_bus_message_new_signal (bus : option Bus)
    (path iface member : string) : Z * option Builder :=
  if bus_open bus
  then (0, Some (new_message Signal None path iface member))
  else (- ENOTCONN, None).

Definition sd_bus_message_new_method_call (bus : option Bus)
    (dest : option string) (path iface member : string)
    : Z * option Builder :=
  if bus_open bus
  then (0, Some (new_message MethodCall dest path iface member))
  else (- ENOTCONN, None).

(** [sd_bus_message_is_signal] *)
Definition sd_bus_message_is_signal (m : Message) (iface member : string)
    : bool :=
  match m_kind m with
  | Signal => String.eqb (m_interface m) iface
              && String.eqb (m_member m) member
  | MethodCall => false
  end.

Definition sd_bus_message_set_destination (m : option Builder)
    (dest : string) : Z * option Builder :=
  match m with
  | None => (- EINVAL, None)
  | Some b =>
      (0, Some {| b_msg :=
                    {| m_kind := m_kind (b_msg b);
                       m_destination := Some dest;
                       m_path := m_path (b_msg b);
                       m_interface := m_interface (b_msg b);
                       m_member := m_member (b_msg b);
                       m_body := m_body (b_msg b) |};
                  b_open := b_open b |})
  end.

(** [sd_bus_message_append]: the values of the type string, in order. *)
Definition sd_bus_message_append (m : option Builder) (vs : list Value)
    : Z * option Builder :=
  match m with
  | None => (- EINVAL, None)
  | Some b => (1, Some (fold_left emit vs b))
  end.

Definition sd_bus_message_open_container (m : option Builder)
    (t : Container) (contents : string) : Z * option Builder :=
  match m with
  | None => (- EINVAL, None)
  | Some b =>
      (1, Some {| b_msg := b_msg b;
                  b_open := {| f_type := t; f_contents := contents;
                               f_items := [] |} :: b_open b |})
  end.

(** What a container holds must spell its declared contents: every element
    of an array has the element signature, the members of a struct, variant
    or dict entry spell the contents signature in order. *)
Definition frame_ok (f : Frame) : bool :=
  match f_type f with
  | CArray => forallb (fun v => String.eqb (signature v) (f_contents f))
                      (f_items f)
  | CStruct | CVariant | CEntry =>
      String.eqb (concat_strings (map signature (f_items f))) (f_contents f)
  end.

Definition frame_value (f : Frame) : Value :=
  match f_type f with
  | CArray => VArray (f_contents f) (f_items f)
  | CStruct => VStruct (f_items f)
  | CVariant => VVariant (f_contents f) (f_items f)
  | CEntry => VEntry (f_items f)
  end.

(** [sd_bus_message_close_container]: [-ENXIO] without an open container
    or when its content does not spell its signature. *)
Definition sd_bus_message_close_container (m : option Builder)
    : Z * option Builder :=
  match m with
  | None => (- EINVAL, None)
  | Some b =>
      match b_open b with
      | [] => (- ENXIO, Some b)
      | f :: fs =>
          if frame_ok f
          then (1, Some (emit {| b_msg := b_msg b; b_open := fs |}
                              (frame_value f)))
          else (- ENXIO, Some b)
      end
  end.

(** Reading: the cursor is the stack of what is left to read at every
    container level that was entered, innermost first. *)
Definition Cursor := list (list Value).

Definition cursor_of (m : Message) : Cursor := [m_body m].

Definition sd_bus_message_enter_container (c : Cursor) (t : Container)
    (contents : string) : Z * Cursor :=
  match c with
  | (v :: rest) :: up =>
      match t, v with
      | CArray, VArray elt items =>
          if String.eqb elt contents then (1, items :: rest :: up)
          else (- ENXIO, c)
      | CStruct, VStruct fields =>
          if String.eqb (concat_strings (map signature fields)) contents
          then (1, fields :: rest :: up) else (- ENXIO, c)
      | CVariant, VVariant s items =>
          if String.eqb s contents then (1, items :: rest :: up)
          else (- ENXIO, c)
      | CEntry, VEntry fields =>
          if String.eqb (concat_strings (map signature fields)) contents
          then (1, fields :: rest :: up) else (- ENXIO, c)
      | _, _ => (- ENXIO, c)
      end
  | _ => (0, c)
  end.

(** [sd_bus_message_at_end (m, false)]: nothing left at this level. *)
Definition sd_bus_message_at_end (c : Cursor) : bool :=
  match c with
  | (_ :: _) :: _ => false
  | _ => true
  end.

(** [sd_bus_message_read (m, "{ss}", &key, &value)] *)
Definition sd_bus_message_read_entry_ss (c : Cursor)
    : Z * option (string * string) * Cursor :=
  match c with
  | (VEntry [VStr k; VStr v] :: rest) :: up => (1, Some (k, v), rest :: up)
  | (_ :: _) :: _ => (- ENXIO, None, c)
  | _ => (0, None, c)
  end.

Definition sd_bus_message_exit_container (c : Cursor) : Z * Cursor :=
  match c with
  | [] :: up :: ups => (1, up :: ups)
  | (_ :: _) :: _ :: _ => (- EBUSY, c)
  | _ => (- ENXIO, c)
  end.

End Wire.
Import Wire.

(** ** The world of the launcher *)

(** The two connections of the manager. *)
Inductive Link := Controller | Regular.

(** What the launcher does to its surroundings, in the order it does it. *)
Inductive Event :=
| EStderr (text : string)
| ESend (l : Link) (m : Message)
| ECall (l : Link) (m : Message)
| EBusClose (l : Link)
| EBusUnref (l : Link)
| EEventUnref
| ESocket (fd : Z)
| EBind (fd : Z) (path : string) (addrlen : Z)
| EListen (fd : Z) (backlog : Z)
| EConnect (fd : Z) (peer : Z)
| EClose (fd : Z)
| EUnlink (path : string)
| EFork (pid : Z)
| EFreeService (id : string)
| EFreeManager.

(** The four lookups the launcher makes in a service file, as GKeyFile
    answers them; a missing key is NULL. *)
Record KeyFile := {
  kf_name : option string;
  kf_user : option string;
  kf_unit : option string;
  kf_exec : option (list string);
}.

(** What arrives while the event loop runs. *)
Inductive LoopEvent :=
| OnMessage (m : Message)
| OnChild (si_code si_status : Z)
| OnSignal (signo : Z).

(** What the host answers; none of it is changed by the launcher.  [h_bind]
    and [h_unlink] give the errno with which the host refuses to bind or to
    remove a path (a directory that is missing, no permission, a path that
    is a directory), and 0 where it does not refuse. *)
Record Host := {
  h_xdg_runtime_dir : option string;
  h_getuid : Z;
  h_listen_fds : Z;
  h_is_socket : Z;
  h_bind : string -> Z;
  h_unlink : string -> Z;
  h_opendir : string -> Z + list string;
  h_key_file : string -> option KeyFile;
  h_config_parser_read : string -> Z;
  h_policy_import : Z;
  h_policy_export : Z * list Value;
  h_broker_reply : Message -> Z;
  h_fork : Z;
  h_execve : bool;
  h_loop : list LoopEvent;
}.

Record World := {
  w_host : Host;
  w_trace : list Event;
  w_heap : nat;
  w_next_fd : Z;
  w_files : gset string;
}.

(** Ways in which a C function does not return to its caller. *)
Inductive Halt :=
| HAssert (what : string)
| HNullDeref
| HOverrun (excess : nat)
| HOutOfBounds
| HExit (status : Z)
| HExec (path : string) (argv : list string)
| HBlocked.

Inductive Outcome (A : Type) :=
| Ret (a : A) (w : World)
| Stop (h : Halt) (w : World).
Arguments Ret {A} a w.
Arguments Stop {A} h w.

Definition M (A : Type) : Type := World -> Outcome A.

Definition ret {A} (a : A) : M A := fun w => Ret a w.

Definition bind {A B} (c : M A) (k : A -> M B) : M B :=
  fun w => match c w with
           | Ret a w' => k a w'
           | Stop h w' => Stop h w'
           end.

Definition halt {A} (h : Halt) : M A := fun w => Stop h w.

Notation "x <- c ;; k" := (bind c (fun x => k))
  (at level 100, c at next level, right associativity).
Notation "c ;;; k" := (bind c (fun _ => k))
  (at level 100, right associativity).

Definition set_trace (w : World) (t : list Event) : World :=
  {| w_host := w_host w; w_trace := t; w_heap := w_heap w;
     w_next_fd := w_next_fd w; w_files := w_files w |}.

Definition set_heap (w : World) (n : nat) : World :=
  {| w_host := w_host w; w_trace := w_trace w; w_heap := n;
     w_next_fd := w_next_fd w; w_files := w_files w |}.

Definition set_next_fd (w : World) (fd : Z) : World :=
  {| w_host := w_host w; w_trace := w_trace w; w_heap := w_heap w;
     w_next_fd := fd; w_files := w_files w |}.

Definition set_files (w : World) (fs : gset string) : World :=
  {| w_host := w_host w; w_trace := w_trace w; w_heap := w_heap w;
     w_next_fd := w_next_fd w; w_files := fs |}.

Definition host : M Host := fun w => Ret (w_host w) w.

(** The descriptors in use are those below [w_next_fd], which is the lowest
    free one, the one the kernel hands out next.  Closing the highest
    descriptor in use gives it back, so that it is handed out again: the
    second descriptor of the controller pair, closed after the fork, is the
    one the regular connection gets.  A descriptor that is closed below the
    highest stays out of use here; the launcher makes no descriptor after
    such a close. *)
Definition release (e : Event) (next_fd : Z) : Z :=
  match e with
  | EClose fd => if (0 <=? fd) && (fd =? next_fd - 1) then fd else next_fd
  | _ => next_fd
  end.

(** An event is written to the trace; a close also gives the descriptor
    back. *)
Definition perform (e : Event) : M unit :=
  fun w => Ret tt (set_trace (set_next_fd w (release e (w_next_fd w)))
                             (w_trace w ++ [e])).

Definition LF : string := String (Ascii.ascii_of_nat 10) "".

(** [fprintf (stderr, ...)] *)
Definition fprintf_stderr (text : string) : M unit := perform (EStderr text).

(** One allocation ([calloc], [strdup], [asprintf]): it succeeds while the
    heap has room.  The result tells whether the pointer is non-NULL. *)
Definition alloc : M bool :=
  fun w => match w_heap w with
           | O => Ret false w
           | S n => Ret true (set_heap w n)
           end.

(** [n] allocations in a row, stopping at the first that fails. *)
Fixpoint alloc_each (n : nat) : M bool :=
  match n with
  | O => ret true
  | S n' => ok <- alloc ;; if ok then alloc_each n' else ret false
  end.

(** A descriptor the kernel hands out: the lowest free one. *)
Definition fresh_fd : M Z :=
  fun w => Ret (w_next_fd w) (set_next_fd w (w_next_fd w + 1)).

(** ** The data of the launcher *)

(** [struct Service]: [s_rb] tells whether the node is linked into the tree
    of the manager, [s_exec] is the array [exec] with its length [n_exec];
    the back pointer to the manager is the manager the functions are given. *)
Record Service := {
  s_rb : bool;
  s_name : string;
  s_unit : option string;
  s_exec : option (list string);
  s_id : string;
}.

(** The event loop handle: the signals and the child it watches, and the
    exit code once [sd_event_exit] has asked the loop to finish. *)
Record SdEvent := {
  ev_signals : list Z;
  ev_child : option Z;
  ev_exit : option Z;
}.

(** [struct Manager]: the tree of services is a map from the id, the key
    that [service_compare] orders by. *)
Record Manager := {
  event : option SdEvent;
  bus_controller : option Bus;
  bus_regular : option Bus;
  fd_listen : Z;
  services : gmap string Service;
  service_ids : Z;
}.

(** The file-scope flags that [parse_argv] sets. *)
Record Args := {
  main_arg_broker : string;
  main_arg_force : bool;
  main_arg_listen : option string;
  main_arg_scope : string;
  main_arg_servicedir : option string;
  main_arg_policypath : option string;
  main_arg_verbose : bool;
}.

Definition default_args : Args :=
  {| main_arg_broker := "/usr/bin/dbus-broker";
     main_arg_force := false;
     main_arg_listen := None;
     main_arg_scope := "system";
     main_arg_servicedir := None;
     main_arg_policypath := None;
     main_arg_verbose := false |}.

Definition set_services (m : Manager) (s : gmap string Service) : Manager :=
  {| event := event m; bus_controller := bus_controller m;
     bus_regular := bus_regular m; fd_listen := fd_listen m;
     services := s; service_ids := service_ids m |}.

Definition set_service_ids (m : Manager) (n : Z) : Manager :=
  {| event := event m; bus_controller := bus_controller m;
     bus_regular := bus_regular m; fd_listen := fd_listen m;
     services := services m; service_ids := n |}.

Definition set_fd_listen (m : Manager) (fd : Z) : Manager :=
  {| event := event m; bus_controller := bus_controller m;
     bus_regular := bus_regular m; fd_listen := fd;
     services := services m; service_ids := service_ids m |}.

Definition set_bus_regular (m : Manager) (b : option Bus) : Manager :=
  {| event := event m; bus_controller := bus_controller m;
     bus_regular := b; fd_listen := fd_listen m;
     services := services m; service_ids := service_ids m |}.

Definition set_bus_controller (m : Manager) (b : option Bus) : Manager :=
  {| event := event m; bus_controller := b;
     bus_regular := bus_regular m; fd_listen := fd_listen m;
     services := services m; service_ids := service_ids m |}.

Definition set_event (m : Manager) (e : option SdEvent) : Manager :=
  {| event := e; bus_controller := bus_controller m;
     bus_regular := bus_regular m; fd_listen := fd_listen m;
     services := services m; service_ids := service_ids m |}.

(** [bus_close_unref]: nothing on NULL; otherwise the socket is closed
    without a flush and the reference dropped. *)
Definition bus_close_unref (l : Link) (bus : option Bus) : M unit :=
  match bus with
  | None => ret tt
  | Some _ => perform (EBusClose l) ;;; perform (EBusUnref l)
  end.

(** [c_close]: closes a descriptor that is one. *)
Definition c_close (fd : Z) : M unit :=
  if fd <? 0 then ret tt else perform (EClose fd).

(** [service_free]: takes the service out of the tree when its node is
    linked, then releases its strings and itself. *)
Definition service_free (manager : Manager) (service : option Service)
    : M Manager :=
  match service with
  | None => ret manager
  | Some s =>
      perform (EFreeService (s_id s)) ;;;
      ret (if s_rb s
           then set_services manager (delete (s_id s) (services manager))
           else manager)
  end.

(** The decimal digits of [PRIu64]. *)
Definition decimal (n : Z) : string := pretty (Z.to_N n).

(** [service_new].  The counter is a [uint64_t] and wraps; a slot that is
    taken makes [c_rbtree_find_slot] return NULL and the assertion fail. *)
Definition service_new (manager : Manager) (name : string)
    (unit : option string) (exec : option (list string))
    : M (Z * option Service * Manager) :=
  ok <- alloc ;;
  if negb ok then ret (error_origin (- ENOMEM), None, manager) else
  let ids := (service_ids manager + 1) mod 2 ^ 64 in
  let manager := set_service_ids manager ids in
  let service (u : option string) (e : option (list string)) :=
    {| s_rb := false; s_name := name; s_unit := u; s_exec := e;
       s_id := decimal ids |} in
  let fail (u : option string) (e : option (list string)) :=
    manager <- service_free manager (Some (service u e)) ;;
    ret (error_origin (- ENOMEM), None, manager) in
  ok <- alloc ;;
  if negb ok then fail None None else
  ok <- match unit with Some _ => alloc | None => ret true end ;;
  if negb ok then fail None None else
  ok <- match exec with
        | Some e => ok <- alloc ;;
                    if ok then alloc_each (length e) else ret false
        | None => ret true
        end ;;
  if negb ok then fail unit None else
  match services manager !! decimal ids with
  | Some _ => halt (HAssert "slot")
  | None =>
      let s := {| s_rb := true; s_name := name; s_unit := unit;
                  s_exec := exec; s_id := decimal ids |} in
      ret (0, Some s,
           set_services manager (<[decimal ids := s]> (services manager)))
  end.

(** [c_rbtree_for_each_entry_unlink] with [service_free] as its body: every
    entry is unlinked from the tree and then released. *)
Fixpoint c_rbtree_for_each_entry_unlink (manager : Manager)
    (entries : list (string * Service)) : M Manager :=
  match entries with
  | [] => ret manager
  | kv :: entries' =>
      manager <- service_free
                   (set_services manager (delete kv.1 (services manager)))
                   (Some {| s_rb := false; s_name := s_name kv.2;
                            s_unit := s_unit kv.2; s_exec := s_exec kv.2;
                            s_id := s_id kv.2 |}) ;;
      c_rbtree_for_each_entry_unlink manager entries'
  end.

(** [manager_free].  The services leave the tree one by one, in the order
    the tree hands them out. *)
Definition manager_free (manager : option Manager) : M unit :=
  match manager with
  | None => ret tt
  | Some m =>
      m' <- c_rbtree_for_each_entry_unlink m (map_to_list (services m)) ;;
      c_close (fd_listen m') ;;;
      bus_close_unref Regular (bus_regular m') ;;;
      bus_close_unref Controller (bus_controller m') ;;;
      match event m' with
      | Some _ => perform EEventUnref
      | None => ret tt
      end ;;;
      perform EFreeManager
  end.

(** ** System calls

    A system call answers [0] (or a value) on success and [-errno] on
    failure, so that the C test [r < 0] followed by [error_origin (-errno)]
    reads [error_origin r] here. *)

Definition AF_UNIX_offsetof_sun_path : Z := 2.
Definition sizeof_sun_path : nat := 108.
Definition sizeof_sockaddr_un : Z := 110.

(** [socket (PF_UNIX, SOCK_STREAM | SOCK_CLOEXEC | SOCK_NONBLOCK, 0)] *)
Definition sys_socket : M Z :=
  fd <- fresh_fd ;; perform (ESocket fd) ;;; ret fd.

(** [memcpy (addr.sun_path, path, strlen (path))] into the zeroed address:
    the bytes that do not fit run over the end of [struct sockaddr_un]. *)
Definition memcpy_sun_path (path : string) : M string :=
  if (String.length path <=? sizeof_sun_path)%nat then ret path
  else halt (HOverrun (String.length path - sizeof_sun_path)).

(** [bind] on a local-domain socket: an address longer than
    [struct sockaddr_un] is invalid, a path that exists is in use, and a
    free path is bound unless the host refuses it. *)
Definition sys_bind (fd : Z) (sun_path : string) (addrlen : Z) : M Z :=
  fun w =>
    if sizeof_sockaddr_un <? addrlen then Ret (- EINVAL) w
    else if decide (sun_path ∈ w_files w) then Ret (- EADDRINUSE) w
    else if 0 <? h_bind (w_host w) sun_path
    then Ret (- h_bind (w_host w) sun_path) w
    else Ret 0 (set_files
                  (set_trace w (w_trace w ++ [EBind fd sun_path addrlen]))
                  ({[sun_path]} ∪ w_files w)).

Definition sys_listen (fd : Z) (backlog : Z) : M Z :=
  perform (EListen fd backlog) ;;; ret 0.

(** [unlink]: fails where the host refuses, and with [ENOENT] on a path
    that does not exist. *)
Definition sys_unlink (path : string) : M Z :=
  fun w =>
    if 0 <? h_unlink (w_host w) path
    then Ret (- h_unlink (w_host w) path) w
    else if decide (path ∈ w_files w)
    then Ret 0 (set_files (set_trace w (w_trace w ++ [EUnlink path]))
                          (w_files w ∖ {[path]}))
    else Ret (- ENOENT) w.

Definition sys_close (fd : Z) : M unit := perform (EClose fd).

(** [sd_bus_send (bus, m, NULL)]: the message is sealed and queued; no
    reply slot is asked for. *)
Definition sd_bus_send (l : Link) (bus : option Bus) (m : option Builder)
    : M Z :=
  match m with
  | None => ret (- EINVAL)
  | Some b =>
      if negb (bus_open bus) then ret (- ENOTCONN)
      else match b_open b with
           | [] => perform (ESend l (b_msg b)) ;;; ret 1
           | _ :: _ => ret (- EBADMSG)
           end
  end.

(** [sd_bus_call (bus, m, 0, NULL, NULL)]: the message is sent and the
    call blocks until the peer has answered. *)
Definition sd_bus_call (l : Link) (bus : option Bus) (m : option Builder)
    : M Z :=
  match m with
  | None => ret (- EINVAL)
  | Some b =>
      if negb (bus_open bus) then ret (- ENOTCONN)
      else match b_open b with
           | [] => perform (ECall l (b_msg b)) ;;;
                   h <- host ;; ret (h_broker_reply h (b_msg b))
           | _ :: _ => ret (- EBADMSG)
           end
  end.

(** [c_string_prefix]: what follows the prefix, or NULL. *)
Fixpoint c_string_prefix (str prefix : string) : option string :=
  match prefix with
  | EmptyString => Some str
  | String p prefix' =>
      match str with
      | EmptyString => None
      | String c str' =>
          if Ascii.eqb c p then c_string_prefix str' prefix' else None
      end
  end.

(** [strcmp (a, b) == 0] *)
Definition streq (a b : string) : bool := String.eqb a b.

Definition SIGINT : Z := 2.
Definition SIGTERM : Z := 15.
Definition SD_LISTEN_FDS_START : Z := 3.

(** [sd_event_exit] *)
Definition sd_event_exit (e : SdEvent) (code : Z) : Z * SdEvent :=
  (0, {| ev_signals := ev_signals e; ev_child := ev_child e;
         ev_exit := Some code |}).

(** ** The launcher *)

Section Launcher.

Variable args : Args.

Definition manager_new : M (Z * option Manager) :=
  ok <- alloc ;;
  if negb ok then ret (error_origin (- ENOMEM), None) else
  ret (0, Some {| event := Some {| ev_signals := [SIGTERM; SIGINT];
                                   ev_child := None;
                                   ev_exit := None |};
                  bus_controller := Some sd_bus_new;
                  bus_regular := None;
                  fd_listen := -1;
                  services := ∅;
                  service_ids := 0 |}).

Definition manager_listen_inherit (manager : Manager) : M (Z * Manager) :=
  if negb (fd_listen manager <? 0)
  then halt (HAssert "manager->fd_listen < 0") else
  h <- host ;;
  let n := h_listen_fds h in
  if n <? 0 then ret (error_origin n, manager) else
  if n =? 0 then
    fprintf_stderr ("No listener socket inherited" +:+ LF) ;;;
    ret (MAIN_FAILED, manager)
  else if 1 <? n then
    fprintf_stderr ("More than one listener socket passed" +:+ LF) ;;;
    ret (MAIN_FAILED, manager)
  else
  let s := SD_LISTEN_FDS_START in
  let r := h_is_socket h in
  if r <? 0 then c_close s ;;; ret (error_origin r, manager) else
  if r =? 0 then
    fprintf_stderr ("Non unix-domain-socket passed as listener" +:+ LF) ;;;
    c_close s ;;; ret (MAIN_FAILED, manager)
  else
  ret (0, set_fd_listen manager s).

Definition manager_listen_path (manager : Manager) (path : string)
    : M (Z * Manager) :=
  if negb (fd_listen manager <? 0)
  then halt (HAssert "manager->fd_listen < 0") else
  s <- sys_socket ;;
  if s <? 0 then ret (error_origin s, manager) else
  sun_path <- memcpy_sun_path path ;;
  r <- sys_bind s sun_path
         (AF_UNIX_offsetof_sun_path + Z.of_nat (String.length path) + 1) ;;
  if r <? 0 then c_close s ;;; ret (error_origin r, manager) else
  r <- sys_listen s 256 ;;
  if r <? 0 then c_close s ;;; ret (error_origin r, manager) else
  ret (0, set_fd_listen manager s).

(** [manager_run_child] does not return: the child becomes the broker or
    leaves with status 1. *)
Definition manager_run_child {A} (fd_controller : Z) : M A :=
  h <- host ;;
  if h_execve h
  then halt (HExec (main_arg_broker args)
                   ["dbus-broker"; "-v"; "--controller";
                    decimal fd_controller])
  else halt (HExit 1).

Definition manager_on_child_exit (source : SdEvent) (si_code si_status : Z)
    : M (Z * SdEvent) :=
  (if main_arg_verbose args
   then fprintf_stderr ("Caught SIGCHLD of broker" +:+ LF) else ret tt) ;;;
  ret (sd_event_exit source
         (if si_code =? CLD_EXITED then si_status else EXIT_FAILURE)).

Definition manager_fork (manager : Manager) (fd_controller : Z)
    : M (Z * Manager) :=
  h <- host ;;
  let pid := h_fork h in
  if pid <? 0 then ret (error_origin pid, manager) else
  if pid =? 0 then manager_run_child fd_controller else
  perform (EFork pid) ;;;
  match event manager with
  | None => ret (error_origin (- EINVAL), manager)
  | Some e =>
      sys_close fd_controller ;;;
      ret (0, set_event manager
                (Some {| ev_signals := ev_signals e; ev_child := Some pid;
                         ev_exit := ev_exit e |}))
  end.

Definition manager_request_activation (manager : Manager)
    (name unit : string) : M Z :=
  (if main_arg_verbose args
   then fprintf_stderr ("Activation request for '" +:+ name +:+ "' -> '"
                        +:+ unit +:+ "'" +:+ LF)
   else ret tt) ;;;
  let '(r, signal) :=
    sd_bus_message_new_signal (bus_regular manager) "/org/freedesktop/DBus"
      "org.freedesktop.systemd1.Activator" "ActivationRequest" in
  if r <? 0 then ret (error_origin r) else
  let '(r, signal) := sd_bus_message_append signal [VStr unit] in
  if r <? 0 then ret (error_origin r) else
  let '(r, signal) :=
    sd_bus_message_set_destination signal "org.freedesktop.systemd1" in
  if r <? 0 then ret (error_origin r) else
  r <- sd_bus_send Regular (bus_regular manager) signal ;;
  if r <? 0 then ret (error_origin r) else
  ret 0.

(** [exec[0]]: reading through a NULL pointer or past an empty array does
    not yield a string. *)
Definition exec_0 (exec : option (list string)) : M string :=
  match exec with
  | None => halt HNullDeref
  | Some [] => halt HOutOfBounds
  | Some (e0 :: _) => ret e0
  end.

(** The loop [for (i = 0; i < n_exec; ++i)] that appends [exec[i]]. *)
Fixpoint append_exec (m : option Builder) (exec : list string)
    : Z * option Builder :=
  match exec with
  | [] => (0, m)
  | e :: exec' =>
      let '(r, m) := sd_bus_message_append m [VStr e] in
      if r <? 0 then (r, m) else append_exec m exec'
  end.

Definition manager_start_transient_unit (manager : Manager) (name : string)
    (exec : option (list string)) : M Z :=
  (if main_arg_verbose args
   then fprintf_stderr ("Activation request for '" +:+ name +:+ "'" +:+ LF)
   else ret tt) ;;;
  ok <- alloc ;;
  if negb ok then ret (error_origin (- ENOMEM)) else
  let unit := "dbus-" +:+ name +:+ ".service" in
  let '(_, method_call) :=
    sd_bus_message_new_method_call (bus_regular manager)
      (Some "org.freedesktop.systemd1") "/org/freedesktop/systemd1"
      "org.freedesktop.systemd1.Manager" "StartTransientUnit" in
  let '(r, method_call) :=
    sd_bus_message_append method_call [VStr unit; VStr "fail"] in
  if r <? 0 then ret (error_origin r) else
  let '(r, method_call) :=
    sd_bus_message_open_container method_call CArray "(sv)" in
  if r <? 0 then ret (error_origin r) else
  let '(r, method_call) :=
    sd_bus_message_open_container method_call CStruct "sv" in
  if r <? 0 then ret (error_origin r) else
  let '(r, method_call) :=
    sd_bus_message_append method_call [VStr "ExecStart"] in
  if r <? 0 then ret (error_origin r) else
  let '(r, method_call) :=
    sd_bus_message_open_container method_call CVariant "a(sasb)" in
  if r <? 0 then ret (error_origin r) else
  let '(r, method_call) :=
    sd_bus_message_open_container method_call CArray "(sasb)" in
  if r <? 0 then ret (error_origin r) else
  let '(r, method_call) :=
    sd_bus_message_open_container method_call CStruct "sasb" in
  if r <? 0 then ret (error_origin r) else
  exec0 <- exec_0 exec ;;
  let '(r, method_call) := sd_bus_message_append method_call [VStr exec0] in
  if r <? 0 then ret (error_origin r) else
  let '(r, method_call) :=
    sd_bus_message_open_container method_call CArray "s" in
  if r <? 0 then ret (error_origin r) else
  let '(r, method_call) := append_exec method_call (default [] exec) in
  if r <? 0 then ret (error_origin r) else
  let '(r, method_call) := sd_bus_message_close_container method_call in
  if r <? 0 then ret (error_origin r) else
  let '(r, method_call) := sd_bus_message_append method_call [VBool true] in
  if r <? 0 then ret (error_origin r) else
  let '(r, method_call) := sd_bus_message_close_container method_call in
  if r <? 0 then ret (error_origin r) else
  let '(r, method_call) := sd_bus_message_close_container method_call in
  if r <? 0 then ret (error_origin r) else
  let '(r, method_call) := sd_bus_message_close_container method_call in
  if r <? 0 then ret (error_origin r) else
  let '(r, method_call) := sd_bus_message_close_container method_call in
  if r <? 0 then ret (error_origin r) else
  let '(r, method_call) := sd_bus_message_close_container method_call in
  if r <? 0 then ret (error_origin r) else
  let '(r, method_call) :=
    sd_bus_message_append method_call [VArray "(sa(sv))" []] in
  if r <? 0 then ret (error_origin r) else
  r <- sd_bus_send Regular (bus_regular manager) method_call ;;
  if r <? 0 then ret (error_origin r) else
  ret 0.

Definition manager_on_name_activate (manager : Manager) (m : Message)
    (id : string) : M Z :=
  match services manager !! id with
  | None =>
      fprintf_stderr ("Activation request on unknown name '" +:+ id
                      +:+ "'" +:+ LF) ;;;
      ret 0
  | Some service =>
      if streq (s_name service) "org.freedesktop.systemd1" then ret 0 else
      match s_unit service with
      | Some unit =>
          r <- manager_request_activation manager (s_name service) unit ;;
          if negb (r =? 0) then ret (error_trace r) else ret 0
      | None =>
          r <- manager_start_transient_unit manager (s_name service)
                 (s_exec service) ;;
          if negb (r =? 0) then ret (error_trace r) else ret 0
      end
  end.

(** The [while (!sd_bus_message_at_end (m, false))] loop; [n] bounds the
    entries left at this level, each turn reads one. *)
Fixpoint read_environment (n : nat) (c : Cursor)
    (method_call : option Builder) : M (Z * Cursor * option Builder) :=
  if sd_bus_message_at_end c then ret (0, c, method_call) else
  match n with
  | O => ret (0, c, method_call)
  | S n' =>
      let '(r, kv, c) := sd_bus_message_read_entry_ss c in
      if r <? 0 then ret (error_origin r, c, method_call) else
      ok <- alloc ;;
      if negb ok then ret (error_origin (- ENOMEM), c, method_call) else
      let entry := match kv with
                   | Some (key, value) => key +:+ "=" +:+ value
                   | None => ""
                   end in
      let '(r, method_call) :=
        sd_bus_message_append method_call [VStr entry] in
      if r <? 0 then ret (error_origin r, c, method_call) else
      read_environment n' c method_call
  end.

Definition manager_on_set_activation_environment (manager : Manager)
    (m : Message) : M Z :=
  let c := cursor_of m in
  let '(r, method_call) :=
    sd_bus_message_new_method_call (bus_regular manager)
      (Some "org.freedesktop.systemd1") "/org/freedesktop/systemd1"
      "org.freedesktop.systemd1.Manager" "SetEnvironment" in
  if r <? 0 then ret (error_origin r) else
  let '(r, c) := sd_bus_message_enter_container c CArray "{ss}" in
  if r <? 0 then ret (error_origin r) else
  let '(r, method_call) :=
    sd_bus_message_open_container method_call CArray "s" in
  if r <? 0 then ret (error_origin r) else
  x <- read_environment (length (hd [] c)) c method_call ;;
  let '(r, c, method_call) := x in
  if r <? 0 then ret r else
  let '(r, method_call) := sd_bus_message_close_container method_call in
  if r <? 0 then ret (error_origin r) else
  let '(r, c) := sd_bus_message_exit_container c in
  if r <? 0 then ret (error_origin r) else
  r <- sd_bus_send Regular (bus_regular manager) method_call ;;
  if r <? 0 then ret (error_origin r) else
  ret 0.

Definition manager_on_message (m : Message) (manager : Manager) : M Z :=
  match m_path m with
  | None => ret 0
  | Some path =>
      r <- match c_string_prefix path "/org/bus1/DBus/Name/" with
           | Some suffix =>
               if sd_bus_message_is_signal m "org.bus1.DBus.Name" "Activate"
               then manager_on_name_activate manager m suffix
               else ret 0
           | None =>
               if streq path "/org/bus1/DBus/Broker"
               then if sd_bus_message_is_signal m "org.bus1.DBus.Broker"
                         "SetActivationEnvironment"
                    then manager_on_set_activation_environment manager m
                    else ret 0
               else ret 0
           end ;;
      ret (error_trace r)
  end.

(** [sd_bus_call_method]: builds the call and waits for its reply. *)
Definition sd_bus_call_method (l : Link) (bus : option Bus)
    (dest : option string) (path iface member : string) (vs : list Value)
    : M Z :=
  let '(r, m) := sd_bus_message_new_method_call bus dest path iface member in
  if r <? 0 then ret r else
  let '(r, m) := sd_bus_message_append m vs in
  if r <? 0 then ret r else
  sd_bus_call l bus m.

Definition manager_load_service (manager : Manager) (path : string)
    : M (Z * Manager) :=
  (if main_arg_verbose args
   then fprintf_stderr ("Loading service '" +:+ path +:+ "'" +:+ LF)
   else ret tt) ;;;
  h <- host ;;
  match h_key_file h path with
  | None =>
      fprintf_stderr ("Cannot load service file '" +:+ path +:+ "'" +:+ LF) ;;;
      ret (0, manager)
  | Some f =>
      let name := kf_name f in
      let user := kf_user f in
      let unit := kf_unit f in
      let exec := kf_exec f in
      match name with
      | None =>
          fprintf_stderr ("Missing name in service file '" +:+ path +:+ "'"
                          +:+ LF) ;;;
          ret (0, manager)
      | Some name =>
          if negb (bool_decide (is_Some unit))
             && negb (bool_decide (is_Some exec))
          then
            fprintf_stderr ("Missing exec or unit in service file '"
                            +:+ path +:+ "'" +:+ LF) ;;;
            ret (0, manager)
          else
          x <- service_new manager name unit exec ;;
          let '(r, service, manager) := x in
          if negb (r =? 0) then ret (error_trace r, manager) else
          match service with
          | None => halt HNullDeref
          | Some s =>
              ok <- alloc ;;
              if negb ok then
                manager <- service_free manager service ;;
                ret (error_origin (- ENOMEM), manager)
              else
              let object_path := "/org/bus1/DBus/Name/" +:+ s_id s in
              r <- sd_bus_call_method Controller (bus_controller manager)
                     None "/org/bus1/DBus/Broker" "org.bus1.DBus.Broker"
                     "AddName"
                     [VPath object_path; VStr (s_name s); VU32 0] ;;
              if r <? 0 then
                manager <- service_free manager service ;;
                ret (error_origin r, manager)
              else ret (0, manager)
          end
      end
  end.

(** The checks of the directory scan on an entry name: it does not start
    with a dot, is longer than the suffix and ends in it. *)
Definition is_service_file (d_name : string) : bool :=
  let suffix := ".service" in
  let n := String.length d_name in
  match d_name with
  | String "."%char _ => false
  | _ =>
      if (n <=? String.length suffix)%nat then false
      else String.eqb
             (String.substring (n - String.length suffix)
                               (String.length suffix) d_name)
             suffix
  end.

Fixpoint manager_load_services_loop (manager : Manager) (dirpath : string)
    (entries : list string) : M (Z * Manager) :=
  match entries with
  | [] => ret (0, manager)
  | d_name :: entries' =>
      if negb (is_service_file d_name)
      then manager_load_services_loop manager dirpath entries' else
      ok <- alloc ;;
      if negb ok then ret (error_origin (- ENOMEM), manager) else
      let path := dirpath +:+ "/" +:+ d_name in
      x <- manager_load_service manager path ;;
      let '(r, manager) := x in
      if negb (r =? 0) then ret (error_trace r, manager) else
      manager_load_services_loop manager dirpath entries'
  end.

Definition manager_load_services (manager : Manager) : M (Z * Manager) :=
  let dirpath :=
    match main_arg_servicedir args with
    | Some d => Some d
    | None =>
        if streq (main_arg_scope args) "user"
        then Some "/usr/share/dbus-1/services"
        else if streq (main_arg_scope args) "system"
        then Some "/usr/share/dbus-1/system-services"
        else None
    end in
  match dirpath with
  | None => ret (error_origin (- ENOTRECOVERABLE), manager)
  | Some dirpath =>
      h <- host ;;
      match h_opendir h dirpath with
      | inl errno =>
          if (errno =? ENOENT) || (errno =? ENOTDIR) then ret (0, manager)
          else ret (error_origin (- errno), manager)
      | inr entries => manager_load_services_loop manager dirpath entries
      end
  end.

Definition manager_add_listener (manager : Manager) : M Z :=
  let policypath :=
    match main_arg_policypath args with
    | Some p => Some p
    | None =>
        if streq (main_arg_scope args) "user"
        then Some "/usr/share/dbus-1/session.conf"
        else if streq (main_arg_scope args) "system"
        then Some "/usr/share/dbus-1/system.conf"
        else None
    end in
  match policypath with
  | None => ret (error_origin (- ENOTRECOVERABLE))
  | Some policypath =>
      h <- host ;;
      let r := h_config_parser_read h policypath in
      if negb (r =? 0) then ret (error_fold r) else
      let r := h_policy_import h in
      if negb (r =? 0) then ret (error_fold r) else
      let '(r, m) :=
        sd_bus_message_new_method_call (bus_controller manager) None
          "/org/bus1/DBus/Broker" "org.bus1.DBus.Broker" "AddListener" in
      if r <? 0 then ret (error_origin r) else
      let '(r, m) :=
        sd_bus_message_append m
          [VPath "/org/bus1/DBus/Listener/0"; VFd (fd_listen manager);
           VStr policypath] in
      if r <? 0 then ret (error_origin r) else
      let r := (h_policy_export h).1 in
      if negb (r =? 0) then ret (error_fold r) else
      let '(_, m) := sd_bus_message_append m (h_policy_export h).2 in
      r <- sd_bus_call Controller (bus_controller manager) m ;;
      if r <? 0 then ret (error_origin r) else
      ret 0
  end.

Definition manager_connect (manager : Manager) : M (Z * Manager) :=
  if bool_decide (is_Some (bus_regular manager))
  then halt (HAssert "!manager->bus_regular") else
  s <- sys_socket ;;
  if s <? 0 then ret (error_origin s, manager) else
  (* getsockname and connect answer -1, and the code hands on [-r] *)
  if fd_listen manager <? 0
  then c_close s ;;; ret (error_origin (- (-1)), manager) else
  perform (EConnect s (fd_listen manager)) ;;;
  ret (0, set_bus_regular manager
            (Some {| bus_fd := Some s; bus_started := true;
                     bus_client := true |})).

(** [sd_event_loop]: events are dispatched in the order they arrive until
    [sd_event_exit] was called; a loop that is left with nothing to wait
    for blocks.  A watched signal without a handler asks for exit code 0;
    what a message filter answers does not stop the loop. *)
Fixpoint sd_event_loop (manager : Manager) (e : SdEvent)
    (pending : list LoopEvent) : M Z :=
  match ev_exit e with
  | Some code => ret code
  | None =>
      match pending with
      | [] => halt HBlocked
      | OnMessage m :: rest =>
          manager_on_message m manager ;;;
          sd_event_loop manager e rest
      | OnChild si_code si_status :: rest =>
          match ev_child e with
          | None => sd_event_loop manager e rest
          | Some _ =>
              x <- manager_on_child_exit e si_code si_status ;;
              sd_event_loop manager x.2 rest
          end
      | OnSignal signo :: rest =>
          if bool_decide (signo ∈ ev_signals e)
          then sd_event_loop manager (sd_event_exit e 0).2 rest
          else sd_event_loop manager e rest
      end
  end.

Definition manager_run (manager : Manager) : M (Z * Manager) :=
  if negb (0 <=? fd_listen manager)
  then halt (HAssert "manager->fd_listen >= 0") else
  controller0 <- fresh_fd ;;
  controller1 <- fresh_fd ;;
  match bus_controller manager with
  | None =>
      sys_close controller0 ;;; sys_close controller1 ;;;
      ret (error_origin (- EINVAL), manager)
  | Some b =>
      let manager :=
        set_bus_controller manager
          (Some {| bus_fd := Some controller0;
                   bus_started := bus_started b;
                   bus_client := bus_client b |}) in
      x <- manager_fork manager controller1 ;;
      let '(r, manager) := x in
      if negb (r =? 0)
      then sys_close controller1 ;;; ret (error_trace r, manager) else
      let manager :=
        set_bus_controller manager
          (Some {| bus_fd := Some controller0; bus_started := true;
                   bus_client := bus_client b |}) in
      x <- manager_load_services manager ;;
      let '(r, manager) := x in
      if negb (r =? 0) then ret (error_trace r, manager) else
      r <- manager_add_listener manager ;;
      if negb (r =? 0) then ret (error_trace r, manager) else
      x <- manager_connect manager ;;
      let '(r, manager) := x in
      if negb (r =? 0) then ret (error_trace r, manager) else
      match event manager with
      | None => ret (error_origin (- EINVAL), manager)
      | Some e =>
          h <- host ;;
          r <- sd_event_loop manager e (h_loop h) ;;
          if r <? 0 then ret (error_origin r, manager)
          else if 0 <? r then ret (MAIN_FAILED, manager)
          else ret (0, manager)
      end
  end.

(** The first branch of [run]: which path, if any, [path] points to.  The
    user scope formats [listen_path] and leaves [path] NULL. *)
Definition run_path : M (Z * option string) :=
  match main_arg_listen args with
  | Some l => ret (0, Some l)
  | None =>
      if streq (main_arg_scope args) "user" then
        h <- host ;;
        ok <- alloc ;;
        let listen_path :=
          match h_xdg_runtime_dir h with
          | Some t => t +:+ "/bus"
          | None => "/var/run/user/" +:+ decimal (h_getuid h) +:+ "/bus"
          end in
        if negb ok then ret (error_origin (- ENOMEM), None)
        else ret (0, None)
      else if streq (main_arg_scope args) "system"
      then ret (0, Some "/var/run/dbus/system_bus_socket")
      else ret (error_origin (- ENOTRECOVERABLE), None)
  end.

(** [run] between [manager_new] and the cleanup of [manager]. *)
Definition run_manager (manager : Manager) : M (Z * Manager) :=
  x <- run_path ;;
  let '(r, path) := x in
  if negb (r =? 0) then ret (r, manager) else
  match path with
  | None => halt HNullDeref
  | Some path =>
      if streq path "inherit" then
        x <- manager_listen_inherit manager ;;
        let '(r, manager) := x in
        if negb (r =? 0) then ret (error_trace r, manager) else
        (if main_arg_verbose args
         then fprintf_stderr ("Listening on inherited socket" +:+ LF)
         else ret tt) ;;;
        x <- manager_run manager ;;
        let '(r, manager) := x in
        ret (error_trace r, manager)
      else
      match path with
      | String "/"%char _ =>
          r <- (if main_arg_force args then
                  r <- sys_unlink path ;;
                  if r <? 0 then
                    if negb (r =? - ENOENT) then ret (error_origin r)
                    else (if main_arg_verbose args
                          then fprintf_stderr
                                 ("No conflict on socket '" +:+ path +:+ "'"
                                  +:+ LF)
                          else ret tt) ;;; ret 0
                  else (if main_arg_verbose args
                        then fprintf_stderr
                               ("Forcibly removed conflicting socket '"
                                +:+ path +:+ "'" +:+ LF)
                        else ret tt) ;;; ret 0
                else ret 0) ;;
          if negb (r =? 0) then ret (r, manager) else
          x <- manager_listen_path manager path ;;
          let '(r, manager) := x in
          if negb (r =? 0) then ret (error_trace r, manager) else
          let unlink_path := path in
          (if main_arg_verbose args
           then fprintf_stderr ("Listening on socket '" +:+ path +:+ "'"
                                +:+ LF)
           else ret tt) ;;;
          x <- manager_run manager ;;
          let '(r, manager) := x in
          let r := error_trace r in
          r <- sys_unlink unlink_path ;;
          if r <? 0 then ret (error_origin r, manager) else
          (if main_arg_verbose args
           then fprintf_stderr ("Cleaned up listener socket '"
                                +:+ unlink_path +:+ "'" +:+ LF)
           else ret tt) ;;;
          ret (r, manager)
      | _ =>
          fprintf_stderr ("Invalid listener socket '" +:+ path +:+ "'"
                          +:+ LF) ;;;
          ret (MAIN_FAILED, manager)
      end
  end.

Definition run : M Z :=
  x <- manager_new ;;
  let '(r, manager) := x in
  if negb (r =? 0) then ret (error_trace r) else
  match manager with
  | None => halt HNullDeref
  | Some manager =>
      x <- run_manager manager ;;
      let '(r, manager) := x in
      manager_free (Some manager) ;;;
      ret r
  end.

(** [main], from the answer of [parse_argv] on; the signal mask does not
    show in the world.  The result is the exit status of the process. *)
Definition main (parsed : Z) : M Z :=
  r <- (if negb (parsed =? 0) then ret parsed else run) ;;
  let r := error_trace r in
  (if (r <? 0) && main_arg_verbose args
   then fprintf_stderr ("Exiting due to fatal error: " +:+ pretty r +:+ LF)
   else ret tt) ;;;
  ret (if (r =? 0) || (r =? MAIN_EXIT) then 0 else 1).

End Launcher.

(** * Properties *)

(** ** Vocabulary *)

(** The world after the events [es] happened in it. *)
Definition happened (es : list Event) (w : World) : World :=
  set_trace
    (set_next_fd w (fold_left (fun n e => release e n) es (w_next_fd w)))
    (w_trace w ++ es).

(** The line a verbose launcher writes before it goes on. *)
Definition verbose_line (args : Args) (text : string) : list Event :=
  if main_arg_verbose args then [EStderr text] else [].

Definition is_activation_request (e : Event) : bool :=
  match e with
  | ESend Regular m =>
      match m_kind m with
      | Signal => String.eqb (m_member m) "ActivationRequest"
      | MethodCall => false
      end
  | _ => false
  end.

Definition is_start_transient_unit (e : Event) : bool :=
  match e with
  | ESend Regular m | ECall Regular m =>
      match m_kind m with
      | MethodCall => String.eqb (m_member m) "StartTransientUnit"
      | Signal => false
      end
  | _ => false
  end.

Definition is_stderr (e : Event) : bool :=
  match e with
  | EStderr _ => true
  | _ => false
  end.

Definition on_regular_link (e : Event) : bool :=
  match e with
  | ESend Regular _ | ECall Regular _ => true
  | _ => false
  end.

(** The "activation request" notification that names [unit]. *)
Definition activation_request (unit : string) : Message :=
  {| m_kind := Signal;
     m_destination := Some "org.freedesktop.systemd1";
     m_path := Some "/org/freedesktop/DBus";
     m_interface := "org.freedesktop.systemd1.Activator";
     m_member := "ActivationRequest";
     m_body := [VStr unit] |}.

(** The manager as [manager_new] leaves it. *)
Definition fresh_manager : Manager :=
  {| event := Some {| ev_signals := [SIGTERM; SIGINT];
                      ev_child := None; ev_exit := None |};
     bus_controller := Some sd_bus_new;
     bus_regular := None;
     fd_listen := -1;
     services := ∅;
     service_ids := 0 |}.

(** The exit code the child's termination asks the event loop for, and the
    exit status the launcher makes of it. *)
Definition exit_code (si_code si_status : Z) : Z :=
  if si_code =? CLD_EXITED then si_status else EXIT_FAILURE.

Definition exit_status (si_code si_status : Z) : Z :=
  if exit_code si_code si_status =? 0 then 0 else 1.

(** ** Sample hosts, worlds and managers *)

Module Sample.

(** A host without a service directory, whose broker answers every call
    and exits with status 42. *)
Definition host : Host :=
  {| h_xdg_runtime_dir := Some "/run/user/1000";
     h_getuid := 1000;
     h_listen_fds := 1;
     h_is_socket := 1;
     h_bind := fun _ => 0;
     h_unlink := fun _ => 0;
     h_opendir := fun _ => inl ENOENT;
     h_key_file := fun _ => None;
     h_config_parser_read := fun _ => 0;
     h_policy_import := 0;
     h_policy_export := (0, []);
     h_broker_reply := fun _ => 1;
     h_fork := 4242;
     h_execve := true;
     h_loop := [OnChild CLD_EXITED 42] |}.

Definition world : World :=
  {| w_host := host; w_trace := []; w_heap := 64; w_next_fd := 4;
     w_files := ∅ |}.

Definition connected : Bus :=
  {| bus_fd := Some 7; bus_started := true; bus_client := true |}.

(** A manager in the event loop, with an empty registry. *)
Definition manager : Manager :=
  {| event := Some {| ev_signals := [SIGTERM; SIGINT];
                      ev_child := Some 4242; ev_exit := None |};
     bus_controller := Some {| bus_fd := Some 5; bus_started := true;
                               bus_client := false |};
     bus_regular := Some connected;
     fd_listen := 3;
     services := ∅;
     service_ids := 0 |}.

(** The manager as [manager_new] leaves it. *)
Definition fresh : Manager := fresh_manager.

(** A path of 109 characters, one more than [sun_path] holds. *)
Definition long_path : string :=
  String.string_of_list_ascii ("/"%char :: replicate 108 "a"%char).

(** [--scope user] without [--listen]. *)
Definition user_args : Args :=
  {| main_arg_broker := "/usr/bin/dbus-broker";
     main_arg_force := false;
     main_arg_listen := None;
     main_arg_scope := "user";
     main_arg_servicedir := None;
     main_arg_policypath := None;
     main_arg_verbose := false |}.

(** [--listen /run/bus --verbose] *)
Definition path_args : Args :=
  {| main_arg_broker := "/usr/bin/dbus-broker";
     main_arg_force := false;
     main_arg_listen := Some "/run/bus";
     main_arg_scope := "system";
     main_arg_servicedir := None;
     main_arg_policypath := None;
     main_arg_verbose := true |}.

(** [--listen inherit] *)
Definition inherit_args : Args :=
  {| main_arg_broker := "/usr/bin/dbus-broker";
     main_arg_force := false;
     main_arg_listen := Some "inherit";
     main_arg_scope := "system";
     main_arg_servicedir := None;
     main_arg_policypath := None;
     main_arg_verbose := false |}.

Definition with_service (s : Service) : Manager :=
  set_service_ids (set_services manager {[ s_id s := s ]}) 1.

Definition activate (id : string) : Message :=
  {| m_kind := Signal; m_destination := None;
     m_path := Some ("/org/bus1/DBus/Name/" +:+ id);
     m_interface := "org.bus1.DBus.Name"; m_member := "Activate";
     m_body := [] |}.

Definition set_activation_environment (env : list (string * string))
    : Message :=
  {| m_kind := Signal; m_destination := None;
     m_path := Some "/org/bus1/DBus/Broker";
     m_interface := "org.bus1.DBus.Broker";
     m_member := "SetActivationEnvironment";
     m_body := [VArray "{ss}"
                  (map (fun kv => VEntry [VStr kv.1; VStr kv.2]) env)] |}.

(** The service manager's own name, with a unit and a command line. *)
Definition pid1 : Service :=
  {| s_rb := true; s_name := "org.freedesktop.systemd1";
     s_unit := Some "systemd.service"; s_exec := Some ["/bin/false"];
     s_id := "1" |}.

(** A service with a unit and a command line. *)
Definition both : Service :=
  {| s_rb := true; s_name := "org.example.Both";
     s_unit := Some "both.service"; s_exec := Some ["/bin/x"; "--a"];
     s_id := "1" |}.

(** Three service definitions. *)
Definition three_defs : list (string * option string * option (list string)) :=
  [("org.example.A", Some "a.service", None);
   ("org.example.B", None, Some ["/bin/b"; "--now"]);
   ("org.example.C", Some "c.service", Some ["/bin/c"])].

(** A service file with a name, a unit and a command line. *)
Definition both_file : KeyFile :=
  {| kf_name := Some "org.example.Both"; kf_user := None;
     kf_unit := Some "both.service"; kf_exec := Some ["/bin/x"; "--a"] |}.

(** The sample world, on a host where every service file reads as [f]. *)
Definition world_with_file (f : KeyFile) : World :=
  {| w_host :=
       {| h_xdg_runtime_dir := h_xdg_runtime_dir host;
          h_getuid := h_getuid host;
          h_listen_fds := h_listen_fds host;
          h_is_socket := h_is_socket host;
          h_bind := h_bind host;
          h_unlink := h_unlink host;
          h_opendir := h_opendir host;
          h_key_file := fun _ => Some f;
          h_config_parser_read := h_config_parser_read host;
          h_policy_import := h_policy_import host;
          h_policy_export := h_policy_export host;
          h_broker_reply := h_broker_reply host;
          h_fork := h_fork host;
          h_execve := h_execve host;
          h_loop := h_loop host |};
     w_trace := []; w_heap := 64; w_next_fd := 4; w_files := ∅ |}.

End Sample.

(** The transient-unit-start call for the service [name] with the command
    line [exec], whose first element is [path]. *)
Definition start_transient_unit (name path : string) (exec : list string)
    : Message :=
  {| m_kind := MethodCall;
     m_destination := Some "org.freedesktop.systemd1";
     m_path := Some "/org/freedesktop/systemd1";
     m_interface := "org.freedesktop.systemd1.Manager";
     m_member := "StartTransientUnit";
     m_body :=
       [VStr ("dbus-" +:+ name +:+ ".service");
        VStr "fail";
        VArray "(sv)"
          [VStruct
             [VStr "ExecStart";
              VVariant "a(sasb)"
                [VArray "(sasb)"
                   [VStruct [VStr path; VArray "s" (map VStr exec);
                             VBool true]]]]];
        VArray "(sa(sv))" []] |}.

(** The wire form of an environment mapping: an array of dict entries. *)
Definition environment_entries (env : list (string * string)) : list Value :=
  map (fun kv => VEntry [VStr kv.1; VStr kv.2]) env.

Definition environment_strings (env : list (string * string)) : list string :=
  map (fun kv => kv.1 +:+ "=" +:+ kv.2) env.

(** The "set environment" call that carries the strings [entries]. *)
Definition set_environment (entries : list string) : Message :=
  {| m_kind := MethodCall;
     m_destination := Some "org.freedesktop.systemd1";
     m_path := Some "/org/freedesktop/systemd1";
     m_interface := "org.freedesktop.systemd1.Manager";
     m_member := "SetEnvironment";
     m_body := [VArray "s" (map VStr entries)] |}.

(** The steps of the manager's teardown, and the step an event belongs to. *)
Inductive TeardownStep :=
| CloseRegular
| CloseController
| CloseListener
| DropRegistry.

Definition teardown_step (e : Event) : option TeardownStep :=
  match e with
  | EBusClose Regular => Some CloseRegular
  | EBusClose Controller => Some CloseController
  | EClose _ => Some CloseListener
  | EFreeService _ => Some DropRegistry
  | _ => None
  end.

Definition closes_listener (manager : Manager) : list Event :=
  if fd_listen manager <? 0 then [] else [EClose (fd_listen manager)].

Definition closes_bus (l : Link) (bus : option Bus) : list Event :=
  match bus with
  | Some _ => [EBusClose l; EBusUnref l]
  | None => []
  end.

Definition drops_event_loop (manager : Manager) : list Event :=
  match event manager with
  | Some _ => [EEventUnref]
  | None => []
  end.

(** A service with a unit or a command line; a service with exactly one. *)
Definition has_unit_or_exec (s : Service) : bool :=
  bool_decide (is_Some (s_unit s)) || bool_decide (is_Some (s_exec s)).

Definition unit_xor_exec (s : Service) : bool :=
  xorb (bool_decide (is_Some (s_unit s))) (bool_decide (is_Some (s_exec s))).

(** The id that the next [service_new] hands out. *)
Definition next_id (manager : Manager) : string :=
  decimal ((service_ids manager + 1) mod 2 ^ 64).

(** The service [service_new] links into the tree. *)
Definition new_service (manager : Manager) (name : string)
    (unit : option string) (exec : option (list string)) : Service :=
  {| s_rb := true; s_name := name; s_unit := unit; s_exec := exec;
     s_id := next_id manager |}.

(** A service definition: the name, the unit and the command line. *)
Definition ServiceDef : Type := string * option string * option (list string).

(** Registering definitions in sequence: [service_new] for each in turn,
    until one fails.  The result lists the services in the order they were
    made. *)
Fixpoint register_each (manager : Manager) (defs : list ServiceDef)
    : M (list Service * Manager) :=
  match defs with
  | [] => ret ([], manager)
  | d :: defs' =>
      x <- service_new manager d.1.1 d.1.2 d.2 ;;
      match x.1.2 with
      | Some s =>
          y <- register_each x.2 defs' ;;
          ret (s :: y.1, y.2)
      | None => ret ([], x.2)
      end
  end.

(** The allocations [service_new] makes for a definition. *)
Definition allocations (d : ServiceDef) : nat :=
  2 + (if d.1.2 is Some _ then 1 else 0)
    + (if d.2 is Some e then 1 + length e else 0).

Definition definition_of (s : Service) : ServiceDef :=
  (s_name s, s_unit s, s_exec s).

(** Every id in the registry was handed out by the counter. *)
Definition ids_from_counter (manager : Manager) : Prop :=
  0 <= service_ids manager
  /\ forall k s, services manager !! k = Some s ->
                 exists n, 1 <= n <= service_ids manager /\ k = decimal n.


(** ** Further vocabulary *)

(** The policy file [manager_add_listener] reads. *)
Definition policy_path (args : Args) : option string :=
  match main_arg_policypath args with
  | Some p => Some p
  | None =>
      if streq (main_arg_scope args) "user"
      then Some "/usr/share/dbus-1/session.conf"
      else if streq (main_arg_scope args) "system"
      then Some "/usr/share/dbus-1/system.conf"
      else None
  end.

(** The call that hands the listener and its policy to the broker. *)
Definition add_listener (fd : Z) (policypath : string) (policy : list Value)
    : Message :=
  {| m_kind := MethodCall;
     m_destination := None;
     m_path := Some "/org/bus1/DBus/Broker";
     m_interface := "org.bus1.DBus.Broker";
     m_member := "AddListener";
     m_body := [VPath "/org/bus1/DBus/Listener/0"; VFd fd; VStr policypath]
               ++ policy |}.

(** The call that registers an activatable name with the broker. *)
Definition add_name (id name : string) : Message :=
  {| m_kind := MethodCall;
     m_destination := None;
     m_path := Some "/org/bus1/DBus/Broker";
     m_interface := "org.bus1.DBus.Broker";
     m_member := "AddName";
     m_body := [VPath ("/org/bus1/DBus/Name/" +:+ id); VStr name; VU32 0] |}.

(** The signal with which the broker asks for the activation of [id]. *)
Definition activate_signal (id : string) (body : list Value) : Message :=
  {| m_kind := Signal;
     m_destination := None;
     m_path := Some ("/org/bus1/DBus/Name/" +:+ id);
     m_interface := "org.bus1.DBus.Name";
     m_member := "Activate";
     m_body := body |}.

(** An event that leaves the descriptors as they are. *)
Definition no_close (e : Event) : bool :=
  match e with
  | EClose _ => false
  | _ => true
  end.

Definition on_controller_link (e : Event) : bool :=
  match e with
  | ESend Controller _ | ECall Controller _ => true
  | _ => false
  end.

(** What [manager_run] makes of the exit code of the event loop. *)
Definition run_result (code : Z) : Z :=
  if code <? 0 then error_origin code
  else if 0 <? code then MAIN_FAILED else 0.

(** What [--force] does to the socket path before it is bound. *)
Definition forced_events (args : Args) (path : string) (w : World)
    : list Event :=
  if main_arg_force args
  then if bool_decide (path ∈ w_files w)
       then EUnlink path
            :: verbose_line args ("Forcibly removed conflicting socket '"
                                  +:+ path +:+ "'" +:+ LF)
       else verbose_line args ("No conflict on socket '" +:+ path +:+ "'"
                               +:+ LF)
  else [].

(** The events with which [manager_free] takes a running manager down. *)
Definition teardown_events (fd : Z) : list Event :=
  [EClose fd; EBusClose Regular; EBusUnref Regular; EBusClose Controller;
   EBusUnref Controller; EEventUnref; EFreeManager].

(** ** Further samples *)

Module Case.

(** The sample world with a socket file in the way. *)
Definition world_in_use : World := set_files Sample.world {["/run/bus"]}.

(** A method call on the object path of a name: not a signal. *)
Definition method_call_on_name : Message :=
  {| m_kind := MethodCall; m_destination := None;
     m_path := Some "/org/bus1/DBus/Name/1";
     m_interface := "org.bus1.DBus.Name"; m_member := "Activate";
     m_body := [] |}.

(** The sample world with the service file [f], on a host whose broker
    refuses every call. *)
Definition world_refusing (f : KeyFile) : World :=
  {| w_host :=
       {| h_xdg_runtime_dir := h_xdg_runtime_dir Sample.host;
          h_getuid := h_getuid Sample.host;
          h_listen_fds := h_listen_fds Sample.host;
          h_is_socket := h_is_socket Sample.host;
          h_bind := h_bind Sample.host;
          h_unlink := h_unlink Sample.host;
          h_opendir := h_opendir Sample.host;
          h_key_file := fun _ => Some f;
          h_config_parser_read := h_config_parser_read Sample.host;
          h_policy_import := h_policy_import Sample.host;
          h_policy_export := h_policy_export Sample.host;
          h_broker_reply := fun _ => -13;
          h_fork := h_fork Sample.host;
          h_execve := h_execve Sample.host;
          h_loop := h_loop Sample.host |};
     w_trace := []; w_heap := 64; w_next_fd := 4; w_files := ∅ |}.

(** The sample world on a host whose [fork] answers [pid]. *)
Definition world_with_fork (pid : Z) : World :=
  {| w_host :=
       {| h_xdg_runtime_dir := h_xdg_runtime_dir Sample.host;
          h_getuid := h_getuid Sample.host;
          h_listen_fds := h_listen_fds Sample.host;
          h_is_socket := h_is_socket Sample.host;
          h_bind := h_bind Sample.host;
          h_unlink := h_unlink Sample.host;
          h_opendir := h_opendir Sample.host;
          h_key_file := h_key_file Sample.host;
          h_config_parser_read := h_config_parser_read Sample.host;
          h_policy_import := h_policy_import Sample.host;
          h_policy_export := h_policy_export Sample.host;
          h_broker_reply := h_broker_reply Sample.host;
          h_fork := pid;
          h_execve := h_execve Sample.host;
          h_loop := h_loop Sample.host |};
     w_trace := []; w_heap := 64; w_next_fd := 4; w_files := ∅ |}.

(** A [SetActivationEnvironment] signal that carries strings instead of
    pairs. *)
Definition environment_as_strings : Message :=
  {| m_kind := Signal; m_destination := None;
     m_path := Some "/org/bus1/DBus/Broker";
     m_interface := "org.bus1.DBus.Broker";
     m_member := "SetActivationEnvironment";
     m_body := [VArray "s" [VStr "A=1"; VStr "B=2"]] |}.

(** [--listen run/bus] *)
Definition relative_args : Args :=
  {| main_arg_broker := "/usr/bin/dbus-broker";
     main_arg_force := false;
     main_arg_listen := Some "run/bus";
     main_arg_scope := "system";
     main_arg_servicedir := None;
     main_arg_policypath := None;
     main_arg_verbose := false |}.

End Case.

(** The service file that holds the definition [d]. *)
Definition holds (f : KeyFile) (d : ServiceDef) : Prop :=
  kf_name f = Some d.1.1 /\ kf_unit f = d.1.2 /\ kf_exec f = d.2
  /\ (is_Some d.1.2 \/ is_Some d.2).

(** The [AddName] calls for definitions that get the ids after [k]. *)
Fixpoint add_names (k : Z) (defs : list ServiceDef) : list Event :=
  match defs with
  | [] => []
  | d :: defs' =>
      ECall Controller (add_name (decimal (k + 1)) d.1.1)
      :: add_names (k + 1) defs'
  end.

(** The service [service_new] makes of the definition [d] under [id]. *)
Definition service_of (id : string) (d : ServiceDef) : Service :=
  {| s_rb := true; s_name := d.1.1; s_unit := d.1.2; s_exec := d.2;
     s_id := id |}.

(** The manager [m'] has the event loop, the connections and the listener
    of [m]. *)
Definition same_links (m m' : Manager) : Prop :=
  event m' = event m /\ bus_controller m' = bus_controller m
  /\ bus_regular m' = bus_regular m /\ fd_listen m' = fd_listen m.

(** The world [w'] has the host, the descriptors and the files of [w]. *)
Definition same_place (w w' : World) : Prop :=
  w_host w' = w_host w /\ w_next_fd w' = w_next_fd w
  /\ w_files w' = w_files w.

(** The allocations of the scan for the service files of [defs]: the path,
    the service and the object path of each. *)
Definition scan_allocations (defs : list ServiceDef) : nat :=
  sum_list (map (fun d => allocations d + 2)%nat defs).

(** The manager after [service_new] linked the service of a definition. *)
Definition with_new_service (manager : Manager) (name : string)
    (unit : option string) (exec : option (list string)) : Manager :=
  set_services
    (set_service_ids manager ((service_ids manager + 1) mod 2 ^ 64))
    (<[next_id manager := new_service manager name unit exec]>
       (services manager)).

(** The directory [manager_load_services] scans. *)
Definition service_dir (args : Args) : option string :=
  match main_arg_servicedir args with
  | Some d => Some d
  | None =>
      if streq (main_arg_scope args) "user"
      then Some "/usr/share/dbus-1/services"
      else if streq (main_arg_scope args) "system"
      then Some "/usr/share/dbus-1/system-services"
      else None
  end.

(** The service file that is read at [path] on the host [h] holds [d]. *)
Definition file_holds (h : Host) (path : string) (d : ServiceDef) : Prop :=
  exists f, h_key_file h path = Some f /\ holds f d.

(** The service files of a directory hold the definitions [defs], in the
    order of the directory. *)
Definition directory_holds (h : Host) (dirpath : string)
    (entries : list string) (defs : list ServiceDef) : Prop :=
  Forall2 (fun d_name d => file_holds h (dirpath +:+ "/" +:+ d_name) d)
          (filter is_service_file entries) defs.

Module Directory.

(** Two service files among entries the scan has to pass over. *)
Definition entries : list string :=
  ["."; ".."; "a.service"; "README"; ".hidden.service"; ".service";
   "b.service"; "c.service.bak"].

(** A directory without service files. *)
Definition plain_entries : list string :=
  ["."; ".."; "passwd"; "service"; ".service"; "x.services"].

Definition a_file : KeyFile :=
  {| kf_name := Some "org.example.A"; kf_user := None;
     kf_unit := Some "a.service"; kf_exec := None |}.

Definition b_file : KeyFile :=
  {| kf_name := Some "org.example.B"; kf_user := Some "root";
     kf_unit := None; kf_exec := Some ["/bin/b"; "--now"] |}.

Definition defs : list ServiceDef :=
  [("org.example.A", Some "a.service", None);
   ("org.example.B", None, Some ["/bin/b"; "--now"])].

(** The sample host with the two directories, whose event loop gets
    [loop]. *)
Definition host_with (loop : list LoopEvent) : Host :=
  {| h_xdg_runtime_dir := h_xdg_runtime_dir Sample.host;
     h_getuid := h_getuid Sample.host;
     h_listen_fds := h_listen_fds Sample.host;
     h_is_socket := h_is_socket Sample.host;
     h_bind := h_bind Sample.host;
     h_unlink := h_unlink Sample.host;
     h_opendir := fun d => if String.eqb d "/srv" then inr entries
                           else if String.eqb d "/etc" then inr plain_entries
                           else inl ENOENT;
     h_key_file := fun p => if String.eqb p "/srv/a.service" then Some a_file
                            else if String.eqb p "/srv/b.service"
                                 then Some b_file else None;
     h_config_parser_read := h_config_parser_read Sample.host;
     h_policy_import := h_policy_import Sample.host;
     h_policy_export := h_policy_export Sample.host;
     h_broker_reply := h_broker_reply Sample.host;
     h_fork := h_fork Sample.host;
     h_execve := h_execve Sample.host;
     h_loop := loop |}.

Definition host : Host := host_with (h_loop Sample.host).

Definition world : World :=
  {| w_host := host; w_trace := []; w_heap := 64; w_next_fd := 4;
     w_files := ∅ |}.

(** [--servicedir /srv] *)
Definition args : Args :=
  {| main_arg_broker := "/usr/bin/dbus-broker";
     main_arg_force := false;
     main_arg_listen := Some "inherit";
     main_arg_scope := "system";
     main_arg_servicedir := Some "/srv";
     main_arg_policypath := None;
     main_arg_verbose := true |}.

(** [--servicedir /etc] *)
Definition plain_args : Args :=
  {| main_arg_broker := "/usr/bin/dbus-broker";
     main_arg_force := false;
     main_arg_listen := Some "inherit";
     main_arg_scope := "system";
     main_arg_servicedir := Some "/etc";
     main_arg_policypath := None;
     main_arg_verbose := true |}.

End Directory.

(** What the child of the fork ends as. *)
Definition child_end (args : Args) (h : Host) (fd_controller : Z) : Halt :=
  if h_execve h
  then HExec (main_arg_broker args)
             ["dbus-broker"; "-v"; "--controller"; decimal fd_controller]
  else HExit 1.

(** ** The command line *)

(** The values [getopt_long] returns for the options: the character of a
    short option, or the number the table gives a long one. *)
Definition chr (c : ascii) : Z := Z.of_N (N_of_ascii c).

Definition ARG_VERSION : Z := 256.
Definition ARG_LISTEN : Z := 257.
Definition ARG_SCOPE : Z := 258.

(** One answer of [getopt_long]: the value it returns, and [optarg]. *)
Definition Getopt : Type := Z * option string.

Definition set_main_arg_verbose (args : Args) (b : bool) : Args :=
  {| main_arg_broker := main_arg_broker args;
     main_arg_force := main_arg_force args;
     main_arg_listen := main_arg_listen args;
     main_arg_scope := main_arg_scope args;
     main_arg_servicedir := main_arg_servicedir args;
     main_arg_policypath := main_arg_policypath args;
     main_arg_verbose := b |}.

Definition set_main_arg_force (args : Args) (b : bool) : Args :=
  {| main_arg_broker := main_arg_broker args;
     main_arg_force := b;
     main_arg_listen := main_arg_listen args;
     main_arg_scope := main_arg_scope args;
     main_arg_servicedir := main_arg_servicedir args;
     main_arg_policypath := main_arg_policypath args;
     main_arg_verbose := main_arg_verbose args |}.

Definition set_main_arg_listen (args : Args) (l : option string) : Args :=
  {| main_arg_broker := main_arg_broker args;
     main_arg_force := main_arg_force args;
     main_arg_listen := l;
     main_arg_scope := main_arg_scope args;
     main_arg_servicedir := main_arg_servicedir args;
     main_arg_policypath := main_arg_policypath args;
     main_arg_verbose := main_arg_verbose args |}.

Definition set_main_arg_scope (args : Args) (s : string) : Args :=
  {| main_arg_broker := main_arg_broker args;
     main_arg_force := main_arg_force args;
     main_arg_listen := main_arg_listen args;
     main_arg_scope := s;
     main_arg_servicedir := main_arg_servicedir args;
     main_arg_policypath := main_arg_policypath args;
     main_arg_verbose := main_arg_verbose args |}.

(** What [help] prints to stdout. *)
Definition help (program_invocation_short_name : string) : string :=
  program_invocation_short_name +:+ " [GLOBALS...] ..." +:+ LF +:+ LF
  +:+ "Linux D-Bus Message Broker Launcher" +:+ LF +:+ LF
  +:+ "  -h --help             Show this help" +:+ LF
  +:+ "     --version          Show package version" +:+ LF
  +:+ "  -v --verbose          Print progress to terminal" +:+ LF
  +:+ "     --listen PATH      Specify path of listener socket" +:+ LF
  +:+ "  -f --force            Ignore existing listener sockets" +:+ LF
  +:+ "     --scope SCOPE      Scope of message bus" +:+ LF.

Section CommandLine.

(** [PACKAGE_VERSION], [program_invocation_name] and
    [program_invocation_short_name]. *)
Variable PACKAGE_VERSION : Z.
Variable program_invocation_name : string.
Variable program_invocation_short_name : string.

(** [parse_argv].  [answers] are the answers of [getopt_long] in turn; the
    loop ends with the first below zero, or when there is none left.
    [rest] is [argv] from [optind] on.  The result carries the arguments as
    the options left them and what went to stdout. *)
Fixpoint parse_argv (answers : list Getopt) (rest : list string)
    (args : Args) : M (Z * Args * string) :=
  let done :=
    match rest with
    | [] => ret (0, args, "")
    | argv_optind :: _ =>
        fprintf_stderr (program_invocation_name
                        +:+ ": invalid arguments -- '" +:+ argv_optind
                        +:+ "'" +:+ LF) ;;;
        ret (MAIN_FAILED, args, "")
    end in
  match answers with
  | [] => done
  | (c, optarg) :: answers' =>
      if c <? 0 then done
      else if c =? chr "h" then
        ret (MAIN_EXIT, args, help program_invocation_short_name)
      else if c =? ARG_VERSION then
        ret (MAIN_EXIT, args,
             "dbus-broker-launch " +:+ pretty PACKAGE_VERSION +:+ LF)
      else if c =? chr "v" then
        parse_argv answers' rest (set_main_arg_verbose args true)
      else if c =? ARG_LISTEN then
        parse_argv answers' rest (set_main_arg_listen args optarg)
      else if c =? chr "f" then
        parse_argv answers' rest (set_main_arg_force args true)
      else if c =? ARG_SCOPE then
        match optarg with
        | None => halt HNullDeref
        | Some scope =>
            if negb (streq scope "system") && negb (streq scope "user")
            then
              fprintf_stderr (program_invocation_name
                              +:+ ": invalid message bus scope -- '"
                              +:+ scope +:+ "'" +:+ LF) ;;;
              ret (MAIN_FAILED, args, "")
            else parse_argv answers' rest (set_main_arg_scope args scope)
        end
      else if c =? chr "?" then ret (MAIN_FAILED, args, "")
      else ret (error_origin (- EINVAL), args, "")
  end.

(** [main] with its command line: the exit status and what went to
    stdout. *)
Definition main_argv (answers : list Getopt) (rest : list string)
    : M (Z * string) :=
  x <- parse_argv answers rest default_args ;;
  let '(r, args, out) := x in
  status <- main args r ;;
  ret (status, out).

End CommandLine.

(** An answer of [getopt_long] that sets an argument and lets the loop go
    on. *)
Definition is_setting (a : Getopt) : bool :=
  (a.1 =? chr "v") || (a.1 =? chr "f")
  || ((a.1 =? ARG_LISTEN) && bool_decide (is_Some a.2))
  || ((a.1 =? ARG_SCOPE)
      && bool_decide (a.2 = Some "system" \/ a.2 = Some "user")).

(** The scopes the launcher knows. *)
Definition scope_known (args : Args) : Prop :=
  main_arg_scope args = "system" \/ main_arg_scope args = "user".

(** What a setting does to the arguments. *)
Definition apply_setting (args : Args) (a : Getopt) : Args :=
  if a.1 =? chr "v" then set_main_arg_verbose args true
  else if a.1 =? ARG_LISTEN then set_main_arg_listen args a.2
  else if a.1 =? chr "f" then set_main_arg_force args true
  else if a.1 =? ARG_SCOPE then set_main_arg_scope args (default "" a.2)
  else args.

Definition settings (pre : list Getopt) (args : Args) : Args :=
  fold_left apply_setting pre args.

(** ** A launcher that serves a directory *)

(** A message the launcher sends, or a call it makes, on one of its two
    connections. *)
Definition is_bus_traffic (e : Event) : bool :=
  match e with
  | ESend _ _ | ECall _ _ => true
  | _ => false
  end.

(** A host that passes one listening socket of the right kind. *)
Definition inherits (h : Host) : Prop :=
  h_listen_fds h = 1 /\ 0 < h_is_socket h.

(** A host that forks the broker and whose policy parses, imports and
    exports, with a broker that accepts every call. *)
Definition launches (h : Host) : Prop :=
  0 < h_fork h
  /\ (forall policypath, h_config_parser_read h policypath = 0)
  /\ h_policy_import h = 0
  /\ (h_policy_export h).1 = 0
  /\ (forall m, 0 <= h_broker_reply h m).

(** The manager after the fork, before the services are loaded. *)
Definition forked_manager (fd c0 pid : Z) : Manager :=
  {| event := Some {| ev_signals := [SIGTERM; SIGINT];
                      ev_child := Some pid; ev_exit := None |};
     bus_controller := Some {| bus_fd := Some c0; bus_started := true;
                               bus_client := false |};
     bus_regular := None;
     fd_listen := fd;
     services := ∅;
     service_ids := 0 |}.

(** The registry after [service_new] registered the definitions [defs] in
    turn, from the counter [k] and the registry [reg]. *)
Fixpoint registered (k : Z) (defs : list ServiceDef)
    (reg : gmap string Service) : gmap string Service :=
  match defs with
  | [] => reg
  | d :: defs' =>
      registered (k + 1) defs'
        (<[decimal (k + 1) := service_of (decimal (k + 1)) d]> reg)
  end.

(** What the activation of a service puts on the regular connection: nothing
    for the service manager itself, the request for the unit when there is
    one, the transient unit for the command line otherwise. *)
Definition activation_traffic (s : Service) : list Event :=
  if streq (s_name s) "org.freedesktop.systemd1" then []
  else match s_unit s, s_exec s with
       | Some unit, _ => [ESend Regular (activation_request unit)]
       | None, Some (path :: argv) =>
           [ESend Regular
              (start_transient_unit (s_name s) path (path :: argv))]
       | None, _ => []
       end.

(** What the launcher that loaded [defs] answers to an [Activate] signal
    for [id]. *)
Definition answer (defs : list ServiceDef) (id : string) : list Event :=
  match registered 0 defs ∅ !! id with
  | Some s => activation_traffic s
  | None => []
  end.

(** [Activate] signals for the given ids, each with a body. *)
Definition activate_signals (reqs : list (string * list Value))
    : list LoopEvent :=
  map (fun r => OnMessage (activate_signal r.1 r.2)) reqs.

(** A service file without a unit has a command line that is not empty. *)
Definition startable (d : ServiceDef) : Prop :=
  d.1.2 = None -> exists path argv, d.2 = Some (path :: argv).

(** The answers to a sequence of [Activate] signals. *)
Definition answers (defs : list ServiceDef)
    (reqs : list (string * list Value)) : list Event :=
  flat_map (fun r => answer defs r.1) reqs.

(** ** A whole run *)

(** The path [run] listens at: the argument, or the default of the system
    scope.  The user scope leaves it NULL. *)
Definition listen_path (args : Args) : option string :=
  match main_arg_listen args with
  | Some l => Some l
  | None =>
      if streq (main_arg_scope args) "user" then None
      else if streq (main_arg_scope args) "system"
      then Some "/var/run/dbus/system_bus_socket"
      else None
  end.

(** The launcher can bind [path] and remove it again: the path is absolute
    and fits the address, it is free or may be removed by force, and the
    host refuses neither to bind nor to remove it. *)
Definition binds (args : Args) (path : string) (w : World) : Prop :=
  (exists tail, path = String "/" tail)
  /\ (String.length path < sizeof_sun_path)%nat
  /\ (main_arg_force args = true \/ path ∉ w_files w)
  /\ h_bind (w_host w) path = 0
  /\ h_unlink (w_host w) path = 0.

(** The launcher gets its listener: inherited as descriptor 3, which is
    then among the descriptors in use, or bound at [path]. *)
Definition listener_ready (args : Args) (path : string) (w : World) : Prop :=
  if streq path "inherit"
  then inherits (w_host w) /\ SD_LISTEN_FDS_START < w_next_fd w
  else binds args path w.

(** The definition a service file gives, when it has a name and a unit or
    a command line. *)
Definition definition_in (f : KeyFile) : option ServiceDef :=
  match kf_name f with
  | Some name =>
      if negb (bool_decide (is_Some (kf_unit f)))
         && negb (bool_decide (is_Some (kf_exec f)))
      then None else Some (name, kf_unit f, kf_exec f)
  | None => None
  end.

(** The names of the service files of a directory, in its order; a
    directory that is not there has none. *)
Definition service_names (h : Host) (dirpath : string)
    : option (list string) :=
  match h_opendir h dirpath with
  | inl errno =>
      if (errno =? ENOENT) || (errno =? ENOTDIR) then Some [] else None
  | inr entries => Some (filter is_service_file entries)
  end.

(** The definition in the file [name] of the directory. *)
Definition definition_at (h : Host) (dirpath name : string)
    : option ServiceDef :=
  match h_key_file h (dirpath +:+ "/" +:+ name) with
  | Some f => definition_in f
  | None => None
  end.

(** The definitions the scan finds in the service files [names]. *)
Definition loaded (h : Host) (dirpath : string) (names : list string)
    : list ServiceDef :=
  omap (definition_at h dirpath) names.

(** What the scan of the service files [names] writes and calls, from the
    counter [k]: a file that cannot be read, or that lacks the name, or the
    unit and the command line, gets a line on stderr, every other one is
    announced to the broker. *)
Fixpoint scan_events (args : Args) (h : Host) (dirpath : string)
    (names : list string) (k : Z) : list Event :=
  match names with
  | [] => []
  | name :: names' =>
      let path := dirpath +:+ "/" +:+ name in
      verbose_line args ("Loading service '" +:+ path +:+ "'" +:+ LF)
      ++ match h_key_file h path with
         | None =>
             EStderr ("Cannot load service file '" +:+ path +:+ "'" +:+ LF)
             :: scan_events args h dirpath names' k
         | Some f =>
             match kf_name f with
             | None =>
                 EStderr ("Missing name in service file '" +:+ path +:+ "'"
                          +:+ LF)
                 :: scan_events args h dirpath names' k
             | Some name =>
                 if negb (bool_decide (is_Some (kf_unit f)))
                    && negb (bool_decide (is_Some (kf_exec f)))
                 then EStderr ("Missing exec or unit in service file '"
                               +:+ path +:+ "'" +:+ LF)
                      :: scan_events args h dirpath names' k
                 else ECall Controller (add_name (decimal (k + 1)) name)
                      :: scan_events args h dirpath names' (k + 1)
             end
         end
  end.

(** The allocations of the scan: the path of every service file, and the
    service and the object path of every definition. *)
Definition scan_budget (h : Host) (dirpath : string) (names : list string)
    : nat :=
  sum_list (map (fun name => match definition_at h dirpath name with
                             | Some d => allocations d + 2
                             | None => 1
                             end)%nat names).

(** The manager in the event loop: the listener [fd], the controller on
    [c0], the regular connection on [s], the broker [pid] and the services
    of [defs]. *)
Definition serving_manager (fd c0 s pid : Z) (defs : list ServiceDef)
    : Manager :=
  {| event := Some {| ev_signals := [SIGTERM; SIGINT];
                      ev_child := Some pid; ev_exit := None |};
     bus_controller := Some {| bus_fd := Some c0; bus_started := true;
                               bus_client := false |};
     bus_regular := Some {| bus_fd := Some s; bus_started := true;
                            bus_client := true |};
     fd_listen := fd;
     services := registered 0 defs ∅;
     service_ids := Z.of_nat (length defs) |}.

(** The events of [manager_run] up to the event loop, when [n] is the
    lowest free descriptor: the pair of the controller is [n] and [n + 1],
    the second is closed after the fork and handed out again for the
    regular connection. *)
Definition bootstrap_events (args : Args) (h : Host) (fd n : Z)
    (dirpath : string) (names : list string) (policypath : string)
    : list Event :=
  [EFork (h_fork h); EClose (n + 1)]
  ++ scan_events args h dirpath names 0
  ++ [ECall Controller (add_listener fd policypath (h_policy_export h).2);
      ESocket (n + 1); EConnect (n + 1) fd].

(** The events with which [manager_free] takes the manager that served
    [defs] down. *)
Definition teardown (fd : Z) (defs : list ServiceDef) : list Event :=
  map (fun kv : string * Service => EFreeService (s_id kv.2))
      (map_to_list (registered 0 defs ∅))
  ++ teardown_events fd.

(** Every service of the registry that has no unit has a command line that
    is not empty. *)
Definition registry_startable (manager : Manager) : Prop :=
  forall id s,
    services manager !! id = Some s ->
    s_unit s = None -> exists path argv, s_exec s = Some (path :: argv).

(** What the launcher makes of the way its child ended. *)
Definition child_status (si_code si_status : Z) : Z :=
  if (si_code =? CLD_EXITED) && (si_status =? 0) then 0 else 1.


(** The line [main] writes about a fatal error. *)
Definition fatal_line (args : Args) (r : Z) : list Event :=
  if (r <? 0) && main_arg_verbose args
  then [EStderr ("Exiting due to fatal error: " +:+ pretty r +:+ LF)]
  else [].

(** The event loop as [manager_new] and [manager_fork] set it up. *)
Definition watching (pid : Z) : SdEvent :=
  {| ev_signals := [SIGTERM; SIGINT]; ev_child := Some pid;
     ev_exit := None |}.

Module Run.

(** The sample host with the two directories, whose broker asks for the
    second service, for a service it was never told of, and for the first
    service, and then exits with status 42. *)
Definition failing_world : World :=
  {| w_host :=
       Directory.host_with
         (activate_signals [("2", []); ("9", []); ("1", [VU32 7])]
          ++ [OnChild CLD_EXITED 42]);
     w_trace := []; w_heap := 64; w_next_fd := 4; w_files := ∅ |}.

(** [--listen /run/bus --force --servicedir /srv --verbose] *)
Definition path_args : Args :=
  {| main_arg_broker := "/usr/bin/dbus-broker";
     main_arg_force := true;
     main_arg_listen := Some "/run/bus";
     main_arg_scope := "system";
     main_arg_servicedir := Some "/srv";
     main_arg_policypath := None;
     main_arg_verbose := true |}.

(** The world of the sample directory with a socket file in the way, whose
    broker exits with status 42. *)
Definition world_in_use : World :=
  {| w_host := Directory.host; w_trace := []; w_heap := 64; w_next_fd := 4;
     w_files := {["/run/bus"]} |}.

(** The world of the sample directory in which SIGTERM arrives first. *)
Definition signalled_world : World :=
  {| w_host := Directory.host_with [OnSignal SIGTERM; OnChild CLD_EXITED 0];
     w_trace := []; w_heap := 64; w_next_fd := 4; w_files := ∅ |}.

End Run.
(** ** Worlds and traces *)

Lemma happened_nil w : happened [] w = w.
Proof.
  destruct w; unfold happened, set_trace, set_next_fd; simpl.
  by rewrite app_nil_r.
Qed.

Lemma happened_app es1 es2 w :
  happened es2 (happened es1 w) = happened (es1 ++ es2) w.
Proof.
  unfold happened, set_trace, set_next_fd; simpl.
  by rewrite fold_left_app, app_assoc.
Qed.

Lemma perform_happened e w : perform e w = Ret tt (happened [e] w).
Proof. reflexivity. Qed.

Lemma w_trace_happened es w : w_trace (happened es w) = w_trace w ++ es.
Proof. reflexivity. Qed.

Lemma w_heap_happened es w : w_heap (happened es w) = w_heap w.
Proof. reflexivity. Qed.

Lemma w_host_happened es w : w_host (happened es w) = w_host w.
Proof. reflexivity. Qed.

Lemma set_heap_happened es w n :
  set_heap (happened es w) n = happened es (set_heap w n).
Proof. reflexivity. Qed.

Lemma verbose_happened {A} args text (k : M A) w :
  ((if main_arg_verbose args then fprintf_stderr text else ret tt) ;;; k) w
  = k (happened (verbose_line args text) w).
Proof.
  unfold verbose_line, bind. destruct (main_arg_verbose args); simpl.
  - reflexivity.
  - by rewrite happened_nil.
Qed.

(** ** The activation router *)

Lemma manager_request_activation_sends args manager name unit w :
  bus_open (bus_regular manager) = true ->
  manager_request_activation args manager name unit w
  = Ret 0 (happened
             (verbose_line args ("Activation request for '" +:+ name
                                 +:+ "' -> '" +:+ unit +:+ "'" +:+ LF)
              ++ [ESend Regular (activation_request unit)]) w).
Proof.
  intros Hopen. unfold manager_request_activation.
  rewrite verbose_happened.
  unfold sd_bus_message_new_signal, sd_bus_send. rewrite Hopen. simpl.
  unfold bind. rewrite perform_happened, happened_app. reflexivity.
Qed.

(** C7.  An activation request for an id that the registry does not hold
    returns success after one line on stderr and sends nothing; an
    activation request for a service whose name is the service manager's own,
    [org.freedesktop.systemd1], returns success and leaves the world as it
    was: nothing is sent on the regular link and nothing is logged. *)
Theorem manager_on_name_activate_ignored args manager m id w :
  (services manager !! id = None ->
   manager_on_name_activate args manager m id w
   = Ret 0 (happened [EStderr ("Activation request on unknown name '"
                               +:+ id +:+ "'" +:+ LF)] w)
   /\ filter on_regular_link
        (w_trace (happened [EStderr ("Activation request on unknown name '"
                                     +:+ id +:+ "'" +:+ LF)] w))
      = filter on_regular_link (w_trace w))
  /\ (forall service,
        services manager !! id = Some service ->
        s_name service = "org.freedesktop.systemd1" ->
        manager_on_name_activate args manager m id w = Ret 0 w).
Proof.
  split.
  - intros Hnone. unfold manager_on_name_activate. rewrite Hnone. split.
    + reflexivity.
    + rewrite w_trace_happened, filter_app. simpl. by rewrite app_nil_r.
  - intros service Hsome Hname. unfold manager_on_name_activate.
    rewrite Hsome, Hname. reflexivity.
Qed.

Lemma manager_on_name_activate_ignored_witness :
  manager_on_name_activate default_args Sample.manager (Sample.activate "7")
    "7" Sample.world
  = Ret 0 (happened [EStderr ("Activation request on unknown name '7'"
                              +:+ LF)] Sample.world)
  /\ manager_on_name_activate default_args (Sample.with_service Sample.pid1)
       (Sample.activate "1") "1" Sample.world
     = Ret 0 Sample.world.
Proof.
  split.
  - apply (manager_on_name_activate_ignored default_args Sample.manager
             (Sample.activate "7") "7" Sample.world).
    reflexivity.
  - apply (manager_on_name_activate_ignored default_args
             (Sample.with_service Sample.pid1) (Sample.activate "1") "1"
             Sample.world) with (service := Sample.pid1); reflexivity.
Defined.

(** The unit branch of the router: one notification, whatever [exec] is. *)
Lemma manager_on_name_activate_unit args manager m id service unit w :
  services manager !! id = Some service ->
  s_name service <> "org.freedesktop.systemd1" ->
  s_unit service = Some unit ->
  bus_open (bus_regular manager) = true ->
  manager_on_name_activate args manager m id w
  = Ret 0 (happened
             (verbose_line args ("Activation request for '" +:+ s_name service
                                 +:+ "' -> '" +:+ unit +:+ "'" +:+ LF)
              ++ [ESend Regular (activation_request unit)]) w).
Proof.
  intros Hsome Hname Hunit Hopen. unfold manager_on_name_activate.
  rewrite Hsome, Hunit.
  destruct (streq (s_name service) "org.freedesktop.systemd1") eqn:E.
  - apply String.eqb_eq in E. contradiction.
  - unfold bind. by rewrite manager_request_activation_sends.
Qed.

Lemma count_verbose_line (f : Event -> bool) args text :
  (forall t, f (EStderr t) = false) ->
  filter f (verbose_line args text) = [].
Proof.
  intros Hf. unfold verbose_line. destruct (main_arg_verbose args); [|done].
  rewrite filter_cons. specialize (Hf text). destruct (f (EStderr text)); done.
Qed.

(** C10, as the code has it.  For a registered service whose name is not
    the service manager's own and that carries both a unit and an exec list,
    an activation request returns success and sends exactly one message on
    the regular link: the "activation request" notification naming the unit.
    No transient-unit-start call is made. *)
Theorem manager_on_name_activate_unit_first args manager m id service unit
    exec w :
  services manager !! id = Some service ->
  s_name service <> "org.freedesktop.systemd1" ->
  s_unit service = Some unit ->
  s_exec service = Some exec ->
  bus_open (bus_regular manager) = true ->
  exists w',
    manager_on_name_activate args manager m id w = Ret 0 w'
    /\ exists new,
         w_trace w' = w_trace w ++ new
         /\ filter on_regular_link new
            = [ESend Regular (activation_request unit)]
         /\ filter is_activation_request new
            = [ESend Regular (activation_request unit)]
         /\ filter is_start_transient_unit new = [].
Proof.
  intros Hsome Hname Hunit _ Hopen.
  eexists. split.
  - by apply manager_on_name_activate_unit.
  - eexists. split; [apply w_trace_happened|].
    rewrite !filter_app, !count_verbose_line by done. done.
Qed.

Lemma manager_on_name_activate_unit_first_witness :
  exists w',
    manager_on_name_activate default_args (Sample.with_service Sample.both)
      (Sample.activate "1") "1" Sample.world = Ret 0 w'
    /\ exists new,
         w_trace w' = w_trace Sample.world ++ new
         /\ filter on_regular_link new
            = [ESend Regular (activation_request "both.service")]
         /\ filter is_activation_request new
            = [ESend Regular (activation_request "both.service")]
         /\ filter is_start_transient_unit new = [].
Proof.
  apply (manager_on_name_activate_unit_first default_args
           (Sample.with_service Sample.both) (Sample.activate "1") "1"
           Sample.both "both.service" ["/bin/x"; "--a"] Sample.world).
  - reflexivity.
  - discriminate.
  - reflexivity.
  - reflexivity.
  - reflexivity.
Defined.

(** C10, as stated, fails: a service that carries a unit and an exec list
    and is named [org.freedesktop.systemd1] gets no notification at all. *)
Lemma manager_on_name_activate_pid1_silent :
  services (Sample.with_service Sample.pid1) !! "1" = Some Sample.pid1
  /\ s_unit Sample.pid1 = Some "systemd.service"
  /\ s_exec Sample.pid1 = Some ["/bin/false"]
  /\ exists w',
       manager_on_name_activate default_args (Sample.with_service Sample.pid1)
         (Sample.activate "1") "1" Sample.world = Ret 0 w'
       /\ length (filter is_activation_request (w_trace w')) <> 1%nat.
Proof.
  repeat split. exists Sample.world. split; [reflexivity|]. simpl. lia.
Qed.

(** ** The transient-unit-start call *)

Lemma append_exec_items exec : forall b f fs,
  b_open b = f :: fs ->
  append_exec (Some b) exec
  = (0, Some {| b_msg := b_msg b;
                b_open := {| f_type := f_type f; f_contents := f_contents f;
                             f_items := f_items f ++ map VStr exec |}
                          :: fs |}).
Proof.
  induction exec as [|e exec IH]; intros b f fs Hopen.
  - simpl. rewrite app_nil_r. destruct b as [msg op]; simpl in *; subst.
    by destruct f.
  - simpl.
    rewrite (IH (emit b (VStr e)) (push_item f (VStr e)) fs).
    + unfold emit. rewrite Hopen. simpl. by rewrite <- app_assoc.
    + unfold emit. by rewrite Hopen.
Qed.

Lemma all_strings_spell_s exec :
  forallb (fun v => String.eqb (signature v) "s") (map VStr exec) = true.
Proof. induction exec; simpl; auto. Qed.

(** Decide the comparisons of closed signatures. *)
Ltac spell :=
  repeat match goal with
         | |- context [String.eqb ?a ?b] =>
             let v := eval vm_compute in (String.eqb a b) in
             progress change (String.eqb a b) with v
         end.

Lemma close_string_array msg fs exec :
  sd_bus_message_close_container
    (Some {| b_msg := msg;
             b_open := {| f_type := CArray; f_contents := "s";
                          f_items := map VStr exec |} :: fs |})
  = (1, Some (emit {| b_msg := msg; b_open := fs |}
                   (VArray "s" (map VStr exec)))).
Proof.
  unfold sd_bus_message_close_container, frame_ok. cbn [b_open f_type f_items
    f_contents b_msg]. by rewrite all_strings_spell_s.
Qed.

(** C5.  For a service [name] with a command line [exec] whose first element
    is [path], on an open regular link and with room for the unit name,
    [manager_start_transient_unit] returns success after sending exactly the
    call [StartTransientUnit] with the unit name [dbus-<name>.service], the
    mode [fail], the one property [ExecStart] holding the one-element list of
    [(path, exec, true)], and an empty list of auxiliary units. *)
Theorem manager_start_transient_unit_shape args manager name exec path w :
  exec !! 0%nat = Some path ->
  bus_open (bus_regular manager) = true ->
  (1 <= w_heap w)%nat ->
  manager_start_transient_unit args manager name (Some exec) w
  = Ret 0 (happened
             (verbose_line args ("Activation request for '" +:+ name +:+ "'"
                                 +:+ LF)
              ++ [ESend Regular (start_transient_unit name path exec)])
             (set_heap w (w_heap w - 1))).
Proof.
  intros Hpath Hopen Hheap.
  destruct exec as [|e0 rest]; [discriminate|]. simpl in Hpath.
  injection Hpath as ->.
  unfold manager_start_transient_unit. rewrite verbose_happened.
  unfold bind at 1. unfold alloc at 1. rewrite w_heap_happened.
  destruct (w_heap w) as [|n] eqn:Hn; [lia|].
  replace (S n - 1)%nat with n by lia.
  cbn [negb]. unfold sd_bus_message_new_method_call. rewrite Hopen.
  cbn -[append_exec String.append].
  erewrite append_exec_items by reflexivity.
  cbn [Z.ltb Z.compare f_items f_type f_contents app b_msg].
  rewrite close_string_array.
  repeat (cbn -[happened set_heap verbose_line]; spell).
  rewrite Hopen. cbn -[happened set_heap verbose_line perform].
  unfold bind. rewrite perform_happened, set_heap_happened, happened_app.
  reflexivity.
Qed.

Lemma manager_start_transient_unit_shape_witness :
  manager_start_transient_unit default_args Sample.manager "foo"
    (Some ["/bin/x"; "--a"]) Sample.world
  = Ret 0 (happened
             [ESend Regular
                (start_transient_unit "foo" "/bin/x" ["/bin/x"; "--a"])]
             (set_heap Sample.world 63)).
Proof.
  apply (manager_start_transient_unit_shape default_args Sample.manager "foo"
           ["/bin/x"; "--a"] "/bin/x" Sample.world).
  - reflexivity.
  - reflexivity.
  - simpl. lia.
Defined.

(** ** Environment propagation *)

Lemma read_environment_entries env : forall n rest b f fs w,
  b_open b = f :: fs ->
  (length env <= n)%nat ->
  (length env <= w_heap w)%nat ->
  read_environment n (environment_entries env :: rest) (Some b) w
  = Ret (0, [] :: rest,
         Some {| b_msg := b_msg b;
                 b_open := {| f_type := f_type f; f_contents := f_contents f;
                              f_items := f_items f
                                         ++ map VStr (environment_strings env) |}
                           :: fs |})
        (set_heap w (w_heap w - length env)).
Proof.
  induction env as [|[k v] env IH]; intros n rest b f fs w Hopen Hn Hheap.
  - destruct n; simpl; rewrite app_nil_r, Nat.sub_0_r;
      destruct b as [msg op], f, w; simpl in *; subst; reflexivity.
  - destruct n as [|n]; [simpl in Hn; lia|].
    simpl in Hn, Hheap. simpl.
    unfold bind at 1. unfold alloc at 1.
    destruct (w_heap w) as [|h] eqn:Hh; [lia|]. cbn [negb].
    rewrite (IH n rest (emit b (VStr (k +:+ "=" +:+ v)))
               (push_item f (VStr (k +:+ "=" +:+ v))) fs).
    + unfold emit. rewrite Hopen. simpl. by rewrite <- app_assoc.
    + unfold emit. by rewrite Hopen.
    + lia.
    + simpl. lia.
Qed.

(** C8.  For an inbound mapping whose entries are [env] in wire order, on an
    open regular link and with room for one string per entry, environment
    propagation returns success after sending exactly one message: the call
    [SetEnvironment] to the service manager whose argument is the array of
    the strings [key=value], in the order of [env].  It is sent with
    [sd_bus_send], which asks for no reply. *)
Theorem manager_on_set_activation_environment_forwards manager m env more w :
  m_body m = VArray "{ss}" (environment_entries env) :: more ->
  bus_open (bus_regular manager) = true ->
  (length env <= w_heap w)%nat ->
  manager_on_set_activation_environment manager m w
  = Ret 0 (happened [ESend Regular (set_environment (environment_strings env))]
             (set_heap w (w_heap w - length env))).
Proof.
  intros Hbody Hopen Hheap.
  unfold manager_on_set_activation_environment, cursor_of.
  unfold sd_bus_message_new_method_call. rewrite Hopen, Hbody.
  cbn -[read_environment environment_entries]. spell.
  cbn -[read_environment environment_entries].
  unfold bind at 1.
  assert (Hlen : length (environment_entries env) = length env)
    by apply length_map.
  rewrite Hlen.
  erewrite read_environment_entries by (reflexivity || lia).
  cbn [Z.ltb Z.compare f_items f_type f_contents app b_msg].
  rewrite close_string_array.
  cbn -[happened set_heap perform]. rewrite Hopen.
  cbn -[happened set_heap perform].
  unfold bind. rewrite perform_happened. reflexivity.
Qed.

Lemma manager_on_set_activation_environment_forwards_witness :
  manager_on_set_activation_environment Sample.manager
    (Sample.set_activation_environment [("A", "1"); ("B", "2")]) Sample.world
  = Ret 0 (happened [ESend Regular (set_environment ["A=1"; "B=2"])]
             (set_heap Sample.world 62)).
Proof.
  apply (manager_on_set_activation_environment_forwards
           Sample.manager
           (Sample.set_activation_environment [("A", "1"); ("B", "2")])
           [("A", "1"); ("B", "2")] [] Sample.world).
  - reflexivity.
  - reflexivity.
  - simpl. lia.
Defined.

(** ** Teardown *)

Lemma unlink_each_released l : forall m0 w,
  exists m1,
    c_rbtree_for_each_entry_unlink m0 l w
    = Ret m1 (happened (map (fun kv => EFreeService (s_id kv.2)) l) w)
    /\ fd_listen m1 = fd_listen m0
    /\ bus_regular m1 = bus_regular m0
    /\ bus_controller m1 = bus_controller m0
    /\ event m1 = event m0.
Proof.
  induction l as [|kv l IH]; intros m0 w.
  - exists m0. simpl. by rewrite happened_nil.
  - destruct (IH (set_services m0 (delete kv.1 (services m0)))
                (happened [EFreeService (s_id kv.2)] w))
      as (m1 & Hm1 & Hfields).
    exists m1. split; [|exact Hfields].
    cbn [c_rbtree_for_each_entry_unlink]. unfold bind at 1.
    unfold service_free. cbn [s_id s_rb]. unfold bind at 1.
    rewrite perform_happened. unfold ret at 1.
    rewrite Hm1, happened_app. reflexivity.
Qed.

(** The trace of [manager_free], with the services in the order the tree
    hands them out. *)
Lemma manager_free_trace manager w :
  manager_free (Some manager) w
  = Ret tt (happened
              (map (fun kv => EFreeService (s_id kv.2))
                   (map_to_list (services manager))
               ++ closes_listener manager
               ++ closes_bus Regular (bus_regular manager)
               ++ closes_bus Controller (bus_controller manager)
               ++ drops_event_loop manager
               ++ [EFreeManager]) w).
Proof.
  unfold manager_free.
  destruct (unlink_each_released (map_to_list (services manager)) manager w)
    as (m1 & Hloop & Hfd & Hreg & Hctl & Hev).
  unfold bind at 1. rewrite Hloop, Hfd, Hreg, Hctl, Hev.
  unfold closes_listener, closes_bus, drops_event_loop, c_close,
    bus_close_unref.
  destruct (fd_listen manager <? 0), (bus_regular manager),
    (bus_controller manager), (event manager);
    unfold bind, ret; rewrite ?perform_happened, ?happened_app;
    repeat (rewrite ?perform_happened, ?happened_app; cbn [app]);
    rewrite ?app_nil_r; try reflexivity.
Qed.



(** ** Listener acquisition *)

Lemma manager_listen_path_overruns manager path w :
  fd_listen manager < 0 ->
  0 <= w_next_fd w ->
  (sizeof_sun_path < String.length path)%nat ->
  manager_listen_path manager path w
  = Stop (HOverrun (String.length path - sizeof_sun_path))
         (happened [ESocket (w_next_fd w)]
                   (set_next_fd w (w_next_fd w + 1))).
Proof.
  intros Hfd Hnext Hlen. unfold manager_listen_path.
  apply Z.ltb_lt in Hfd. rewrite Hfd. cbn [negb].
  unfold bind at 1. unfold sys_socket, bind, fresh_fd.
  rewrite perform_happened. unfold ret at 1.
  apply Z.ltb_ge in Hnext. rewrite Hnext.
  unfold memcpy_sun_path.
  destruct (String.length path <=? sizeof_sun_path)%nat eqn:E.
  - apply Nat.leb_le in E. lia.
  - reflexivity.
Qed.

(** A path that fits, with room for the terminating NUL, and that is free
    is bound and listened on with a backlog of 256. *)
Lemma manager_listen_path_binds manager path w :
  fd_listen manager < 0 ->
  0 <= w_next_fd w ->
  (String.length path < sizeof_sun_path)%nat ->
  path ∉ w_files w ->
  h_bind (w_host w) path = 0 ->
  manager_listen_path manager path w
  = Ret (0, set_fd_listen manager (w_next_fd w))
        (set_files
           (happened [ESocket (w_next_fd w);
                      EBind (w_next_fd w) path
                        (Z.of_nat (String.length path) + 3);
                      EListen (w_next_fd w) 256]
                     (set_next_fd w (w_next_fd w + 1)))
           ({[path]} ∪ w_files w)).
Proof.
  intros Hfd Hnext Hlen Hfree Hbind. unfold manager_listen_path.
  apply Z.ltb_lt in Hfd. rewrite Hfd. cbn [negb].
  unfold bind at 1. unfold sys_socket, bind, fresh_fd.
  rewrite perform_happened. unfold ret at 1.
  apply Z.ltb_ge in Hnext. rewrite Hnext.
  unfold memcpy_sun_path.
  destruct (String.length path <=? sizeof_sun_path)%nat eqn:E;
    [|apply Nat.leb_gt in E; lia].
  unfold ret at 1. unfold sys_bind.
  destruct (sizeof_sockaddr_un
            <? AF_UNIX_offsetof_sun_path + Z.of_nat (String.length path) + 1)
    eqn:Elen.
  { apply Z.ltb_lt in Elen.
    unfold sizeof_sockaddr_un, AF_UNIX_offsetof_sun_path, sizeof_sun_path in *.
    lia. }
  cbn [w_files w_host happened set_trace set_next_fd].
  destruct (decide (path ∈ w_files w)); [contradiction|].
  rewrite Hbind.
  cbn [Z.ltb Z.compare]. unfold sys_listen, bind, ret.
  rewrite perform_happened.
  unfold happened, set_trace, set_files, set_next_fd; cbn.
  rewrite <- !app_assoc. cbn [app].
  replace (AF_UNIX_offsetof_sun_path + Z.of_nat (String.length path) + 1)
    with (Z.of_nat (String.length path) + 3)
    by (unfold AF_UNIX_offsetof_sun_path; lia).
  reflexivity.
Qed.

(** A path that fills [sun_path] to its last byte leaves no room for the
    NUL: the address length passes the size of the address and the kernel
    refuses it. *)
Lemma manager_listen_path_full manager path w :
  fd_listen manager < 0 ->
  0 <= w_next_fd w ->
  String.length path = sizeof_sun_path ->
  manager_listen_path manager path w
  = Ret (- EINVAL, manager)
        (happened [ESocket (w_next_fd w); EClose (w_next_fd w)]
                  (set_next_fd w (w_next_fd w + 1))).
Proof.
  intros Hfd Hnext Hlen. unfold manager_listen_path.
  apply Z.ltb_lt in Hfd. rewrite Hfd. cbn [negb].
  unfold bind at 1. unfold sys_socket, bind, fresh_fd.
  rewrite perform_happened. unfold ret at 1.
  pose proof Hnext as Hnext'. apply Z.ltb_ge in Hnext. rewrite Hnext.
  unfold memcpy_sun_path. rewrite Hlen, Nat.leb_refl.
  unfold ret at 1. unfold sys_bind.
  change (sizeof_sockaddr_un
          <? AF_UNIX_offsetof_sun_path + Z.of_nat sizeof_sun_path + 1)
    with true.
  cbn -[happened perform c_close].
  unfold c_close. rewrite Hnext.
  change (- EINVAL <? 0) with true. cbv beta iota.
  rewrite perform_happened, happened_app. reflexivity.
Qed.

(** C1 at a path of 109 characters: the copy runs one byte over the end of
    the address; the path is not rejected, and nothing is bound. *)
Theorem manager_listen_path_long_path :
  String.length Sample.long_path = 109%nat
  /\ exists w',
       manager_listen_path Sample.fresh Sample.long_path Sample.world
       = Stop (HOverrun 1) w'
       /\ w_trace w' = [ESocket 4].
Proof.
  split; [reflexivity|]. eexists. split; [vm_compute; reflexivity|].
  reflexivity.
Qed.

(** ** The listener path of the user scope *)

Lemma run_user_scope args w :
  main_arg_listen args = None ->
  main_arg_scope args = "user" ->
  (2 <= w_heap w)%nat ->
  run args w = Stop HNullDeref (set_heap w (w_heap w - 2)).
Proof.
  intros Hlisten Hscope Hheap. unfold run, manager_new.
  unfold bind at 1. unfold bind at 1. unfold alloc at 1.
  destruct (w_heap w) as [|[|n]] eqn:Hh; [lia|lia|].
  cbn [negb]. unfold ret at 1. cbn [Z.eqb negb].
  unfold bind at 1. unfold run_manager. unfold bind at 1.
  unfold run_path. rewrite Hlisten, Hscope.
  cbn -[set_heap]. f_equal. destruct w; unfold set_heap; cbn in *.
  f_equal. lia.
Qed.

(** C2 at [--scope user] without [--listen]: the path is formatted and
    dropped, [path] stays NULL, and [run] ends in the comparison of NULL
    with ["inherit"]; no socket is made. *)
Theorem run_user_scope_null_path :
  main_arg_listen Sample.user_args = None
  /\ main_arg_scope Sample.user_args = "user"
  /\ exists w',
       run Sample.user_args Sample.world = Stop HNullDeref w'
       /\ w_trace w' = [].
Proof.
  split; [reflexivity|]. split; [reflexivity|].
  eexists. split; [vm_compute; reflexivity|]. reflexivity.
Qed.

(** ** The service registry *)

Lemma alloc_ret w : exists b w', alloc w = Ret b w'.
Proof. unfold alloc. destruct (w_heap w); eauto. Qed.

Lemma alloc_each_ret n : forall w, exists b w', alloc_each n w = Ret b w'.
Proof.
  induction n as [|n IH]; intros w; simpl.
  - eauto.
  - unfold bind. destruct (alloc_ret w) as (b & w' & ->).
    destruct b; [apply IH|eauto].
Qed.

Ltac step_alloc :=
  match goal with
  | |- context [alloc ?w] =>
      let b := fresh "ok" in
      let w' := fresh "w" in
      let H := fresh "Halloc" in
      destruct (alloc_ret w) as (b & w' & H); rewrite H; clear H;
      destruct b; cbn [negb]; cbv beta iota
  | |- context [alloc_each ?n ?w] =>
      let b := fresh "ok" in
      let w' := fresh "w" in
      let H := fresh "Halloc" in
      destruct (alloc_each_ret n w) as (b & w' & H); rewrite H; clear H;
      destruct b; cbn [negb]; cbv beta iota
  end.

Ltac out_of_memory :=
  rewrite ?perform_happened; left; cbn; repeat split; auto.

(** What [service_new] can do: fail for want of memory and leave the tree
    as it was, link the new service under the next id, or stop at the
    assertion because that id is taken. *)
Lemma service_new_cases manager name unit exec w :
  match service_new manager name unit exec w with
  | Ret (r, so, m') w' =>
      (r = - ENOMEM /\ so = None /\ services m' = services manager
       /\ (service_ids m' = service_ids manager
           \/ service_ids m' = (service_ids manager + 1) mod 2 ^ 64))
      \/ (r = 0 /\ so = Some (new_service manager name unit exec)
          /\ services manager !! next_id manager = None
          /\ services m'
             = <[next_id manager := new_service manager name unit exec]>
                 (services manager)
          /\ service_ids m' = (service_ids manager + 1) mod 2 ^ 64)
  | Stop h w' =>
      h = HAssert "slot" /\ is_Some (services manager !! next_id manager)
  end.
Proof.
  unfold service_new, bind.
  step_alloc; [|out_of_memory].
  unfold service_free, bind, ret.
  step_alloc; [|out_of_memory].
  destruct unit as [u|].
  - step_alloc; [|out_of_memory].
    destruct exec as [e|].
    + unfold bind. step_alloc; [|out_of_memory].
      step_alloc; [|out_of_memory].
      cbn [services set_service_ids]. fold (next_id manager).
      destruct (services manager !! next_id manager) eqn:E.
      * unfold halt. split; [done|by eexists].
      * right. auto.
    + cbn [services set_service_ids]. fold (next_id manager).
      destruct (services manager !! next_id manager) eqn:E.
      * unfold halt. split; [done|by eexists].
      * right. auto.
  - cbv beta iota. cbn [negb]. destruct exec as [e|].
    + unfold bind. step_alloc; [|out_of_memory].
      step_alloc; [|out_of_memory].
      cbn [services set_service_ids]. fold (next_id manager).
      destruct (services manager !! next_id manager) eqn:E.
      * unfold halt. split; [done|by eexists].
      * right. auto.
    + cbn [services set_service_ids]. fold (next_id manager).
      destruct (services manager !! next_id manager) eqn:E.
      * unfold halt. split; [done|by eexists].
      * right. auto.
Qed.

Lemma sd_bus_call_method_ret l bus dest path iface member vs w :
  exists r w', sd_bus_call_method l bus dest path iface member vs w = Ret r w'.
Proof.
  unfold sd_bus_call_method, sd_bus_message_new_method_call.
  destruct (bus_open bus) eqn:Hopen; [|cbn; eauto].
  cbn -[fold_left]. unfold sd_bus_call. rewrite Hopen. cbn [negb].
  destruct (b_open _); [|eauto].
  unfold bind, host, ret. rewrite perform_happened. eauto.
Qed.

(** What [manager_load_service] does to the registry: nothing, or one new
    service under the next id, made of what the service file supplies. *)
Lemma manager_load_service_cases args manager path w :
  match manager_load_service args manager path w with
  | Ret (r, m') w' =>
      services m' = services manager
      \/ (r = 0
          /\ exists f name,
               h_key_file (w_host w) path = Some f
               /\ kf_name f = Some name
               /\ (is_Some (kf_unit f) \/ is_Some (kf_exec f))
               /\ services manager !! next_id manager = None
               /\ services m'
                  = <[next_id manager :=
                        new_service manager name (kf_unit f) (kf_exec f)]>
                      (services manager))
  | Stop h w' =>
      h = HAssert "slot"
      /\ exists f, h_key_file (w_host w) path = Some f
                   /\ (is_Some (kf_unit f) \/ is_Some (kf_exec f))
  end.
Proof.
  unfold manager_load_service. rewrite verbose_happened.
  unfold bind at 1. unfold host at 1. rewrite w_host_happened.
  destruct (h_key_file (w_host w) path) as [f|] eqn:Hf.
  2: { unfold bind, ret, fprintf_stderr. rewrite perform_happened. by left. }
  destruct (kf_name f) as [name|] eqn:Hname.
  2: { unfold bind, ret, fprintf_stderr. rewrite perform_happened. by left. }
  assert (Hsupplied :
    negb (bool_decide (is_Some (kf_unit f)))
    && negb (bool_decide (is_Some (kf_exec f))) = false ->
    is_Some (kf_unit f) \/ is_Some (kf_exec f)).
  { destruct (kf_unit f), (kf_exec f); cbn; intros; try discriminate;
      eauto. }
  destruct (negb (bool_decide (is_Some (kf_unit f)))
            && negb (bool_decide (is_Some (kf_exec f)))) eqn:Hneither.
  { unfold bind, ret, fprintf_stderr. rewrite perform_happened. by left. }
  specialize (Hsupplied eq_refl).
  unfold bind at 1.
  pose proof (service_new_cases manager name (kf_unit f) (kf_exec f)
                (happened (verbose_line args
                             ("Loading service '" +:+ path +:+ "'" +:+ LF)) w))
    as Hnew.
  destruct (service_new manager name (kf_unit f) (kf_exec f) _)
    as [[[r so] m1] w1|h w1].
  2: { destruct Hnew as [-> _]. split; [done|]. eauto. }
  destruct Hnew as [(-> & -> & Hsame & _)|(-> & -> & Hfree & Hins & _)].
  { cbn. by left. }
  cbn [Z.eqb negb]. unfold bind at 1. step_alloc.
  2: { unfold service_free, bind, ret. rewrite perform_happened.
       left. cbn [new_service s_rb s_id services set_services].
       rewrite Hins. by apply delete_insert_id. }
  unfold bind at 1.
  destruct (sd_bus_call_method_ret Controller (bus_controller m1) None
              "/org/bus1/DBus/Broker" "org.bus1.DBus.Broker" "AddName"
              [VPath ("/org/bus1/DBus/Name/"
                      +:+ s_id (new_service manager name (kf_unit f)
                                            (kf_exec f)));
               VStr (s_name (new_service manager name (kf_unit f)
                                         (kf_exec f)));
               VU32 0] w0) as (r & w2 & ->).
  destruct (r <? 0).
  - unfold service_free, bind, ret. rewrite perform_happened.
    left. cbn [new_service s_rb s_id services set_services].
    rewrite Hins. by apply delete_insert_id.
  - right. split; [done|]. exists f, name. auto.
Qed.

(** C9, as stated, fails: a service file with a unit and a command line is
    made into a service that has both. *)
Lemma manager_load_service_keeps_both :
  exists m' w' s,
    manager_load_service default_args Sample.manager
      "/usr/share/dbus-1/system-services/both.service"
      (Sample.world_with_file Sample.both_file) = Ret (0, m') w'
    /\ services m' !! "1" = Some s
    /\ s_unit s = Some "both.service"
    /\ s_exec s = Some ["/bin/x"; "--a"]
    /\ unit_xor_exec s = false.
Proof.
  eexists _, _, _. split; [vm_compute; reflexivity|].
  split; [vm_compute; reflexivity|]. repeat split.
Qed.

(** ** Service ids *)

Lemma decimal_inj a b : 0 <= a -> 0 <= b -> decimal a = decimal b -> a = b.
Proof.
  intros Ha Hb Heq. unfold decimal in Heq.
  apply (inj pretty) in Heq. by apply Z2N.inj.
Qed.

Lemma alloc_ok w :
  (1 <= w_heap w)%nat -> alloc w = Ret true (set_heap w (w_heap w - 1)).
Proof.
  intros H. unfold alloc. destruct (w_heap w) as [|n]; [lia|].
  by replace (S n - 1)%nat with n by lia.
Qed.

Lemma set_heap_set_heap w a b : set_heap (set_heap w a) b = set_heap w b.
Proof. reflexivity. Qed.

Lemma w_heap_set_heap w a : w_heap (set_heap w a) = a.
Proof. reflexivity. Qed.

Lemma alloc_each_ok n : forall w,
  (n <= w_heap w)%nat -> alloc_each n w = Ret true (set_heap w (w_heap w - n)).
Proof.
  induction n as [|n IH]; intros w H.
  - simpl. unfold ret. destruct w; unfold set_heap; cbn.
    by rewrite Nat.sub_0_r.
  - simpl. unfold bind. rewrite alloc_ok by lia.
    rewrite IH by (rewrite w_heap_set_heap; lia).
    rewrite set_heap_set_heap, w_heap_set_heap. do 2 f_equal. lia.
Qed.

(** With room for its allocations and a free slot, [service_new] links the
    new service under the next id. *)
Lemma service_new_ok manager name unit exec w :
  (allocations (name, unit, exec) <= w_heap w)%nat ->
  services manager !! next_id manager = None ->
  service_new manager name unit exec w
  = Ret (0, Some (new_service manager name unit exec),
         set_services
           (set_service_ids manager ((service_ids manager + 1) mod 2 ^ 64))
           (<[next_id manager := new_service manager name unit exec]>
              (services manager)))
        (set_heap w (w_heap w - allocations (name, unit, exec))).
Proof.
  unfold allocations. cbn [fst snd]. intros Hheap Hfree.
  unfold service_new, bind.
  rewrite alloc_ok by lia. cbn [negb].
  rewrite alloc_ok by (rewrite w_heap_set_heap; lia). cbn [negb].
  rewrite !set_heap_set_heap, !w_heap_set_heap.
  destruct unit as [u|], exec as [e|]; cbn [length] in *.
  - rewrite alloc_ok by (rewrite w_heap_set_heap; lia). cbn [negb].
    unfold bind. rewrite alloc_ok by (rewrite ?w_heap_set_heap; lia).
    rewrite alloc_each_ok by (rewrite ?w_heap_set_heap; lia). cbn [negb].
    cbn [services set_service_ids]. fold (next_id manager). rewrite Hfree.
    unfold ret. rewrite !set_heap_set_heap, !w_heap_set_heap.
    do 2 f_equal. lia.
  - rewrite alloc_ok by (rewrite w_heap_set_heap; lia). cbn [negb].
    unfold ret at 1. cbn [negb].
    cbn [services set_service_ids]. fold (next_id manager). rewrite Hfree.
    unfold ret. rewrite !set_heap_set_heap, !w_heap_set_heap.
    do 2 f_equal. lia.
  - unfold ret at 1. cbn [negb].
    unfold bind. rewrite alloc_ok by (rewrite ?w_heap_set_heap; lia).
    rewrite alloc_each_ok by (rewrite ?w_heap_set_heap; lia). cbn [negb].
    cbn [services set_service_ids]. fold (next_id manager). rewrite Hfree.
    unfold ret. rewrite !set_heap_set_heap, !w_heap_set_heap.
    do 2 f_equal. lia.
  - unfold ret at 1. cbn [negb]. unfold ret at 1. cbn [negb].
    cbn [services set_service_ids]. fold (next_id manager). rewrite Hfree.
    unfold ret. do 2 f_equal. lia.
Qed.

(** While the counter has not wrapped, the next id is not in the tree. *)
Lemma next_id_free manager :
  ids_from_counter manager ->
  service_ids manager + 1 < 2 ^ 64 ->
  next_id manager = decimal (service_ids manager + 1)
  /\ services manager !! next_id manager = None.
Proof.
  intros [Hnonneg Hids] Hroom.
  assert (Hid : next_id manager = decimal (service_ids manager + 1)).
  { unfold next_id. by rewrite Z.mod_small by lia. }
  split; [exact Hid|].
  destruct (services manager !! next_id manager) as [s|] eqn:E; [|done].
  destruct (Hids _ _ E) as (n & Hn & Heq).
  rewrite Hid in Heq. apply decimal_inj in Heq; lia.
Qed.

Lemma ids_from_counter_insert manager name unit exec :
  ids_from_counter manager ->
  service_ids manager + 1 < 2 ^ 64 ->
  ids_from_counter
    (set_services
       (set_service_ids manager ((service_ids manager + 1) mod 2 ^ 64))
       (<[next_id manager := new_service manager name unit exec]>
          (services manager))).
Proof.
  intros Hinv Hroom. destruct (next_id_free manager Hinv Hroom) as [Hid _].
  destruct Hinv as [Hnonneg Hids].
  unfold ids_from_counter. cbn [service_ids services set_services
    set_service_ids]. rewrite Z.mod_small by lia. split; [lia|].
  intros k s Hk. destruct (decide (next_id manager = k)) as [<-|Hne].
  - exists (service_ids manager + 1). split; [lia|exact Hid].
  - rewrite lookup_insert_ne in Hk by done.
    destruct (Hids _ _ Hk) as (n & Hn & ->). exists n. split; [lia|done].
Qed.

(** Registration from any manager whose ids came from the counter: the
    [i]-th new service gets the counter's value plus [i]. *)
Lemma register_each_from defs : forall manager w,
  ids_from_counter manager ->
  service_ids manager + Z.of_nat (length defs) < 2 ^ 64 ->
  (sum_list (map allocations defs) <= w_heap w)%nat ->
  exists regs m' w',
    register_each manager defs w = Ret (regs, m') w'
    /\ map s_id regs
       = map (fun i => decimal (service_ids manager + Z.of_nat i))
             (seq 1 (length defs))
    /\ map definition_of regs = defs
    /\ size (services m') = (size (services manager) + length defs)%nat
    /\ (forall s, s ∈ regs -> services m' !! s_id s = Some s)
    /\ (forall k s, services manager !! k = Some s ->
                    services m' !! k = Some s)
    /\ service_ids m' = service_ids manager + Z.of_nat (length defs)
    /\ ids_from_counter m'.
Proof.
  induction defs as [|[[name unit] exec] defs IH]; intros manager w Hinv
    Hroom Hheap.
  - exists [], manager, w. cbn. rewrite Z.add_0_r, Nat.add_0_r.
    split; [done|]. split; [done|]. split; [done|]. split; [done|].
    split; [intros s Hs; by apply elem_of_nil in Hs|]. auto.
  - change (sum_list (map allocations ((name, unit, exec) :: defs)))
      with (allocations (name, unit, exec)
            + sum_list (map allocations defs))%nat in Hheap.
    cbn [length] in *.
    assert (Hone : service_ids manager + 1 < 2 ^ 64) by lia.
    destruct (next_id_free manager Hinv Hone) as [Hid Hfree].
    cbn [register_each fst snd]. unfold bind at 1.
    rewrite service_new_ok by (done || lia). cbn [fst snd].
    set (s0 := new_service manager name unit exec).
    set (m1 := set_services _ _).
    set (w1 := set_heap _ _).
    assert (Hids1 : service_ids m1 = service_ids manager + 1).
    { subst m1. cbn. apply Z.mod_small. destruct Hinv. lia. }
    destruct (IH m1 w1) as (regs & m' & w' & Hrun & Hregs & Hdefs & Hsize
                            & Hin & Hmono & Hcount & Hinv').
    { subst m1. apply ids_from_counter_insert; [done|lia]. }
    { rewrite Hids1. lia. }
    { subst w1. rewrite w_heap_set_heap. lia. }
    exists (s0 :: regs), m', w'. unfold bind. rewrite Hrun. cbn [fst snd].
    assert (Hs0 : services m1 !! s_id s0 = Some s0).
    { subst m1 s0. cbn [services set_services new_service s_id].
      apply lookup_insert_eq. }
    split; [reflexivity|]. split.
    { cbn [map seq]. f_equal.
      - subst s0. cbn [new_service s_id]. rewrite Hid. f_equal.
      - rewrite <- (seq_shift (length defs) 1), Hregs, map_map.
        apply map_ext. intros i. rewrite Hids1. f_equal. lia. }
    split; [cbn [map]; by rewrite Hdefs|].
    split.
    { rewrite Hsize. subst m1. cbn [services set_services].
      rewrite map_size_insert_None by done. lia. }
    split.
    { intros s Hs. apply elem_of_cons in Hs as [->|Hs]; [|by apply Hin].
      by apply Hmono. }
    split.
    { intros k s Hk. apply Hmono. subst m1. cbn [services set_services].
      rewrite lookup_insert_ne; [done|]. intros <-. congruence. }
    split; [rewrite Hcount, Hids1; lia|done].
Qed.

(** An id that [service_new] hands out was not in the tree before. *)
Lemma service_new_fresh_id manager name unit exec w r s m' w' :
  service_new manager name unit exec w = Ret (r, Some s, m') w' ->
  services manager !! s_id s = None /\ services m' !! s_id s = Some s.
Proof.
  intros Hnew.
  pose proof (service_new_cases manager name unit exec w) as Hcases.
  rewrite Hnew in Hcases.
  destruct Hcases as [(_ & Hnone & _)|(_ & Hsome & Hfree & Hins & _)];
    [discriminate|].
  injection Hsome as ->. cbn [new_service s_id]. split; [done|].
  rewrite Hins. apply lookup_insert_eq.
Qed.

(** C6.  From an empty registry whose counter is at zero, registering [N]
    definitions, fewer than the counter has values and with room for their
    allocations, succeeds for every one of them: the registry ends with
    exactly [N] entries, the [i]-th service made has the id that is the
    decimal of [i] and is found under it, the counter ends at [N], and no id
    is handed out twice.  Whatever the state of the manager, an id that
    [service_new] hands out is not the id of a service in the registry. *)
Theorem service_new_sequence defs manager w :
  services manager = ∅ ->
  service_ids manager = 0 ->
  Z.of_nat (length defs) < 2 ^ 64 ->
  (sum_list (map allocations defs) <= w_heap w)%nat ->
  (exists regs m' w',
     register_each manager defs w = Ret (regs, m') w'
     /\ map s_id regs
        = map (fun i => decimal (Z.of_nat i)) (seq 1 (length defs))
     /\ map definition_of regs = defs
     /\ size (services m') = length defs
     /\ (forall s, s ∈ regs -> services m' !! s_id s = Some s)
     /\ NoDup (map s_id regs)
     /\ service_ids m' = Z.of_nat (length defs))
  /\ (forall m0 name unit exec w0 r s m1 w1,
        service_new m0 name unit exec w0 = Ret (r, Some s, m1) w1 ->
        services m0 !! s_id s = None /\ services m1 !! s_id s = Some s).
Proof.
  intros Hempty Hzero Hroom Hheap. split.
  2: { intros m0 name unit exec w0 r s m1 w1.
       apply service_new_fresh_id. }
  destruct (register_each_from defs manager w)
    as (regs & m' & w' & Hrun & Hregs & Hdefs & Hsize & Hin & _ & Hcount & _).
  - split; [lia|]. intros k s Hk. rewrite Hempty in Hk. done.
  - lia.
  - done.
  - exists regs, m', w'. rewrite Hzero in Hregs, Hcount.
    rewrite Hempty, map_size_empty in Hsize.
    repeat split; try done.
    rewrite Hregs. apply NoDup_fmap_2.
    + intros i j Hij. apply decimal_inj in Hij; lia.
    + apply NoDup_seq.
Qed.

Lemma service_new_sequence_witness :
  (exists regs m' w',
     register_each Sample.fresh Sample.three_defs Sample.world
     = Ret (regs, m') w'
     /\ map s_id regs = ["1"; "2"; "3"]
     /\ map definition_of regs = Sample.three_defs
     /\ size (services m') = 3%nat
     /\ (forall s, s ∈ regs -> services m' !! s_id s = Some s)
     /\ NoDup (map s_id regs)
     /\ service_ids m' = 3)
  /\ (forall m0 name unit exec w0 r s m1 w1,
        service_new m0 name unit exec w0 = Ret (r, Some s, m1) w1 ->
        services m0 !! s_id s = None /\ services m1 !! s_id s = Some s).
Proof.
  apply (service_new_sequence Sample.three_defs Sample.fresh Sample.world).
  - reflexivity.
  - reflexivity.
  - reflexivity.
  - vm_compute. lia.
Defined.


(** * Further properties of the launcher *)

Local Set Warnings "-clear-no-such-hyp".

(** ** Descriptors *)

Lemma release_no_close es : forall n,
  forallb no_close es = true ->
  fold_left (fun n e => release e n) es n = n.
Proof.
  induction es as [|e es IH]; intros n Hes; [reflexivity|].
  cbn [forallb] in Hes. apply andb_true_iff in Hes as [He Hes].
  cbn [fold_left]. rewrite IH by done. by destruct e.
Qed.

Lemma w_next_fd_happened es w :
  forallb no_close es = true -> w_next_fd (happened es w) = w_next_fd w.
Proof. intros Hes. cbn. by apply release_no_close. Qed.

Lemma no_close_verbose args text :
  forallb no_close (verbose_line args text) = true.
Proof. unfold verbose_line. by destruct (main_arg_verbose args). Qed.

Lemma w_next_fd_verbose args text w :
  w_next_fd (happened (verbose_line args text) w) = w_next_fd w.
Proof. apply w_next_fd_happened, no_close_verbose. Qed.

(** ** The bootstrap *)

Lemma fold_emit_body vs : forall b,
  b_open b = [] ->
  fold_left emit vs b
  = {| b_msg := with_body (b_msg b) (m_body (b_msg b) ++ vs); b_open := [] |}.
Proof.
  induction vs as [|v vs IH]; intros b Hb.
  - cbn. rewrite app_nil_r. destruct b as [[] op]. cbn in *. by subst.
  - cbn [fold_left]. rewrite IH by (unfold emit; by rewrite Hb).
    unfold emit. rewrite Hb. cbn. by rewrite <- app_assoc.
Qed.

Lemma manager_add_listener_calls args manager policypath w :
  launches (w_host w) ->
  policy_path args = Some policypath ->
  bus_open (bus_controller manager) = true ->
  manager_add_listener args manager w
  = Ret 0 (happened
             [ECall Controller
                (add_listener (fd_listen manager) policypath
                              (h_policy_export (w_host w)).2)] w).
Proof.
  intros (_ & Hread & Himport & Hexport & Hreply) Hpath Hopen.
  unfold manager_add_listener. fold (policy_path args). rewrite Hpath.
  unfold bind at 1. unfold host at 1.
  rewrite Hread, Himport, Hexport. cbn [Z.eqb negb].
  unfold sd_bus_message_new_method_call. rewrite Hopen.
  cbn -[fold_left sd_bus_call]. unfold sd_bus_call. rewrite Hopen.
  cbn [negb]. rewrite fold_emit_body by reflexivity.
  cbn [b_open b_msg]. unfold bind, host, ret. rewrite perform_happened.
  rewrite w_host_happened.
  match goal with
  | |- context [h_broker_reply ?h ?m] => specialize (Hreply m)
  end.
  apply Z.ltb_ge in Hreply. rewrite Hreply. reflexivity.
Qed.

Lemma manager_connect_trace manager w :
  bus_regular manager = None ->
  0 <= fd_listen manager ->
  0 <= w_next_fd w ->
  manager_connect manager w
  = Ret (0, set_bus_regular manager
              (Some {| bus_fd := Some (w_next_fd w); bus_started := true;
                       bus_client := true |}))
        (happened [ESocket (w_next_fd w);
                   EConnect (w_next_fd w) (fd_listen manager)]
                  (set_next_fd w (w_next_fd w + 1))).
Proof.
  intros Hnone Hfd Hnext. unfold manager_connect. rewrite Hnone.
  rewrite bool_decide_eq_false_2 by (intros [? ?]; discriminate).
  unfold bind at 1. unfold sys_socket, bind, fresh_fd.
  rewrite perform_happened. unfold ret at 1.
  apply Z.ltb_ge in Hnext. rewrite Hnext.
  apply Z.ltb_ge in Hfd. rewrite Hfd.
  rewrite perform_happened, happened_app. reflexivity.
Qed.

(** ** The socket path of a listener bound by the launcher *)

Lemma sys_unlink_present path w :
  h_unlink (w_host w) path = 0 ->
  path ∈ w_files w ->
  sys_unlink path w
  = Ret 0 (set_files (happened [EUnlink path] w) (w_files w ∖ {[path]})).
Proof.
  intros Hhost Hin. unfold sys_unlink. rewrite Hhost. cbn [Z.ltb Z.compare].
  destruct (decide (path ∈ w_files w)); [|contradiction].
  unfold happened, set_files, set_trace, set_next_fd. cbn. by destruct w.
Qed.

Lemma sys_unlink_absent path w :
  h_unlink (w_host w) path = 0 ->
  path ∉ w_files w -> sys_unlink path w = Ret (- ENOENT) w.
Proof.
  intros Hhost Hout. unfold sys_unlink. rewrite Hhost. cbn [Z.ltb Z.compare].
  destruct (decide (path ∈ w_files w)); [contradiction|reflexivity].
Qed.

Lemma manager_listen_path_in_use manager path w :
  fd_listen manager < 0 ->
  0 <= w_next_fd w ->
  (String.length path < sizeof_sun_path)%nat ->
  path ∈ w_files w ->
  manager_listen_path manager path w
  = Ret (- EADDRINUSE, manager)
        (happened [ESocket (w_next_fd w); EClose (w_next_fd w)]
                  (set_next_fd w (w_next_fd w + 1))).
Proof.
  intros Hfd Hnext Hlen Hin. unfold manager_listen_path.
  apply Z.ltb_lt in Hfd. rewrite Hfd. cbn [negb].
  unfold bind at 1. unfold sys_socket, bind, fresh_fd.
  rewrite perform_happened. unfold ret at 1.
  apply Z.ltb_ge in Hnext. rewrite Hnext.
  unfold memcpy_sun_path.
  destruct (String.length path <=? sizeof_sun_path)%nat eqn:E;
    [|apply Nat.leb_gt in E; lia].
  unfold ret at 1. unfold sys_bind.
  destruct (sizeof_sockaddr_un
            <? AF_UNIX_offsetof_sun_path + Z.of_nat (String.length path) + 1)
    eqn:Elen.
  { apply Z.ltb_lt in Elen.
    unfold sizeof_sockaddr_un, AF_UNIX_offsetof_sun_path, sizeof_sun_path in *.
    lia. }
  cbn [w_files happened set_trace set_next_fd].
  destruct (decide (path ∈ w_files w)); [|contradiction].
  change (- EADDRINUSE <? 0) with true. cbv beta iota.
  unfold c_close. rewrite Hnext. unfold bind, ret.
  rewrite perform_happened, happened_app. reflexivity.
Qed.

(** X2.  Without [--force], a launcher told to listen at a path that exists
    gives up: the socket it made is closed again, nothing is bound and
    nothing is removed, the files are as they were, the manager is taken
    down, and the exit status is 1. *)
Theorem main_path_in_use args path tail w :
  main_arg_listen args = Some path ->
  path = String "/" tail ->
  (String.length path < sizeof_sun_path)%nat ->
  main_arg_force args = false ->
  path ∈ w_files w ->
  0 <= w_next_fd w ->
  (1 <= w_heap w)%nat ->
  exists w',
    main args 0 w = Ret 1 w'
    /\ w_files w' = w_files w
    /\ w_trace w'
       = w_trace w
         ++ [ESocket (w_next_fd w); EClose (w_next_fd w);
             EBusClose Controller; EBusUnref Controller; EEventUnref;
             EFreeManager]
         ++ verbose_line args ("Exiting due to fatal error: "
                               +:+ pretty (- EADDRINUSE) +:+ LF).
Proof.
  intros Hlisten Hpath Hlen Hforce Hin Hnext Hheap.
  unfold main. cbn [Z.eqb negb]. unfold bind at 1. unfold run.
  unfold bind at 1. unfold manager_new. unfold bind at 1.
  rewrite alloc_ok by done. cbn [negb]. unfold ret at 1.
  cbn [Z.eqb negb]. unfold bind at 1. unfold run_manager.
  unfold bind at 1. unfold run_path. rewrite Hlisten. unfold ret at 1.
  cbn [Z.eqb negb].
  assert (Hinherit : streq path "inherit" = false) by (by subst path).
  rewrite Hinherit. fold fresh_manager.
  rewrite Hpath. cbv beta iota. rewrite <- Hpath.
  rewrite Hforce. unfold bind at 1. unfold ret at 1.
  cbn [Z.eqb negb]. unfold bind at 1.
  rewrite manager_listen_path_in_use; [|reflexivity|exact Hnext|exact Hlen
                                       |exact Hin].
  change (negb (- EADDRINUSE =? 0)) with true. cbv beta iota.
  unfold ret at 1. cbv beta iota. unfold bind at 1.
  rewrite manager_free_trace.
  unfold ret at 1. unfold error_trace.
  change (- EADDRINUSE <? 0) with true.
  change ((- EADDRINUSE =? 0) || (- EADDRINUSE =? MAIN_EXIT)) with false.
  cbn [andb]. rewrite verbose_happened. unfold ret.
  eexists. split; [reflexivity|]. split; [reflexivity|].
  cbn [w_trace happened set_trace set_next_fd set_heap].
  unfold closes_listener, closes_bus, drops_event_loop, fresh_manager.
  cbn [fd_listen bus_regular bus_controller event services].
  rewrite map_to_list_empty. cbn. rewrite <- !app_assoc. reflexivity.
Qed.

Lemma main_path_in_use_witness :
  exists w',
    main Sample.path_args 0 Case.world_in_use = Ret 1 w'
    /\ w_files w' = w_files Case.world_in_use
    /\ w_trace w'
       = w_trace Case.world_in_use
         ++ [ESocket (w_next_fd Case.world_in_use);
             EClose (w_next_fd Case.world_in_use);
             EBusClose Controller; EBusUnref Controller; EEventUnref;
             EFreeManager]
         ++ verbose_line Sample.path_args
              ("Exiting due to fatal error: " +:+ pretty (- EADDRINUSE)
               +:+ LF).
Proof.
  apply (main_path_in_use Sample.path_args "/run/bus" "run/bus"
           Case.world_in_use).
  - reflexivity.
  - reflexivity.
  - cbn. unfold sizeof_sun_path. lia.
  - reflexivity.
  - vm_compute. reflexivity.
  - cbn. lia.
  - cbn. lia.
Defined.

(** ** Teardown on every return *)

(** X3.  Whenever [run] returns after the manager was made, the last thing
    it has done is to take the manager down: on every path back to [main],
    the failing ones too, the trace ends with the release of the manager. *)
Theorem run_frees_manager args w r w' :
  (1 <= w_heap w)%nat ->
  run args w = Ret r w' ->
  exists before, w_trace w' = before ++ [EFreeManager].
Proof.
  intros Hheap. unfold run, manager_new. unfold bind at 1. unfold bind at 1.
  rewrite alloc_ok by done. cbn [negb]. unfold ret at 1.
  cbn [Z.eqb negb]. unfold bind at 1.
  destruct (run_manager args _ _) as [[r1 m1] w1|h w1]; [|discriminate].
  unfold bind. rewrite manager_free_trace. unfold ret.
  intros [= <- <-]. rewrite w_trace_happened.
  eexists. rewrite !app_assoc. reflexivity.
Qed.

Lemma run_frees_manager_witness :
  exists before,
    w_trace (happened
               [ESocket 4; EClose 4; EBusClose Controller;
                EBusUnref Controller; EEventUnref; EFreeManager]
               (set_next_fd (set_heap Case.world_in_use 63) 5))
    = before ++ [EFreeManager].
Proof.
  apply (run_frees_manager Sample.path_args Case.world_in_use (- EADDRINUSE)).
  - cbn. lia.
  - vm_compute. reflexivity.
Defined.

(** ** Dispatch of what arrives on the controller link *)

Lemma c_string_prefix_app prefix : forall s,
  c_string_prefix (prefix +:+ s) prefix = Some s.
Proof.
  induction prefix as [|c prefix IH]; intros s.
  - by destruct s.
  - simpl. by rewrite Ascii.eqb_refl.
Qed.

Lemma c_string_prefix_inv prefix : forall str s,
  c_string_prefix str prefix = Some s -> str = prefix +:+ s.
Proof.
  induction prefix as [|c prefix IH]; intros str s.
  - destruct str; intros [= <-]; reflexivity.
  - destruct str as [|c' str]; simpl; [discriminate|].
    destruct (Ascii.eqb c' c) eqn:E; [|discriminate].
    apply Ascii.eqb_eq in E. subst c'. intros H. by rewrite (IH _ _ H).
Qed.

Lemma bind_error_trace (c : M Z) w :
  (r <- c ;; ret (error_trace r)) w = c w.
Proof. unfold bind, ret, error_trace. by destruct (c w). Qed.

Lemma manager_on_message_activate args manager id body w :
  manager_on_message args (activate_signal id body) manager w
  = manager_on_name_activate args manager (activate_signal id body) id w.
Proof.
  unfold manager_on_message.
  cbn [m_path activate_signal]. rewrite c_string_prefix_app.
  change (sd_bus_message_is_signal (activate_signal id body)
            "org.bus1.DBus.Name" "Activate") with true.
  cbv beta iota. apply bind_error_trace.
Qed.

(** X5.  How [manager_on_message] tells messages apart.  A signal
    [Activate] of [org.bus1.DBus.Name] on the object path of a name is an
    activation request for the id that follows the prefix of that path,
    whatever the id is; a signal [SetActivationEnvironment] of
    [org.bus1.DBus.Broker] on the broker's object path is an environment
    update; every other message, be it without a path, on another path, or
    not that signal, is answered with 0 and leaves the world as it was. *)
Theorem manager_on_message_dispatch args manager w :
  (forall id body,
     manager_on_message args (activate_signal id body) manager w
     = manager_on_name_activate args manager (activate_signal id body) id w)
  /\ (forall m,
        m_path m = Some "/org/bus1/DBus/Broker" ->
        sd_bus_message_is_signal m "org.bus1.DBus.Broker"
          "SetActivationEnvironment" = true ->
        manager_on_message args m manager w
        = manager_on_set_activation_environment manager m w)
  /\ (forall m,
        match m_path m with
        | None => True
        | Some path =>
            match c_string_prefix path "/org/bus1/DBus/Name/" with
            | Some _ =>
                sd_bus_message_is_signal m "org.bus1.DBus.Name" "Activate"
                = false
            | None =>
                path <> "/org/bus1/DBus/Broker"
                \/ sd_bus_message_is_signal m "org.bus1.DBus.Broker"
                     "SetActivationEnvironment" = false
            end
        end ->
        manager_on_message args m manager w = Ret 0 w).
Proof.
  split; [|split].
  - intros id body. apply manager_on_message_activate.
  - intros m Hpath Hsig. unfold manager_on_message. rewrite Hpath.
    change (c_string_prefix "/org/bus1/DBus/Broker" "/org/bus1/DBus/Name/")
      with (@None string).
    change (streq "/org/bus1/DBus/Broker" "/org/bus1/DBus/Broker") with true.
    cbv beta iota. rewrite Hsig. apply bind_error_trace.
  - intros m Hother. unfold manager_on_message.
    destruct (m_path m) as [path|]; [|reflexivity].
    destruct (c_string_prefix path "/org/bus1/DBus/Name/") as [suffix|].
    + rewrite Hother. reflexivity.
    + destruct (streq path "/org/bus1/DBus/Broker") eqn:E; [|reflexivity].
      apply String.eqb_eq in E. destruct Hother as [Hne|Hsig];
        [contradiction|]. rewrite Hsig. reflexivity.
Qed.

Lemma manager_on_message_dispatch_witness :
  manager_on_message default_args (activate_signal "7" []) Sample.manager
    Sample.world
  = manager_on_name_activate default_args Sample.manager
      (activate_signal "7" []) "7" Sample.world
  /\ manager_on_message default_args
       (Sample.set_activation_environment [("A", "1")]) Sample.manager
       Sample.world
     = manager_on_set_activation_environment Sample.manager
         (Sample.set_activation_environment [("A", "1")]) Sample.world
  /\ manager_on_message default_args Case.method_call_on_name
       Sample.manager Sample.world
     = Ret 0 Sample.world.
Proof.
  destruct (manager_on_message_dispatch default_args Sample.manager
              Sample.world) as (Hname & Henv & Hother).
  split; [apply Hname|]. split.
  - apply Henv; reflexivity.
  - apply Hother. reflexivity.
Defined.

(** ** Loading a service and activating it *)

Lemma sd_bus_call_method_sends bus dest path iface member vs w :
  bus_open bus = true ->
  sd_bus_call_method Controller bus dest path iface member vs w
  = Ret (h_broker_reply (w_host w)
           {| m_kind := MethodCall; m_destination := dest;
              m_path := Some path; m_interface := iface;
              m_member := member; m_body := vs |})
        (happened
           [ECall Controller
              {| m_kind := MethodCall; m_destination := dest;
                 m_path := Some path; m_interface := iface;
                 m_member := member; m_body := vs |}] w).
Proof.
  intros Hopen. unfold sd_bus_call_method, sd_bus_message_new_method_call.
  rewrite Hopen. cbn -[fold_left sd_bus_call]. unfold sd_bus_call.
  rewrite Hopen. cbn [negb]. rewrite fold_emit_body by reflexivity.
  cbn [b_open b_msg]. unfold bind, host, ret. rewrite perform_happened.
  reflexivity.
Qed.

(** What [manager_load_service] does up to the answer of the broker. *)
Lemma manager_load_service_calls args manager path f name w :
  h_key_file (w_host w) path = Some f ->
  kf_name f = Some name ->
  is_Some (kf_unit f) \/ is_Some (kf_exec f) ->
  (allocations (name, kf_unit f, kf_exec f) + 1 <= w_heap w)%nat ->
  services manager !! next_id manager = None ->
  bus_open (bus_controller manager) = true ->
  let m1 := with_new_service manager name (kf_unit f) (kf_exec f) in
  let w1 :=
    set_heap
      (happened
         (verbose_line args ("Loading service '" +:+ path +:+ "'" +:+ LF)
          ++ [ECall Controller (add_name (next_id manager) name)]) w)
      (w_heap w - (allocations (name, kf_unit f, kf_exec f) + 1)) in
  manager_load_service args manager path w
  = if h_broker_reply (w_host w) (add_name (next_id manager) name) <? 0
    then Ret (h_broker_reply (w_host w) (add_name (next_id manager) name),
              set_services m1 (delete (next_id manager) (services m1)))
             (happened [EFreeService (next_id manager)] w1)
    else Ret (0, m1) w1.
Proof.
  intros Hf Hname Hsupplied Hheap Hfree Hopen m1 w1.
  unfold manager_load_service. rewrite verbose_happened.
  unfold bind at 1. unfold host at 1. rewrite w_host_happened.
  rewrite Hf, Hname.
  assert (Hneither :
    negb (bool_decide (is_Some (kf_unit f)))
    && negb (bool_decide (is_Some (kf_exec f))) = false).
  { destruct Hsupplied as [H|H]; rewrite (bool_decide_eq_true_2 _ H); cbn;
      [done|apply andb_false_r]. }
  rewrite Hneither. unfold bind at 1.
  rewrite service_new_ok by (rewrite ?w_heap_happened; (done || lia)).
  cbn [Z.eqb negb]. unfold bind at 1.
  rewrite alloc_ok by (rewrite w_heap_set_heap, w_heap_happened; lia).
  cbn [negb]. unfold bind at 1.
  rewrite sd_bus_call_method_sends by exact Hopen.
  cbn [new_service s_id s_name w_host set_heap happened set_trace set_next_fd].
  fold (add_name (next_id manager) name).
  fold (with_new_service manager name (kf_unit f) (kf_exec f)). fold m1.
  assert (Hw1 :
    happened [ECall Controller (add_name (next_id manager) name)]
      (set_heap
         (set_heap
            (happened
               (verbose_line args
                  ("Loading service '" +:+ path +:+ "'" +:+ LF)) w)
            (w_heap
               (happened
                  (verbose_line args
                     ("Loading service '" +:+ path +:+ "'" +:+ LF)) w)
             - allocations (name, kf_unit f, kf_exec f)))
         (w_heap
            (set_heap
               (happened
                  (verbose_line args
                     ("Loading service '" +:+ path +:+ "'" +:+ LF)) w)
               (w_heap
                  (happened
                     (verbose_line args
                        ("Loading service '" +:+ path +:+ "'" +:+ LF)) w)
                - allocations (name, kf_unit f, kf_exec f))) - 1)) = w1).
  { subst w1. rewrite !w_heap_set_heap, !w_heap_happened.
    rewrite set_heap_set_heap, !set_heap_happened, happened_app.
    do 2 f_equal. lia. }
  rewrite Hw1.
  destruct (h_broker_reply (w_host w) (add_name (next_id manager) name) <? 0)
    eqn:Hreply.
  - unfold service_free, bind, ret. rewrite perform_happened.
    cbn [s_rb s_id new_service].
    unfold error_origin. rewrite Hreply.
    destruct (h_broker_reply (w_host w) (add_name (next_id manager) name)
              =? 0) eqn:E; [|reflexivity].
    apply Z.eqb_eq in E. apply Z.ltb_lt in Hreply. lia.
  - reflexivity.
Qed.

(** X6.  A service file with a name and a unit, loaded while the
    controller link is open, the broker agrees and memory lasts: the service
    is announced to the broker with [AddName] under the object path that
    ends in its id, and from then on the signal [Activate] on that very
    object path makes the launcher ask the service manager, with one
    notification on the regular link, for the unit of that service.  The
    one exception is a file that carries the name of the service manager
    itself: it is loaded and announced like every other, and the signal is
    then answered with success and nothing is sent. *)
Theorem manager_load_then_activate args manager path f name unit w :
  h_key_file (w_host w) path = Some f ->
  kf_name f = Some name ->
  kf_unit f = Some unit ->
  (allocations (name, kf_unit f, kf_exec f) + 1 <= w_heap w)%nat ->
  services manager !! next_id manager = None ->
  bus_open (bus_controller manager) = true ->
  0 <= h_broker_reply (w_host w) (add_name (next_id manager) name) ->
  exists m' w',
    manager_load_service args manager path w = Ret (0, m') w'
    /\ w_trace w'
       = w_trace w
         ++ verbose_line args ("Loading service '" +:+ path +:+ "'" +:+ LF)
         ++ [ECall Controller (add_name (next_id manager) name)]
    /\ forall m2 body w2,
         services m2 = services m' ->
         bus_open (bus_regular m2) = true ->
         manager_on_message args (activate_signal (next_id manager) body)
           m2 w2
         = Ret 0 (if streq name "org.freedesktop.systemd1" then w2
                  else happened
                         (verbose_line args
                            ("Activation request for '" +:+ name +:+ "' -> '"
                             +:+ unit +:+ "'" +:+ LF)
                          ++ [ESend Regular (activation_request unit)]) w2).
Proof.
  intros Hf Hname Hunit Hheap Hfree Hopen Hreply.
  rewrite (manager_load_service_calls args manager path f name w)
    by (eauto || done).
  apply Z.ltb_ge in Hreply. rewrite Hreply.
  eexists _, _. split; [reflexivity|]. split; [reflexivity|].
  intros m2 body w2 Hsame Hregular.
  rewrite manager_on_message_activate.
  assert (Hid : services m2 !! next_id manager
                = Some (new_service manager name (kf_unit f) (kf_exec f))).
  { rewrite Hsame. unfold with_new_service. cbn [services set_services].
    apply lookup_insert_eq. }
  destruct (streq name "org.freedesktop.systemd1") eqn:Hpid1.
  - unfold manager_on_name_activate. rewrite Hid.
    cbn [s_name new_service]. by rewrite Hpid1.
  - apply String.eqb_neq in Hpid1.
    by rewrite (manager_on_name_activate_unit args m2 _ (next_id manager)
                  (new_service manager name (kf_unit f) (kf_exec f)) unit).
Qed.

(** X7.  When the broker refuses the name, [manager_load_service] hands the
    refusal on and takes the service out of the registry again: the registry
    is as it was before, the service is released, and the id stays spent,
    the next service gets another one. *)
Theorem manager_load_service_refused args manager path f name w :
  h_key_file (w_host w) path = Some f ->
  kf_name f = Some name ->
  is_Some (kf_unit f) \/ is_Some (kf_exec f) ->
  (allocations (name, kf_unit f, kf_exec f) + 1 <= w_heap w)%nat ->
  services manager !! next_id manager = None ->
  bus_open (bus_controller manager) = true ->
  h_broker_reply (w_host w) (add_name (next_id manager) name) < 0 ->
  0 <= service_ids manager ->
  service_ids manager + 2 < 2 ^ 64 ->
  exists m' w',
    manager_load_service args manager path w
    = Ret (h_broker_reply (w_host w) (add_name (next_id manager) name), m') w'
    /\ services m' = services manager
    /\ next_id m' <> next_id manager
    /\ w_trace w'
       = w_trace w
         ++ verbose_line args ("Loading service '" +:+ path +:+ "'" +:+ LF)
         ++ [ECall Controller (add_name (next_id manager) name);
             EFreeService (next_id manager)].
Proof.
  intros Hf Hname Hsupplied Hheap Hfree Hopen Hreply Hnonneg Hroom.
  rewrite (manager_load_service_calls args manager path f name w) by done.
  apply Z.ltb_lt in Hreply. rewrite Hreply.
  eexists _, _. split; [reflexivity|]. split.
  { unfold with_new_service. cbn [services set_services].
    by apply delete_insert_id. }
  split.
  { unfold next_id, with_new_service.
    cbn [service_ids set_services set_service_ids].
    rewrite !Z.mod_small by (rewrite ?Z.mod_small; lia).
    intros Heq. apply decimal_inj in Heq; lia. }
  cbn [w_trace happened set_trace set_heap set_next_fd].
  rewrite <- !app_assoc. reflexivity.
Qed.

Lemma manager_load_then_activate_witness :
  exists m' w',
    manager_load_service default_args Sample.manager
      "/usr/share/dbus-1/system-services/both.service"
      (Sample.world_with_file Sample.both_file) = Ret (0, m') w'
    /\ manager_on_message default_args (activate_signal "1" []) m' w'
       = Ret 0 (happened [ESend Regular (activation_request "both.service")]
                         w').
Proof.
  destruct (manager_load_then_activate default_args Sample.manager
              "/usr/share/dbus-1/system-services/both.service"
              Sample.both_file "org.example.Both" "both.service"
              (Sample.world_with_file Sample.both_file))
    as (m' & w' & Hload & _ & Hactivate).
  - reflexivity.
  - reflexivity.
  - reflexivity.
  - vm_compute. lia.
  - reflexivity.
  - reflexivity.
  - vm_compute. discriminate.
  - exists m', w'. split; [exact Hload|].
    apply (Hactivate m' [] w'); [reflexivity|].
    vm_compute in Hload. injection Hload as <- _. reflexivity.
Defined.

Lemma manager_load_service_refused_witness :
  exists m' w',
    manager_load_service default_args Sample.manager
      "/usr/share/dbus-1/system-services/both.service"
      (Case.world_refusing Sample.both_file) = Ret (-13, m') w'
    /\ services m' = services Sample.manager
    /\ next_id m' <> next_id Sample.manager.
Proof.
  destruct (manager_load_service_refused default_args Sample.manager
              "/usr/share/dbus-1/system-services/both.service"
              Sample.both_file "org.example.Both"
              (Case.world_refusing Sample.both_file))
    as (m' & w' & Hload & Hsame & Hnext & _).
  - reflexivity.
  - reflexivity.
  - left. by eexists.
  - vm_compute. lia.
  - reflexivity.
  - reflexivity.
  - vm_compute. reflexivity.
  - vm_compute. discriminate.
  - vm_compute. reflexivity.
  - exists m', w'. auto.
Defined.

(** ** The scan of the service directory *)

Lemma filter_on_controller_verbose args text :
  filter on_controller_link (verbose_line args text) = [].
Proof. by apply count_verbose_line. Qed.

Lemma manager_load_services_loop_scan args h dirpath entries :
  forall defs manager w,
    w_host w = h ->
    Forall2 (fun d_name d =>
               exists f, h_key_file h (dirpath +:+ "/" +:+ d_name) = Some f
                         /\ holds f d)
            (filter is_service_file entries) defs ->
    (forall m, 0 <= h_broker_reply h m) ->
    bus_open (bus_controller manager) = true ->
    ids_from_counter manager ->
    service_ids manager + Z.of_nat (length defs) < 2 ^ 64 ->
    (scan_allocations defs <= w_heap w)%nat ->
    exists m' w' new,
      manager_load_services_loop args manager dirpath entries w
      = Ret (0, m') w'
      /\ w_trace w' = w_trace w ++ new
      /\ filter on_controller_link new = add_names (service_ids manager) defs
      /\ size (services m') = (size (services manager) + length defs)%nat
      /\ service_ids m' = service_ids manager + Z.of_nat (length defs)
      /\ (forall k s, services manager !! k = Some s ->
                      services m' !! k = Some s)
      /\ (forall i d,
            defs !! i = Some d ->
            services m' !! decimal (service_ids manager + 1 + Z.of_nat i)
            = Some (service_of
                      (decimal (service_ids manager + 1 + Z.of_nat i)) d))
      /\ same_links manager m'
      /\ same_place w w'
      /\ filter on_regular_link new = []
      /\ services m'
         = registered (service_ids manager) defs (services manager)
      /\ (w_heap w - scan_allocations defs <= w_heap w')%nat.
Proof.
  induction entries as [|d_name entries IH];
    intros defs manager w Hhost Hfiles Hreply Hopen Hinv Hroom Hheap.
  - cbn in Hfiles. apply Forall2_nil_inv_l in Hfiles as ->.
    exists manager, w, []. cbn. rewrite app_nil_r, Z.add_0_r, Nat.add_0_r.
    repeat split; auto; [|lia]. intros i d Hd. by rewrite lookup_nil in Hd.
  - cbn [manager_load_services_loop].
    rewrite filter_cons in Hfiles.
    destruct (is_service_file d_name) eqn:Hservice.
    2: { cbn [negb]. destruct (decide (is_service_file d_name)) as [Hd|_].
         - rewrite Hservice in Hd. contradiction.
         - by apply IH. }
    destruct (decide (is_service_file d_name)) as [_|Hd];
      [|rewrite Hservice in Hd; exfalso; by apply Hd].
    apply Forall2_cons_inv_l in Hfiles
      as (d & defs' & (f & Hf & Hname & Hunit & Hexec & Hsupplied)
          & Hfiles & ->).
    cbn [negb]. unfold scan_allocations in Hheap.
    change (sum_list (map (fun d => allocations d + 2)%nat (d :: defs')))
      with (allocations d + 2 + scan_allocations defs')%nat in Hheap.
    cbn [length] in Hroom.
    destruct (next_id_free manager Hinv ltac:(lia)) as [Hid Hfree].
    unfold bind at 1. rewrite alloc_ok by lia. cbn [negb].
    unfold bind at 1.
    assert (Hdef : (d.1.1, kf_unit f, kf_exec f) = d).
    { rewrite Hunit, Hexec. by destruct d as [[? ?] ?]. }
    rewrite (manager_load_service_calls args manager _ f d.1.1);
      [|cbn [w_host set_heap]; by rewrite Hhost|exact Hname
       |by rewrite Hunit, Hexec
       |rewrite Hdef, w_heap_set_heap; lia|exact Hfree|exact Hopen].
    cbn [w_host set_heap]. rewrite Hhost.
    specialize (Hreply (add_name (next_id manager) d.1.1)) as Hrep.
    apply Z.ltb_ge in Hrep. rewrite Hrep. cbn [Z.eqb negb].
    rewrite Hdef.
    edestruct (IH defs' (with_new_service manager d.1.1 (kf_unit f)
                                          (kf_exec f)))
      as (m' & w' & new & -> & Htrace & Hcalls & Hsize & Hcount & Hmono
          & Hlookup & Hlinks & Hplace & Hregular & Hregistry & Hspent).
    + cbn. exact Hhost.
    + exact Hfiles.
    + exact Hreply.
    + exact Hopen.
    + apply ids_from_counter_insert; [done|lia].
    + unfold with_new_service. cbn [service_ids set_services set_service_ids].
      rewrite Z.mod_small by (destruct Hinv; lia). lia.
    + rewrite !w_heap_set_heap. lia.
    + assert (Hids1 : service_ids (with_new_service manager d.1.1 (kf_unit f)
                                      (kf_exec f))
                      = service_ids manager + 1).
      { unfold with_new_service.
        cbn [service_ids set_services set_service_ids].
        apply Z.mod_small. destruct Hinv. lia. }
      eexists m', w', _. split; [reflexivity|]. split.
      { rewrite Htrace. cbn [w_trace set_heap happened set_trace set_next_fd].
        rewrite <- !app_assoc. reflexivity. }
      split.
      { rewrite !filter_app, filter_on_controller_verbose, Hcalls, Hids1.
        cbn [add_names app]. rewrite Hid. reflexivity. }
      split.
      { rewrite Hsize. unfold with_new_service. cbn [services set_services].
        rewrite map_size_insert_None by done. cbn [length]. lia. }
      split; [rewrite Hcount, Hids1; cbn [length]; lia|].
      split.
      { intros k s Hk. apply Hmono. unfold with_new_service.
        cbn [services set_services].
        rewrite lookup_insert_ne; [done|]. intros <-. congruence. }
      split.
      { intros [|i] d0 Hd0.
        - injection Hd0 as <-. cbn [Z.of_nat]. rewrite Z.add_0_r, <- Hid.
          erewrite Hmono; [reflexivity|].
          unfold with_new_service. cbn [services set_services].
          rewrite lookup_insert_eq. unfold new_service, service_of.
          by rewrite Hunit, Hexec.
        - cbn [lookup list_lookup] in Hd0. apply Hlookup in Hd0.
          rewrite Hids1 in Hd0.
          replace (service_ids manager + 1 + Z.of_nat (S i))
            with (service_ids manager + 1 + 1 + Z.of_nat i) by lia.
          exact Hd0. }
      split.
      { destruct Hlinks as (? & ? & ? & ?). by repeat split. }
      split.
      { destruct Hplace as (Hp1 & Hp2 & Hp3).
        repeat split; [exact Hp1| |exact Hp3].
        rewrite Hp2. cbn [w_next_fd set_heap].
        rewrite w_next_fd_happened; [reflexivity|].
        by rewrite forallb_app, no_close_verbose. }
      split.
      { rewrite !filter_app, Hregular.
        rewrite count_verbose_line by done. reflexivity. }
      split.
      { rewrite Hregistry, Hids1. cbn [registered]. rewrite <- Hid.
        unfold with_new_service, new_service, service_of.
        cbn [services set_services]. by rewrite Hunit, Hexec. }
      rewrite !w_heap_set_heap in Hspent.
      change (scan_allocations (d :: defs'))
        with (allocations d + 2 + scan_allocations defs')%nat.
      lia.
Qed.

(** ** The scan of the service directory *)

Lemma substring_whole s : String.substring 0 (String.length s) s = s.
Proof. induction s as [|c s IH]; [done|]. cbn [String.length String.substring]. by rewrite IH. Qed.

Lemma substring_split (n m : nat) : forall s,
  (n + m)%nat = String.length s ->
  s = String.substring 0 n s +:+ String.substring n m s.
Proof.
  induction n as [|n IH]; intros s Hlen.
  - cbn [Nat.add] in Hlen. subst m.
    replace (String.substring 0 0 s) with EmptyString by (by destruct s).
    by rewrite substring_whole.
  - destruct s as [|c s]; [simpl in Hlen; lia|].
    cbn [String.length] in Hlen. cbn [String.substring].
    change (String c ?a +:+ ?b) with (String c (a +:+ b)).
    f_equal. apply IH. lia.
Qed.

Lemma substring_append (a b : string) :
  String.substring (String.length a) (String.length b) (a +:+ b) = b.
Proof.
  induction a as [|c a IH].
  - apply substring_whole.
  - exact IH.
Qed.

Lemma length_append (a b : string) :
  String.length (a +:+ b) = (String.length a + String.length b)%nat.
Proof.
  induction a as [|c a IH]; [done|].
  change (String c a +:+ b) with (String c (a +:+ b)).
  cbn [String.length]. by rewrite IH.
Qed.

Lemma is_service_file_dot rest : is_service_file (String "." rest) = false.
Proof. reflexivity. Qed.

Lemma is_service_file_other c rest :
  c <> "."%char ->
  is_service_file (String c rest)
  = if (String.length (String c rest) <=? 8)%nat then false
    else String.eqb
           (String.substring (String.length (String c rest) - 8) 8
                             (String c rest))
           ".service".
Proof.
  intros Hc. unfold is_service_file.
  destruct c as [[] [] [] [] [] [] [] []]; try reflexivity.
  by destruct Hc.
Qed.

(** X8.  The entries of the service directory that [manager_load_services]
    loads are exactly the names made of a stem that is not empty and does
    not start with a dot, followed by [.service]: hidden files, the bare
    suffix and every other name are passed over. *)
Theorem is_service_file_names d_name :
  is_service_file d_name = true
  <-> exists c stem, c <> "."%char
                     /\ d_name = String c stem +:+ ".service".
Proof.
  split.
  - destruct d_name as [|c rest]; [discriminate|].
    destruct (decide (c = "."%char)) as [->|Hc];
      [rewrite is_service_file_dot; discriminate|].
    rewrite is_service_file_other by done.
    destruct (String.length (String c rest) <=? 8)%nat eqn:Hlen;
      [discriminate|].
    apply Nat.leb_gt in Hlen. intros Hsuffix. apply String.eqb_eq in Hsuffix.
    exists c, (String.substring 0 (String.length rest - 8) rest).
    split; [done|].
    rewrite (substring_split (String.length (String c rest) - 8) 8
                             (String c rest)) at 1 by lia.
    rewrite Hsuffix. cbn [String.length] in Hlen |- *.
    replace (S (String.length rest) - 8)%nat
      with (S (String.length rest - 8)) by lia.
    reflexivity.
  - intros (c & stem & Hc & ->).
    change (String c stem +:+ ".service")
      with (String c (stem +:+ ".service")).
    rewrite is_service_file_other by done.
    change (String c (stem +:+ ".service"))
      with (String c stem +:+ ".service").
    rewrite length_append.
    change (String.length ".service") with 8%nat.
    replace (String.length (String c stem) + 8 <=? 8)%nat with false
      by (symmetry; apply Nat.leb_gt; cbn [String.length]; lia).
    replace (String.length (String c stem) + 8 - 8)%nat
      with (String.length (String c stem)) by lia.
    apply String.eqb_eq.
    exact (substring_append (String c stem) ".service").
Qed.

Lemma is_service_file_names_witness :
  is_service_file "org.example.A.service" = true
  /\ is_service_file ".service" = false.
Proof.
  split.
  - apply (proj2 (is_service_file_names "org.example.A.service")).
    exists "o"%char, "rg.example.A". split; [discriminate|reflexivity].
  - destruct (is_service_file ".service") eqn:Hdot; [|reflexivity].
    apply (proj1 (is_service_file_names ".service")) in Hdot
      as (c & stem & Hc & Hname).
    change (String c stem +:+ ".service")
      with (String c (stem +:+ ".service")) in Hname.
    injection Hname as Hfirst _. symmetry in Hfirst. contradiction.
Defined.

Lemma manager_load_services_loop_skip args manager dirpath entries w :
  filter is_service_file entries = [] ->
  manager_load_services_loop args manager dirpath entries w
  = Ret (0, manager) w.
Proof.
  induction entries as [|d_name entries IH]; intros Hnone; [reflexivity|].
  cbn [manager_load_services_loop]. rewrite filter_cons in Hnone.
  destruct (is_service_file d_name) eqn:Hservice.
  - destruct (decide (is_service_file d_name)) as [_|Hd];
      [discriminate|rewrite Hservice in Hd; exfalso; by apply Hd].
  - destruct (decide (is_service_file d_name)) as [Hd|_];
      [rewrite Hservice in Hd; contradiction|].
    cbn [negb]. by apply IH.
Qed.

Lemma manager_load_services_dir args manager dirpath w :
  service_dir args = Some dirpath ->
  manager_load_services args manager w
  = match h_opendir (w_host w) dirpath with
    | inl errno =>
        if (errno =? ENOENT) || (errno =? ENOTDIR) then Ret (0, manager) w
        else Ret (error_origin (- errno), manager) w
    | inr entries => manager_load_services_loop args manager dirpath entries w
    end.
Proof.
  unfold service_dir, manager_load_services. intros ->.
  unfold bind, host. destruct (h_opendir (w_host w) dirpath) as [errno|?];
    [|reflexivity].
  by destruct ((errno =? ENOENT) || (errno =? ENOTDIR)).
Qed.

(** X9.  [manager_load_services] registers the service files of its
    directory in the order the directory lists them: when every service
    file holds a name and a unit or a command line, the broker accepts the
    names and the counter and the heap have room, the scan succeeds, its
    calls to the broker are one [AddName] per service file, with the ids
    that follow the counter, the registry grows by one service per file and
    keeps the services it had, and the service of the file at position [i]
    is found under the id that is [i + 1] after the counter. *)
Theorem manager_load_services_scan args dirpath entries defs manager w :
  service_dir args = Some dirpath ->
  h_opendir (w_host w) dirpath = inr entries ->
  directory_holds (w_host w) dirpath entries defs ->
  (forall m, 0 <= h_broker_reply (w_host w) m) ->
  bus_open (bus_controller manager) = true ->
  ids_from_counter manager ->
  service_ids manager + Z.of_nat (length defs) < 2 ^ 64 ->
  (scan_allocations defs <= w_heap w)%nat ->
  exists m' w' new,
    manager_load_services args manager w = Ret (0, m') w'
    /\ w_trace w' = w_trace w ++ new
    /\ filter on_controller_link new = add_names (service_ids manager) defs
    /\ size (services m') = (size (services manager) + length defs)%nat
    /\ service_ids m' = service_ids manager + Z.of_nat (length defs)
    /\ (forall k s, services manager !! k = Some s ->
                    services m' !! k = Some s)
    /\ (forall i d,
          defs !! i = Some d ->
          services m' !! decimal (service_ids manager + 1 + Z.of_nat i)
          = Some (service_of
                    (decimal (service_ids manager + 1 + Z.of_nat i)) d)).
Proof.
  intros Hdir Hopendir Hfiles Hreply Hopen Hinv Hroom Hheap.
  rewrite (manager_load_services_dir args manager dirpath w Hdir), Hopendir.
  destruct (manager_load_services_loop_scan args (w_host w) dirpath entries
              defs manager w eq_refl Hfiles Hreply Hopen Hinv Hroom Hheap)
    as (m' & w' & new & Hrun & Htrace & Hcalls & Hsize & Hcount & Hmono
        & Hlookup & _).
  exists m', w', new. by repeat split.
Qed.

Lemma manager_load_services_scan_witness :
  exists m' w' new,
    manager_load_services Directory.args Sample.manager Directory.world
    = Ret (0, m') w'
    /\ w_trace w' = new
    /\ filter on_controller_link new
       = [ECall Controller (add_name "1" "org.example.A");
          ECall Controller (add_name "2" "org.example.B")]
    /\ size (services m') = 2%nat
    /\ services m' !! "2"
       = Some {| s_rb := true; s_name := "org.example.B"; s_unit := None;
                 s_exec := Some ["/bin/b"; "--now"]; s_id := "2" |}.
Proof.
  destruct (manager_load_services_scan Directory.args "/srv"
              Directory.entries Directory.defs Sample.manager
              Directory.world)
    as (m' & w' & new & Hrun & Htrace & Hcalls & Hsize & _ & _ & Hlookup).
  - reflexivity.
  - reflexivity.
  - unfold directory_holds.
    change (filter is_service_file Directory.entries)
      with ["a.service"; "b.service"].
    constructor; [|constructor; [|constructor]].
    + exists Directory.a_file. split; [reflexivity|].
      repeat split. left. by eexists.
    + exists Directory.b_file. split; [reflexivity|].
      repeat split. right. by eexists.
  - intros m. cbn. lia.
  - reflexivity.
  - split; [cbn; lia|]. intros k s Hk. cbn [Sample.manager services] in Hk.
    by rewrite lookup_empty in Hk.
  - cbn. lia.
  - vm_compute. lia.
  - exists m', w', new. split; [exact Hrun|]. split; [exact Htrace|].
    split; [exact Hcalls|]. split; [exact Hsize|].
    exact (Hlookup 1%nat _ eq_refl).
Defined.

(** X10.  A service directory that does not exist, that is not a directory,
    or that holds no service file is no error: [manager_load_services]
    returns 0 and leaves the manager and the world as they are.  Any other
    failure to open the directory is returned as its negative errno. *)
Theorem manager_load_services_nothing args dirpath manager w :
  service_dir args = Some dirpath ->
  (forall errno,
     h_opendir (w_host w) dirpath = inl errno ->
     0 < errno ->
     manager_load_services args manager w
     = Ret (if bool_decide (errno = ENOENT \/ errno = ENOTDIR)
            then 0 else - errno, manager) w)
  /\ (forall entries,
        h_opendir (w_host w) dirpath = inr entries ->
        filter is_service_file entries = [] ->
        manager_load_services args manager w = Ret (0, manager) w).
Proof.
  intros Hdir. rewrite (manager_load_services_dir args manager dirpath w Hdir).
  split.
  - intros errno -> Hpos.
    destruct (errno =? ENOENT) eqn:Hnoent.
    { apply Z.eqb_eq in Hnoent. rewrite bool_decide_eq_true_2 by auto.
      reflexivity. }
    destruct (errno =? ENOTDIR) eqn:Hnotdir.
    { apply Z.eqb_eq in Hnotdir. rewrite bool_decide_eq_true_2 by auto.
      reflexivity. }
    apply Z.eqb_neq in Hnoent, Hnotdir.
    rewrite bool_decide_eq_false_2 by (intros [?|?]; done).
    cbn [orb]. unfold error_origin.
    replace (- errno =? 0) with false by (symmetry; apply Z.eqb_neq; lia).
    replace (- errno <? 0) with true by (symmetry; apply Z.ltb_lt; lia).
    reflexivity.
  - intros entries -> Hnone. by apply manager_load_services_loop_skip.
Qed.

Lemma manager_load_services_nothing_witness :
  manager_load_services default_args Sample.fresh Sample.world
  = Ret (0, Sample.fresh) Sample.world
  /\ manager_load_services Directory.plain_args Sample.fresh Directory.world
     = Ret (0, Sample.fresh) Directory.world.
Proof.
  split.
  - apply (proj1 (manager_load_services_nothing default_args
                    "/usr/share/dbus-1/system-services" Sample.fresh
                    Sample.world eq_refl) ENOENT); [reflexivity|].
    unfold ENOENT. lia.
  - apply (proj2 (manager_load_services_nothing Directory.plain_args
                    "/etc" Sample.fresh Directory.world eq_refl)
                 Directory.plain_entries); reflexivity.
Defined.

(** ** The inherited listener *)

(** X11.  [manager_listen_inherit] takes the listener only when exactly one
    descriptor was passed and it is a socket of the right kind: then the
    manager listens on descriptor 3 and nothing else happens.  With none,
    several, or something that is no such socket the call fails with
    [MAIN_FAILED] and one line on stderr, the manager is unchanged, and the
    descriptor is closed again when it is the one that was looked at. *)
Theorem manager_listen_inherit_one_socket manager w :
  fd_listen manager < 0 ->
  0 <= h_listen_fds (w_host w) ->
  0 <= h_is_socket (w_host w) ->
  exists r m' w',
    manager_listen_inherit manager w = Ret (r, m') w'
    /\ (r = 0 \/ r = MAIN_FAILED)
    /\ (r = 0 <-> h_listen_fds (w_host w) = 1 /\ 0 < h_is_socket (w_host w))
    /\ (r = 0 -> m' = set_fd_listen manager SD_LISTEN_FDS_START /\ w' = w)
    /\ (r = MAIN_FAILED ->
        m' = manager
        /\ exists text,
             w_trace w'
             = w_trace w
               ++ EStderr text
                  :: (if h_listen_fds (w_host w) =? 1
                      then [EClose SD_LISTEN_FDS_START] else [])).
Proof.
  intros Hfd Hn Hr. unfold manager_listen_inherit.
  replace (fd_listen manager <? 0) with true
    by (symmetry; apply Z.ltb_lt; lia).
  cbn [negb]. unfold bind at 1, host at 1.
  replace (h_listen_fds (w_host w) <? 0) with false
    by (symmetry; apply Z.ltb_ge; lia).
  destruct (h_listen_fds (w_host w) =? 0) eqn:Hzero.
  { apply Z.eqb_eq in Hzero. rewrite Hzero.
    eexists _, _, _. split; [reflexivity|]. unfold MAIN_FAILED.
    repeat split; auto; try lia; try discriminate.
    eexists. reflexivity. }
  apply Z.eqb_neq in Hzero.
  destruct (1 <? h_listen_fds (w_host w)) eqn:Hmany.
  { apply Z.ltb_lt in Hmany.
    replace (h_listen_fds (w_host w) =? 1) with false
      by (symmetry; apply Z.eqb_neq; lia).
    eexists _, _, _. split; [reflexivity|]. unfold MAIN_FAILED.
    repeat split; auto; try lia; try discriminate.
    eexists. reflexivity. }
  apply Z.ltb_ge in Hmany.
  assert (Hone : h_listen_fds (w_host w) = 1) by lia.
  rewrite Hone. cbn [Z.eqb Pos.eqb].
  replace (h_is_socket (w_host w) <? 0) with false
    by (symmetry; apply Z.ltb_ge; lia).
  destruct (h_is_socket (w_host w) =? 0) eqn:Hsocket.
  { apply Z.eqb_eq in Hsocket.
    eexists _, _, _. split; [reflexivity|]. unfold MAIN_FAILED.
    repeat split; auto; try lia; try discriminate.
    eexists. cbn. rewrite <- app_assoc. reflexivity. }
  apply Z.eqb_neq in Hsocket.
  eexists _, _, _. split; [reflexivity|]. unfold MAIN_FAILED.
  repeat split; auto; try lia; try discriminate.
Qed.

Lemma manager_listen_inherit_one_socket_witness :
  manager_listen_inherit Sample.fresh Sample.world
  = Ret (0, set_fd_listen Sample.fresh 3) Sample.world.
Proof.
  destruct (manager_listen_inherit_one_socket Sample.fresh Sample.world)
    as (r & m' & w' & Hrun & _ & Hiff & Hok & _).
  - reflexivity.
  - discriminate.
  - discriminate.
  - assert (Hr : r = 0) by (apply Hiff; split; reflexivity).
    destruct (Hok Hr) as [-> ->]. rewrite Hrun, Hr. reflexivity.
Defined.

(** ** The child of the fork *)

(** X12.  In the child of the fork [manager_run] does not return and does
    nothing of the bootstrap: the child becomes the broker, started as
    [dbus-broker -v --controller N] with the second descriptor of the socket
    pair for N, or leaves with status 1 when that fails.  No event is
    recorded, so no service is loaded and no listener is handed over. *)
Theorem manager_run_child_side args manager b w :
  0 <= fd_listen manager ->
  bus_controller manager = Some b ->
  h_fork (w_host w) = 0 ->
  exists w',
    manager_run args manager w
    = Stop (child_end args (w_host w) (w_next_fd w + 1)) w'
    /\ w_trace w' = w_trace w.
Proof.
  intros Hfd Hbus Hfork. unfold manager_run.
  replace (0 <=? fd_listen manager) with true
    by (symmetry; apply Z.leb_le; lia).
  cbn [negb]. unfold bind at 1, fresh_fd at 1.
  unfold bind at 1, fresh_fd at 1.
  cbn [w_next_fd set_next_fd]. rewrite Hbus.
  unfold bind at 1, manager_fork. unfold bind at 1, host at 1.
  cbn [w_host set_next_fd]. rewrite Hfork. cbn [Z.ltb Z.eqb Z.compare].
  unfold manager_run_child, bind, host, child_end. cbn [w_host set_next_fd].
  destruct (h_execve (w_host w)); eexists; (split; [reflexivity|]);
    reflexivity.
Qed.

Lemma manager_run_child_side_witness :
  exists w',
    manager_run default_args Sample.manager
      (Case.world_with_fork 0) 
    = Stop (HExec "/usr/bin/dbus-broker"
                  ["dbus-broker"; "-v"; "--controller"; "5"]) w'
    /\ w_trace w' = [].
Proof.
  apply (manager_run_child_side default_args Sample.manager
           {| bus_fd := Some 5; bus_started := true; bus_client := false |}
           (Case.world_with_fork 0)).
  - discriminate.
  - reflexivity.
  - reflexivity.
Defined.

(** ** The event loop *)

Lemma sd_event_loop_exited args manager e code pending w :
  ev_exit e = Some code ->
  sd_event_loop args manager e pending w = Ret code w.
Proof. intros Hexit. destruct pending; cbn; by rewrite Hexit. Qed.

(** ** Malformed signals *)

(** X14.  A [SetActivationEnvironment] signal whose body does not start
    with an array of string pairs is refused with [-ENXIO]: nothing is sent
    to the service manager, and the world is as it was. *)
Theorem manager_on_set_activation_environment_malformed manager m w :
  bus_open (bus_regular manager) = true ->
  (forall items rest, m_body m <> VArray "{ss}" items :: rest) ->
  manager_on_set_activation_environment manager m w = Ret (- ENXIO) w.
Proof.
  intros Hopen Hbody. unfold manager_on_set_activation_environment.
  unfold sd_bus_message_new_method_call. rewrite Hopen.
  cbn [Z.ltb Z.compare]. unfold cursor_of.
  destruct (m_body m) as [|v rest] eqn:Hm; [reflexivity|].
  destruct v as [| | | | |elt items| | |]; try reflexivity.
  cbn [sd_bus_message_enter_container].
  destruct (String.eqb elt "{ss}") eqn:Helt; [|reflexivity].
  apply String.eqb_eq in Helt. subst elt. by destruct (Hbody items rest).
Qed.

Lemma manager_on_set_activation_environment_malformed_witness :
  manager_on_set_activation_environment Sample.manager
    Case.environment_as_strings Sample.world
  = Ret (- ENXIO) Sample.world.
Proof.
  apply (manager_on_set_activation_environment_malformed Sample.manager
           Case.environment_as_strings Sample.world).
  - reflexivity.
  - intros items rest. discriminate.
Defined.

(** ** A listener that is neither inherited nor a path *)

Lemma match_absolute {A} (path : string) (yes no : A) :
  (forall tail, path <> String "/" tail) ->
  match path with String "/"%char _ => yes | _ => no end = no.
Proof.
  intros Hrel. destruct path as [|c tail]; [reflexivity|].
  destruct c as [[] [] [] [] [] [] [] []]; try reflexivity.
  by destruct (Hrel tail).
Qed.

(** X15.  A [--listen] argument that is neither [inherit] nor an absolute
    path is refused before anything is set up: one line on stderr, no
    socket, no fork, the manager is taken down again and the exit status is
    1. *)
Theorem main_invalid_listener args path w :
  main_arg_listen args = Some path ->
  path <> "inherit" ->
  (forall tail, path <> String "/" tail) ->
  (1 <= w_heap w)%nat ->
  exists w',
    main args 0 w = Ret 1 w'
    /\ w_files w' = w_files w
    /\ w_next_fd w' = w_next_fd w
    /\ w_trace w'
       = w_trace w
         ++ [EStderr ("Invalid listener socket '" +:+ path +:+ "'" +:+ LF);
             EBusClose Controller; EBusUnref Controller; EEventUnref;
             EFreeManager].
Proof.
  intros Hlisten Hinherit Hrel Hheap.
  unfold main. cbn [Z.eqb negb]. unfold bind at 1. unfold run.
  unfold bind at 1. unfold manager_new. unfold bind at 1.
  rewrite alloc_ok by done. cbn [negb]. unfold ret at 1.
  cbn [Z.eqb negb]. unfold bind at 1. unfold run_manager.
  unfold bind at 1. unfold run_path. rewrite Hlisten. unfold ret at 1.
  cbn [Z.eqb negb].
  apply String.eqb_neq in Hinherit. unfold streq. rewrite Hinherit.
  fold fresh_manager.
  rewrite match_absolute by exact Hrel.
  unfold bind at 1. unfold fprintf_stderr. rewrite perform_happened.
  unfold ret at 1. unfold bind at 1.
  rewrite manager_free_trace.
  unfold ret at 1. unfold error_trace, MAIN_FAILED, MAIN_EXIT.
  cbn [Z.ltb Z.eqb Z.compare andb orb Pos.eqb]. unfold ret.
  eexists. split; [reflexivity|]. split; [reflexivity|].
  split; [reflexivity|].
  cbn [w_trace happened set_trace set_next_fd set_heap].
  unfold closes_listener, closes_bus, drops_event_loop, fresh_manager.
  cbn [fd_listen bus_regular bus_controller event services].
  rewrite map_to_list_empty. cbn. rewrite <- !app_assoc. reflexivity.
Qed.

Lemma main_invalid_listener_witness :
  exists w',
    main Case.relative_args 0 Sample.world = Ret 1 w'
    /\ w_files w' = w_files Sample.world
    /\ w_next_fd w' = w_next_fd Sample.world
    /\ w_trace w'
       = w_trace Sample.world
         ++ [EStderr ("Invalid listener socket '" +:+ "run/bus" +:+ "'"
                      +:+ LF);
             EBusClose Controller; EBusUnref Controller; EEventUnref;
             EFreeManager].
Proof.
  apply (main_invalid_listener Case.relative_args "run/bus" Sample.world).
  - reflexivity.
  - discriminate.
  - intros tail. discriminate.
  - vm_compute. lia.
Defined.

(** ** The command line *)

Ltac decide_test c :=
  match goal with
  | |- context [Z.eqb c ?d] =>
      let b := eval vm_compute in (Z.eqb c d) in
      change (Z.eqb c d) with b
  | |- context [Z.ltb c ?d] =>
      let b := eval vm_compute in (Z.ltb c d) in
      change (Z.ltb c d) with b
  end.

Lemma is_setting_cases a :
  is_setting a = true ->
  a.1 = chr "v" \/ a.1 = chr "f"
  \/ (a.1 = ARG_LISTEN /\ is_Some a.2)
  \/ (a.1 = ARG_SCOPE /\ (a.2 = Some "system" \/ a.2 = Some "user")).
Proof.
  unfold is_setting. rewrite !orb_true_iff, !andb_true_iff, !Z.eqb_eq.
  rewrite !bool_decide_eq_true. tauto.
Qed.

Lemma parse_argv_setting v name short a answers rest args w :
  is_setting a = true ->
  parse_argv v name short (a :: answers) rest args w
  = parse_argv v name short answers rest (apply_setting args a) w.
Proof.
  intros Ha. destruct a as [c optarg].
  apply is_setting_cases in Ha. cbn [fst snd] in Ha.
  unfold apply_setting. cbn [parse_argv fst snd].
  destruct Ha as [->|[->|[[-> Harg]|[-> Hscope]]]];
    repeat decide_test (chr "v"); repeat decide_test (chr "f");
    repeat decide_test ARG_LISTEN; repeat decide_test ARG_SCOPE;
    cbv beta iota; try reflexivity.
  by destruct Hscope as [->| ->].
Qed.

Lemma parse_argv_settings v name short pre tail rest : forall args w,
  forallb is_setting pre = true ->
  parse_argv v name short (pre ++ tail) rest args w
  = parse_argv v name short tail rest (settings pre args) w.
Proof.
  induction pre as [|a pre IH]; intros args w Hpre; [reflexivity|].
  cbn [forallb] in Hpre. apply andb_true_iff in Hpre as [Ha Hpre].
  cbn [app]. rewrite parse_argv_setting by done. by rewrite IH.
Qed.

Lemma main_not_run args r w :
  0 < r ->
  main args r w = Ret (if r =? MAIN_EXIT then 0 else 1) w.
Proof.
  intros Hr. unfold main.
  replace (r =? 0) with false by (symmetry; apply Z.eqb_neq; lia).
  cbn [negb]. unfold bind at 1. unfold ret at 1. unfold error_trace.
  replace (r =? 0) with false by (symmetry; apply Z.eqb_neq; lia).
  replace (r <? 0) with false by (symmetry; apply Z.ltb_ge; lia).
  cbn [andb orb]. reflexivity.
Qed.

(** X16.  An argument list that [parse_argv] accepts leaves a scope the
    launcher knows: when the scope was [system] or [user] before, it is
    afterwards, so the service directory and the policy file of the scope
    are defined.  Nothing is printed, and the broker, the service directory
    and the policy path are as they were, no option sets them. *)
Theorem parse_argv_scope v name short answers rest :
  forall args args' out w w',
    scope_known args ->
    parse_argv v name short answers rest args w = Ret (0, args', out) w' ->
    scope_known args' /\ out = "" /\ w' = w
    /\ main_arg_broker args' = main_arg_broker args
    /\ main_arg_servicedir args' = main_arg_servicedir args
    /\ main_arg_policypath args' = main_arg_policypath args
    /\ is_Some (service_dir args') /\ is_Some (policy_path args').
Proof.
  assert (Hdone : forall args args' out w w',
            scope_known args ->
            match rest with
            | [] => ret (0, args, "")
            | argv_optind :: _ =>
                fprintf_stderr (name +:+ ": invalid arguments -- '"
                                +:+ argv_optind +:+ "'" +:+ LF) ;;;
                ret (MAIN_FAILED, args, "")
            end w = Ret (0, args', out) w' ->
            scope_known args' /\ out = "" /\ w' = w
            /\ main_arg_broker args' = main_arg_broker args
            /\ main_arg_servicedir args' = main_arg_servicedir args
            /\ main_arg_policypath args' = main_arg_policypath args
            /\ is_Some (service_dir args') /\ is_Some (policy_path args')).
  { intros args args' out w w' Hscope Hrun.
    destruct rest; [|discriminate].
    injection Hrun as <- <- <-. repeat split; try done.
    - unfold service_dir. destruct (main_arg_servicedir args); [done|].
      by destruct Hscope as [-> | ->].
    - unfold policy_path. destruct (main_arg_policypath args); [done|].
      by destruct Hscope as [-> | ->]. }
  induction answers as [|[c optarg] answers IH];
    intros args args' out w w' Hscope Hrun; [by apply Hdone|].
  cbn [parse_argv] in Hrun.
  destruct (c <? 0); [by apply Hdone|].
  destruct (c =? chr "h"); [discriminate|].
  destruct (c =? ARG_VERSION); [discriminate|].
  destruct (c =? chr "v").
  { by apply IH in Hrun. }
  destruct (c =? ARG_LISTEN).
  { by apply IH in Hrun. }
  destruct (c =? chr "f").
  { by apply IH in Hrun. }
  destruct (c =? ARG_SCOPE).
  { destruct optarg as [scope|]; [|discriminate].
    destruct (streq scope "system") eqn:Hsystem.
    - apply IH in Hrun; [done|]. left. by apply String.eqb_eq.
    - destruct (streq scope "user") eqn:Huser; [|discriminate].
      apply IH in Hrun; [done|]. right. by apply String.eqb_eq. }
  destruct (c =? chr "?"); discriminate.
Qed.

Lemma parse_argv_scope_witness :
  scope_known
    (settings [(chr "v", None); (ARG_SCOPE, Some "user");
               (ARG_LISTEN, Some "/run/bus")] default_args)
  /\ is_Some
       (service_dir
          (settings [(chr "v", None); (ARG_SCOPE, Some "user");
                     (ARG_LISTEN, Some "/run/bus")] default_args)).
Proof.
  destruct (parse_argv_scope 1 "dbus-broker-launch" "dbus-broker-launch"
              [(chr "v", None); (ARG_SCOPE, Some "user");
               (ARG_LISTEN, Some "/run/bus"); (-1, None)] []
              default_args
              (settings [(chr "v", None); (ARG_SCOPE, Some "user");
                         (ARG_LISTEN, Some "/run/bus")] default_args)
              "" Sample.world Sample.world)
    as (Hscope & _ & _ & _ & _ & _ & Hdir & _).
  - left. reflexivity.
  - reflexivity.
  - split; [exact Hscope|exact Hdir].
Defined.

(** X17.  [--help] and [--version] end the launcher before it runs: after
    any options that only set arguments, the help or the version is what
    goes to stdout, the exit status is 0, nothing else happens, and what
    follows on the command line is not looked at. *)
Theorem main_argv_help v name short pre c optarg later rest w :
  forallb is_setting pre = true ->
  c = chr "h" \/ c = ARG_VERSION ->
  main_argv v name short (pre ++ (c, optarg) :: later) rest w
  = Ret (0, if c =? chr "h" then help short
            else "dbus-broker-launch " +:+ pretty v +:+ LF) w.
Proof.
  intros Hpre Hc. unfold main_argv. unfold bind at 1.
  rewrite parse_argv_settings by done. cbn [parse_argv].
  destruct Hc as [-> | ->].
  - repeat decide_test (chr "h"). cbv beta iota.
    unfold ret at 1. cbv beta iota. unfold bind.
    rewrite main_not_run by (unfold MAIN_EXIT; lia). reflexivity.
  - repeat decide_test ARG_VERSION. cbv beta iota.
    unfold ret at 1. cbv beta iota. unfold bind.
    rewrite main_not_run by (unfold MAIN_EXIT; lia). reflexivity.
Qed.

Lemma main_argv_help_witness :
  main_argv 21 "/usr/bin/dbus-broker-launch" "dbus-broker-launch"
    [(chr "v", None); (ARG_VERSION, None); (ARG_SCOPE, Some "nowhere")]
    ["stray"] Sample.world
  = Ret (0, "dbus-broker-launch 21" +:+ LF) Sample.world.
Proof.
  apply (main_argv_help 21 "/usr/bin/dbus-broker-launch"
           "dbus-broker-launch" [(chr "v", None)] ARG_VERSION None
           [(ARG_SCOPE, Some "nowhere")] ["stray"] Sample.world).
  - reflexivity.
  - right. reflexivity.
Defined.

(** X18.  A scope other than [system] and [user], and an argument that is
    no option, are refused with a line on stderr that names the offender,
    and the exit status is 1; the launcher does not run. *)
Theorem main_argv_refused v name short pre rest w :
  forallb is_setting pre = true ->
  (forall scope later,
     scope <> "system" -> scope <> "user" ->
     main_argv v name short (pre ++ (ARG_SCOPE, Some scope) :: later) rest w
     = Ret (1, "")
           (happened [EStderr (name +:+ ": invalid message bus scope -- '"
                               +:+ scope +:+ "'" +:+ LF)] w))
  /\ (forall stray rest',
        rest = stray :: rest' ->
        main_argv v name short pre rest w
        = Ret (1, "")
              (happened [EStderr (name +:+ ": invalid arguments -- '"
                                  +:+ stray +:+ "'" +:+ LF)] w)).
Proof.
  intros Hpre. split.
  - intros scope later Hsystem Huser. unfold main_argv. unfold bind at 1.
    rewrite parse_argv_settings by done. cbn [parse_argv].
    repeat decide_test ARG_SCOPE. cbv beta iota.
    apply String.eqb_neq in Hsystem, Huser. unfold streq.
    rewrite Hsystem, Huser. cbn [negb andb].
    unfold bind at 1. unfold fprintf_stderr. rewrite perform_happened.
    unfold ret at 1. cbv beta iota. unfold bind.
    rewrite main_not_run by (unfold MAIN_FAILED; lia). reflexivity.
  - intros stray rest' ->. unfold main_argv. unfold bind at 1.
    rewrite <- (app_nil_r pre) at 1.
    rewrite parse_argv_settings by done. cbn [parse_argv].
    unfold bind at 1. unfold fprintf_stderr. rewrite perform_happened.
    unfold ret at 1. cbv beta iota. unfold bind.
    rewrite main_not_run by (unfold MAIN_FAILED; lia). reflexivity.
Qed.

Lemma main_argv_refused_witness :
  main_argv 21 "/usr/bin/dbus-broker-launch" "dbus-broker-launch"
    [(chr "f", None); (ARG_SCOPE, Some "session"); (chr "h", None)] []
    Sample.world
  = Ret (1, "")
        (happened
           [EStderr ("/usr/bin/dbus-broker-launch"
                     +:+ ": invalid message bus scope -- '" +:+ "session"
                     +:+ "'" +:+ LF)] Sample.world).
Proof.
  apply (proj1 (main_argv_refused 21 "/usr/bin/dbus-broker-launch"
                  "dbus-broker-launch" [(chr "f", None)] []
                  Sample.world eq_refl)); discriminate.
Defined.

(** ** Activation without a connection *)

(** X20.  An activation while the regular connection is not open sends
    nothing.  For the service manager itself the answer is success, as on an
    open connection.  For every other service with a unit the failure is
    [-ENOTCONN], from the signal that cannot be made.  For every other
    service without a unit it is [-EINVAL]:
    [manager_start_transient_unit] does not look at the result of making
    the method call and fails at the first append. *)
Theorem manager_on_name_activate_not_connected args manager m id service w :
  services manager !! id = Some service ->
  bus_open (bus_regular manager) = false ->
  (1 <= w_heap w)%nat ->
  exists w' new,
    manager_on_name_activate args manager m id w
    = Ret (if streq (s_name service) "org.freedesktop.systemd1" then 0
           else if s_unit service is Some _ then - ENOTCONN else - EINVAL) w'
    /\ w_trace w' = w_trace w ++ new
    /\ filter is_bus_traffic new = [].
Proof.
  intros Hid Hclosed Hheap. unfold manager_on_name_activate.
  rewrite Hid.
  destruct (streq (s_name service) "org.freedesktop.systemd1").
  { exists w, []. by rewrite app_nil_r. }
  destruct (s_unit service) as [unit|].
  - unfold bind at 1. unfold manager_request_activation.
    rewrite verbose_happened.
    unfold sd_bus_message_new_signal. rewrite Hclosed.
    change (- ENOTCONN <? 0) with true. cbv beta iota.
    unfold ret at 1. change (error_origin (- ENOTCONN)) with (- ENOTCONN).
    change (negb (- ENOTCONN =? 0)) with true. cbv beta iota.
    unfold ret, error_trace. eexists _, _. split; [reflexivity|].
    split; [reflexivity|]. by apply count_verbose_line.
  - unfold bind at 1. unfold manager_start_transient_unit.
    rewrite verbose_happened. unfold bind at 1.
    rewrite alloc_ok by (rewrite w_heap_happened; lia). cbn [negb].
    unfold sd_bus_message_new_method_call. rewrite Hclosed.
    cbn [sd_bus_message_append].
    change (- EINVAL <? 0) with true. cbv beta iota.
    unfold ret at 1. change (error_origin (- EINVAL)) with (- EINVAL).
    change (negb (- EINVAL =? 0)) with true. cbv beta iota.
    unfold ret, error_trace. eexists _, _. split; [reflexivity|].
    split; [reflexivity|]. by apply count_verbose_line.
Qed.

Lemma manager_on_name_activate_not_connected_witness :
  exists w' new,
    manager_on_name_activate default_args
      (set_bus_regular (Sample.with_service Sample.both) None)
      (Sample.activate "1") "1" Sample.world
    = Ret (- ENOTCONN) w'
    /\ w_trace w' = w_trace Sample.world ++ new
    /\ filter is_bus_traffic new = [].
Proof.
  apply (manager_on_name_activate_not_connected default_args
           (set_bus_regular (Sample.with_service Sample.both) None)
           (Sample.activate "1") "1" Sample.both Sample.world).
  - reflexivity.
  - reflexivity.
  - vm_compute. lia.
Defined.

(** * Whole runs *)

(** ** What stays in place *)

Lemma same_place_refl w : same_place w w.
Proof. by repeat split. Qed.

Lemma same_place_trans w1 w2 w3 :
  same_place w1 w2 -> same_place w2 w3 -> same_place w1 w3.
Proof.
  intros (H1 & H2 & H3) (H4 & H5 & H6). repeat split; congruence.
Qed.

Lemma same_place_set_heap n w : same_place w (set_heap w n).
Proof. by repeat split. Qed.

Lemma same_place_happened es w :
  forallb no_close es = true -> same_place w (happened es w).
Proof.
  intros Hes. repeat split. by apply w_next_fd_happened.
Qed.

Lemma same_place_one e w : no_close e = true -> same_place w (happened [e] w).
Proof. intros He. apply same_place_happened. cbn. by rewrite He. Qed.

Lemma same_place_verbose args text w :
  same_place w (happened (verbose_line args text) w).
Proof. apply same_place_happened, no_close_verbose. Qed.

#[local] Hint Resolve same_place_refl same_place_set_heap
  same_place_verbose : core.
#[local] Hint Extern 1 (same_place _ (happened [_] _)) =>
  apply same_place_one; reflexivity : core.

Lemma alloc_place w : exists b w', alloc w = Ret b w' /\ same_place w w'.
Proof. unfold alloc. destruct (w_heap w); eauto. Qed.

Lemma sd_bus_send_place l bus m w :
  exists r w', sd_bus_send l bus m w = Ret r w' /\ same_place w w'.
Proof.
  unfold sd_bus_send. destruct m as [b|]; [|unfold ret; eauto].
  destruct (bus_open bus); cbn [negb]; [|unfold ret; eauto].
  destruct (b_open b); unfold bind, ret; [|eauto].
  rewrite perform_happened. eauto.
Qed.

Lemma read_environment_place n : forall c mc w,
  exists x w', read_environment n c mc w = Ret x w' /\ same_place w w'.
Proof.
  induction n as [|n IH]; intros c mc w; cbn [read_environment].
  - destruct (sd_bus_message_at_end c); unfold ret; eauto.
  - destruct (sd_bus_message_at_end c); [unfold ret; eauto|].
    destruct (sd_bus_message_read_entry_ss c) as [[r kv] c'].
    destruct (r <? 0); [unfold ret; eauto|].
    unfold bind. destruct (alloc_place w) as (ok & w1 & -> & Hw1).
    destruct ok; cbn [negb]; [|unfold ret; eauto].
    destruct (sd_bus_message_append mc _) as [r' mc'].
    destruct (r' <? 0); [unfold ret; eauto|].
    destruct (IH c' mc' w1) as (x & w2 & -> & Hw2).
    eauto using same_place_trans.
Qed.

Lemma manager_on_set_activation_environment_place manager m w :
  exists r w',
    manager_on_set_activation_environment manager m w = Ret r w'
    /\ same_place w w'.
Proof.
  unfold manager_on_set_activation_environment.
  destruct (sd_bus_message_new_method_call _ _ _ _ _) as [r mc].
  destruct (r <? 0); [unfold ret; eauto|].
  destruct (sd_bus_message_enter_container _ _ _) as [r1 c].
  destruct (r1 <? 0); [unfold ret; eauto|].
  destruct (sd_bus_message_open_container _ _ _) as [r2 mc2].
  destruct (r2 <? 0); [unfold ret; eauto|].
  unfold bind at 1.
  destruct (read_environment_place (length (hd [] c)) c mc2 w)
    as ([[r3 c3] mc3] & w1 & -> & Hw1).
  destruct (r3 <? 0); [unfold ret; eauto|].
  destruct (sd_bus_message_close_container mc3) as [r4 mc4].
  destruct (r4 <? 0); [unfold ret; eauto|].
  destruct (sd_bus_message_exit_container c3) as [r5 c5].
  destruct (r5 <? 0); [unfold ret; eauto|].
  unfold bind.
  destruct (sd_bus_send_place Regular (bus_regular manager) mc4 w1)
    as (r6 & w2 & -> & Hw2).
  destruct (r6 <? 0); unfold ret; eauto using same_place_trans.
Qed.

Lemma alloc_none w : w_heap w = 0%nat -> alloc w = Ret false w.
Proof. intros Hheap. unfold alloc. by rewrite Hheap. Qed.

Lemma manager_start_transient_unit_sends args manager name path argv w :
  bus_open (bus_regular manager) = true ->
  (1 <= w_heap w)%nat ->
  manager_start_transient_unit args manager name (Some (path :: argv)) w
  = Ret 0 (happened
             (verbose_line args ("Activation request for '" +:+ name +:+ "'"
                                 +:+ LF)
              ++ [ESend Regular
                    (start_transient_unit name path (path :: argv))])
             (set_heap w (w_heap w - 1))).
Proof.
  intros Hopen Hheap.
  unfold manager_start_transient_unit. rewrite verbose_happened.
  unfold bind at 1. unfold alloc at 1. rewrite w_heap_happened.
  destruct (w_heap w) as [|n] eqn:Hn; [lia|].
  replace (S n - 1)%nat with n by lia.
  cbn [negb]. unfold sd_bus_message_new_method_call. rewrite Hopen.
  cbn -[append_exec String.append].
  erewrite append_exec_items by reflexivity.
  cbn [Z.ltb Z.compare f_items f_type f_contents app b_msg].
  rewrite close_string_array.
  repeat (cbn -[happened set_heap verbose_line]; spell).
  rewrite Hopen. cbn -[happened set_heap verbose_line perform].
  unfold bind. rewrite perform_happened, set_heap_happened, happened_app.
  reflexivity.
Qed.

Lemma manager_on_name_activate_place args manager m id w :
  bus_open (bus_regular manager) = true ->
  registry_startable manager ->
  exists r w',
    manager_on_name_activate args manager m id w = Ret r w'
    /\ same_place w w'.
Proof.
  intros Hopen Hstart. unfold manager_on_name_activate.
  destruct (services manager !! id) as [s|] eqn:Hid.
  2: { unfold bind, fprintf_stderr, ret. rewrite perform_happened. eauto. }
  destruct (streq (s_name s) "org.freedesktop.systemd1");
    [unfold ret; eauto|].
  destruct (s_unit s) as [unit|] eqn:Hunit.
  - unfold bind. rewrite manager_request_activation_sends by done.
    cbn [Z.eqb negb]. unfold ret. eexists _, _. split; [reflexivity|].
    apply same_place_happened. by rewrite forallb_app, no_close_verbose.
  - destruct (Hstart id s Hid Hunit) as (path & argv & ->).
    unfold bind. destruct (w_heap w) as [|n] eqn:Hheap.
    + unfold manager_start_transient_unit. rewrite verbose_happened.
      unfold bind at 1. rewrite alloc_none by (by rewrite w_heap_happened).
      cbn [negb]. unfold ret at 1.
      destruct (negb _); unfold ret; eauto.
    + rewrite manager_start_transient_unit_sends by (done || lia).
      cbn [Z.eqb negb]. unfold ret. eexists _, _. split; [reflexivity|].
      eapply same_place_trans; [apply same_place_set_heap|].
      apply same_place_happened. by rewrite forallb_app, no_close_verbose.
Qed.

Lemma manager_on_message_place args manager m w :
  bus_open (bus_regular manager) = true ->
  registry_startable manager ->
  exists r w', manager_on_message args m manager w = Ret r w'
               /\ same_place w w'.
Proof.
  intros Hopen Hstart. unfold manager_on_message.
  destruct (m_path m) as [path|]; [|unfold ret; eauto].
  unfold bind.
  destruct (c_string_prefix path "/org/bus1/DBus/Name/") as [suffix|].
  - destruct (sd_bus_message_is_signal m _ _); [|unfold ret; eauto].
    destruct (manager_on_name_activate_place args manager m suffix w)
      as (r & w' & -> & Hw'); [done|done|]. unfold ret. eauto.
  - destruct (streq path "/org/bus1/DBus/Broker"); [|unfold ret; eauto].
    destruct (sd_bus_message_is_signal m _ _); [|unfold ret; eauto].
    destruct (manager_on_set_activation_environment_place manager m w)
      as (r & w' & -> & Hw'). unfold ret. eauto.
Qed.

(** ** The scan of a directory with files of every kind *)

Lemma loaded_cons h dirpath name names :
  loaded h dirpath (name :: names)
  = loaded h dirpath [name] ++ loaded h dirpath names.
Proof.
  unfold loaded. cbn [omap list_omap].
  by destruct (definition_at h dirpath name).
Qed.

Lemma scan_budget_cons h dirpath name names :
  scan_budget h dirpath (name :: names)
  = (scan_budget h dirpath [name] + scan_budget h dirpath names)%nat.
Proof. unfold scan_budget. cbn [map sum_list sum_list_with]. lia. Qed.

Lemma scan_events_cons args h dirpath name names k :
  scan_events args h dirpath (name :: names) k
  = scan_events args h dirpath [name] k
    ++ scan_events args h dirpath names
         (k + Z.of_nat (length (loaded h dirpath [name]))).
Proof.
  unfold loaded. cbn [scan_events omap list_omap].
  unfold definition_at, definition_in. rewrite <- app_assoc. f_equal.
  destruct (h_key_file h (dirpath +:+ "/" +:+ name)) as [f|];
    [destruct (kf_name f); [destruct (negb _ && negb _)|]|];
    cbn [length Z.of_nat app]; rewrite ?Z.add_0_r; reflexivity.
Qed.

Lemma registered_app a : forall k b reg,
  registered k (a ++ b) reg
  = registered (k + Z.of_nat (length a)) b (registered k a reg).
Proof.
  induction a as [|d a IH]; intros k b reg.
  - cbn [app registered length Z.of_nat]. by rewrite Z.add_0_r.
  - cbn [app registered length]. rewrite IH. f_equal. lia.
Qed.

Lemma scan_traffic args h dirpath names : forall k,
  filter is_bus_traffic (scan_events args h dirpath names k)
  = add_names k (loaded h dirpath names).
Proof.
  induction names as [|name names IH]; intros k; [done|].
  rewrite scan_events_cons, loaded_cons, filter_app, IH.
  unfold loaded. cbn [scan_events omap list_omap].
  unfold definition_at, definition_in.
  rewrite filter_app, count_verbose_line by done.
  destruct (h_key_file h (dirpath +:+ "/" +:+ name)) as [f|];
    [destruct (kf_name f); [destruct (negb _ && negb _)|]|];
    rewrite filter_cons; cbn [length Z.of_nat app add_names fst];
    rewrite ?Z.add_0_r; reflexivity.
Qed.

(** A service file that cannot be read, or that lacks the name, or both the
    unit and the command line, is passed over with a line on stderr. *)
Lemma manager_load_service_skips args manager path text w :
  match h_key_file (w_host w) path with
  | None => text = "Cannot load service file '" +:+ path +:+ "'" +:+ LF
  | Some f =>
      match kf_name f with
      | None => text = "Missing name in service file '" +:+ path +:+ "'"
                       +:+ LF
      | Some _ =>
          negb (bool_decide (is_Some (kf_unit f)))
          && negb (bool_decide (is_Some (kf_exec f))) = true
          /\ text = "Missing exec or unit in service file '" +:+ path +:+ "'"
                    +:+ LF
      end
  end ->
  manager_load_service args manager path w
  = Ret (0, manager)
        (happened
           (verbose_line args ("Loading service '" +:+ path +:+ "'" +:+ LF)
            ++ [EStderr text]) w).
Proof.
  intros Hfile. unfold manager_load_service. rewrite verbose_happened.
  unfold bind at 1. unfold host at 1. rewrite w_host_happened.
  destruct (h_key_file (w_host w) path) as [f|];
    [destruct (kf_name f); [destruct Hfile as [-> ->]|subst text]
    |subst text];
    unfold bind, fprintf_stderr, ret;
    by rewrite perform_happened, happened_app.
Qed.

(** What [manager_load_service] does with one file of the directory. *)
Lemma manager_load_service_file args h dirpath name manager w :
  w_host w = h ->
  (forall m, 0 <= h_broker_reply h m) ->
  bus_open (bus_controller manager) = true ->
  ids_from_counter manager ->
  service_ids manager + Z.of_nat (length (loaded h dirpath [name])) < 2 ^ 64 ->
  (scan_budget h dirpath [name] - 1 <= w_heap w)%nat ->
  exists m1 w1,
    manager_load_service args manager (dirpath +:+ "/" +:+ name) w
    = Ret (0, m1) w1
    /\ w_trace w1
       = w_trace w ++ scan_events args h dirpath [name] (service_ids manager)
    /\ same_links manager m1
    /\ same_place w w1
    /\ services m1
       = registered (service_ids manager) (loaded h dirpath [name])
                    (services manager)
    /\ service_ids m1
       = service_ids manager + Z.of_nat (length (loaded h dirpath [name]))
    /\ w_heap w1 = (w_heap w - (scan_budget h dirpath [name] - 1))%nat
    /\ ids_from_counter m1.
Proof.
  intros Hhost Hreply Hopen Hinv Hroom Hheap.
  unfold scan_budget, loaded in *. cbn [scan_events omap list_omap map] in *.
  unfold definition_at, definition_in in *.
  set (path := dirpath +:+ "/" +:+ name) in *.
  assert (Hskip : forall text,
    manager_load_service args manager path w
    = Ret (0, manager)
          (happened
             (verbose_line args ("Loading service '" +:+ path +:+ "'" +:+ LF)
              ++ [EStderr text]) w) ->
    exists m1 w1,
      manager_load_service args manager path w = Ret (0, m1) w1
      /\ w_trace w1
         = w_trace w
           ++ verbose_line args ("Loading service '" +:+ path +:+ "'" +:+ LF)
           ++ [EStderr text]
      /\ same_links manager m1
      /\ same_place w w1
      /\ services m1 = services manager
      /\ service_ids m1 = service_ids manager + 0
      /\ w_heap w1 = (w_heap w - 0)%nat
      /\ ids_from_counter m1).
  { intros text ->. eexists _, _. split; [reflexivity|].
    split; [reflexivity|]. split; [by repeat split|].
    split; [apply same_place_happened;
            by rewrite forallb_app, no_close_verbose|].
    split; [reflexivity|]. split; [lia|].
    split; [rewrite w_heap_happened; lia|exact Hinv]. }
  destruct (h_key_file h path) as [f|] eqn:Hf.
  2: { cbn [length Z.of_nat sum_list sum_list_with Nat.add Nat.sub app
            registered].
       apply Hskip, manager_load_service_skips. by rewrite Hhost, Hf. }
  destruct (kf_name f) as [service_name|] eqn:Hname.
  2: { cbn [length Z.of_nat sum_list sum_list_with Nat.add Nat.sub app
            registered].
       apply Hskip, manager_load_service_skips. by rewrite Hhost, Hf, Hname. }
  destruct (negb (bool_decide (is_Some (kf_unit f)))
            && negb (bool_decide (is_Some (kf_exec f)))) eqn:Hneither.
  { cbn [length Z.of_nat sum_list sum_list_with Nat.add Nat.sub app
         registered].
    apply Hskip, manager_load_service_skips.
    by rewrite Hhost, Hf, Hname. }
  clear Hskip. cbn [length sum_list sum_list_with] in *. unfold id in *.
  change (Z.of_nat 1) with 1 in *.
  assert (Hsupplied : is_Some (kf_unit f) \/ is_Some (kf_exec f)).
  { apply andb_false_iff in Hneither as [H|H];
      apply negb_false_iff, bool_decide_eq_true_1 in H; auto. }
  destruct (next_id_free manager Hinv ltac:(lia)) as [Hid Hfree].
  rewrite (manager_load_service_calls args manager path f service_name w);
    [|by rewrite Hhost|exact Hname|exact Hsupplied|lia|exact Hfree
     |exact Hopen].
  rewrite Hhost.
  specialize (Hreply (add_name (next_id manager) service_name)) as Hrep.
  apply Z.ltb_ge in Hrep. rewrite Hrep.
  assert (Hids1 : service_ids (with_new_service manager service_name
                                 (kf_unit f) (kf_exec f))
                  = service_ids manager + 1).
  { unfold with_new_service. cbn [service_ids set_services set_service_ids].
    apply Z.mod_small. destruct Hinv. lia. }
  eexists _, _. split; [reflexivity|]. split.
  { cbn [w_trace set_heap]. by rewrite w_trace_happened, Hid. }
  split; [by repeat split|]. split.
  { eapply same_place_trans; [|apply same_place_set_heap].
    apply same_place_happened. by rewrite forallb_app, no_close_verbose. }
  split.
  { cbn [registered]. rewrite <- Hid. reflexivity. }
  split; [exact Hids1|]. split.
  { rewrite w_heap_set_heap. lia. }
  apply ids_from_counter_insert; [exact Hinv|lia].
Qed.

(** The scan of a directory: every service file is read in the order of the
    directory; what is no definition is passed over with a line on stderr,
    every definition is registered under the next id and announced. *)
Lemma manager_load_services_loop_events args h dirpath entries :
  forall manager w,
    w_host w = h ->
    (forall m, 0 <= h_broker_reply h m) ->
    bus_open (bus_controller manager) = true ->
    ids_from_counter manager ->
    service_ids manager
    + Z.of_nat (length (loaded h dirpath (filter is_service_file entries)))
    < 2 ^ 64 ->
    (scan_budget h dirpath (filter is_service_file entries) <= w_heap w)%nat ->
    exists m' w',
      manager_load_services_loop args manager dirpath entries w
      = Ret (0, m') w'
      /\ w_trace w'
         = w_trace w
           ++ scan_events args h dirpath (filter is_service_file entries)
                (service_ids manager)
      /\ same_links manager m'
      /\ same_place w w'
      /\ services m'
         = registered (service_ids manager)
             (loaded h dirpath (filter is_service_file entries))
             (services manager)
      /\ service_ids m'
         = service_ids manager
           + Z.of_nat
               (length (loaded h dirpath (filter is_service_file entries)))
      /\ w_heap w'
         = (w_heap w
            - scan_budget h dirpath (filter is_service_file entries))%nat.
Proof.
  induction entries as [|d_name entries IH];
    intros manager w Hhost Hreply Hopen Hinv Hroom Hheap.
  - exists manager, w. cbn. rewrite app_nil_r, Z.add_0_r, Nat.sub_0_r.
    by repeat split.
  - cbn [manager_load_services_loop].
    destruct (is_service_file d_name) eqn:Hservice.
    2: { assert (Hcons : filter is_service_file (d_name :: entries)
                         = filter is_service_file entries).
         { rewrite filter_cons.
           destruct (decide (is_service_file d_name)) as [Hd|_]; [|done].
           rewrite Hservice in Hd. contradiction. }
         rewrite Hcons in *. cbn [negb]. by apply IH. }
    assert (Hcons : filter is_service_file (d_name :: entries)
                    = d_name :: filter is_service_file entries).
    { rewrite filter_cons.
      destruct (decide (is_service_file d_name)) as [_|Hd]; [done|].
      rewrite Hservice in Hd. exfalso. by apply Hd. }
    rewrite Hcons in *. clear Hcons.
    set (names := filter is_service_file entries) in *.
    rewrite loaded_cons, length_app, Nat2Z.inj_add in *.
    rewrite scan_budget_cons in *. rewrite scan_events_cons.
    assert (Hone : (1 <= scan_budget h dirpath [d_name])%nat).
    { unfold scan_budget. cbn [map sum_list sum_list_with]. unfold id.
      destruct (definition_at h dirpath d_name); lia. }
    cbn [negb]. unfold bind at 1. rewrite alloc_ok by lia. cbn [negb].
    unfold bind at 1.
    destruct (manager_load_service_file args h dirpath d_name manager
                (set_heap w (w_heap w - 1)))
      as (m1 & w1 & -> & Htrace1 & Hlinks1 & Hplace1 & Hreg1 & Hids1
          & Hheap1 & Hinv1);
      [exact Hhost|exact Hreply|exact Hopen|exact Hinv|lia
      |rewrite w_heap_set_heap; lia|].
    cbn [Z.eqb negb]. rewrite w_heap_set_heap in Hheap1.
    destruct Hlinks1 as (Hl1 & Hl2 & Hl3 & Hl4).
    destruct Hplace1 as (Hp1 & Hp2 & Hp3). cbn [w_host w_next_fd w_files
      set_heap] in Hp1, Hp2, Hp3.
    destruct (IH m1 w1) as (m' & w' & -> & Htrace & Hlinks & Hplace & Hreg
                            & Hids & Hheap');
      [congruence|exact Hreply|by rewrite Hl2|exact Hinv1|lia|lia|].
    destruct Hlinks as (Hk1 & Hk2 & Hk3 & Hk4).
    destruct Hplace as (Hq1 & Hq2 & Hq3).
    exists m', w'. split; [reflexivity|]. split.
    { rewrite Htrace, Htrace1, Hids1. cbn [w_trace set_heap].
      by rewrite <- app_assoc. }
    split; [repeat split; congruence|].
    split; [repeat split; congruence|]. split.
    { rewrite Hreg, Hreg1, Hids1, registered_app. reflexivity. }
    split; [lia|lia].
Qed.

(** [manager_load_services] on the directory of the arguments. *)
Lemma manager_load_services_events args dirpath names manager w :
  service_dir args = Some dirpath ->
  service_names (w_host w) dirpath = Some names ->
  (forall m, 0 <= h_broker_reply (w_host w) m) ->
  bus_open (bus_controller manager) = true ->
  ids_from_counter manager ->
  service_ids manager
  + Z.of_nat (length (loaded (w_host w) dirpath names)) < 2 ^ 64 ->
  (scan_budget (w_host w) dirpath names <= w_heap w)%nat ->
  exists m' w',
    manager_load_services args manager w = Ret (0, m') w'
    /\ w_trace w'
       = w_trace w
         ++ scan_events args (w_host w) dirpath names (service_ids manager)
    /\ same_links manager m'
    /\ same_place w w'
    /\ services m'
       = registered (service_ids manager) (loaded (w_host w) dirpath names)
                    (services manager)
    /\ service_ids m'
       = service_ids manager
         + Z.of_nat (length (loaded (w_host w) dirpath names))
    /\ w_heap w' = (w_heap w - scan_budget (w_host w) dirpath names)%nat.
Proof.
  intros Hdir Hnames Hreply Hopen Hinv Hroom Hheap.
  rewrite (manager_load_services_dir args manager dirpath w Hdir).
  unfold service_names in Hnames.
  destruct (h_opendir (w_host w) dirpath) as [errno|entries].
  - destruct ((errno =? ENOENT) || (errno =? ENOTDIR)); [|discriminate].
    injection Hnames as <-. exists manager, w. cbn.
    rewrite app_nil_r, Z.add_0_r, Nat.sub_0_r. by repeat split.
  - injection Hnames as <-.
    by apply manager_load_services_loop_events.
Qed.

(** ** The bootstrap *)

Lemma w_next_fd_close_top es fd w :
  forallb no_close es = true ->
  0 <= fd ->
  w_next_fd w = fd + 1 ->
  w_next_fd (happened (es ++ [EClose fd]) w) = fd.
Proof.
  intros Hes Hfd Hnext. unfold happened.
  cbn [w_next_fd set_trace set_next_fd].
  rewrite fold_left_app, (release_no_close es) by done.
  cbn [fold_left release].
  rewrite Hnext. replace (fd + 1 - 1) with fd by lia.
  rewrite Z.eqb_refl. apply Z.leb_le in Hfd. by rewrite Hfd.
Qed.

Lemma manager_fork_ok args manager e fd w :
  0 < h_fork (w_host w) ->
  event manager = Some e ->
  manager_fork args manager fd w
  = Ret (0, set_event manager
              (Some {| ev_signals := ev_signals e;
                       ev_child := Some (h_fork (w_host w));
                       ev_exit := ev_exit e |}))
        (happened [EFork (h_fork (w_host w)); EClose fd] w).
Proof.
  intros Hpid Hev. unfold manager_fork. unfold bind at 1. unfold host at 1.
  assert (Hneg : (h_fork (w_host w) <? 0) = false) by (apply Z.ltb_ge; lia).
  assert (Hzero : (h_fork (w_host w) =? 0) = false) by (apply Z.eqb_neq; lia).
  rewrite Hneg, Hzero, Hev. unfold bind, sys_close, ret.
  rewrite !perform_happened, happened_app. reflexivity.
Qed.

Lemma manager_listen_inherit_ok w :
  inherits (w_host w) ->
  manager_listen_inherit fresh_manager w
  = Ret (0, set_fd_listen fresh_manager SD_LISTEN_FDS_START) w.
Proof.
  intros [Hn Hsock]. unfold manager_listen_inherit.
  cbn [fd_listen fresh_manager Z.ltb Z.compare negb].
  unfold bind, host. rewrite Hn. cbn [Z.ltb Z.eqb Z.compare].
  assert (Hneg : (h_is_socket (w_host w) <? 0) = false)
    by (apply Z.ltb_ge; lia).
  assert (Hzero : (h_is_socket (w_host w) =? 0) = false)
    by (apply Z.eqb_neq; lia).
  by rewrite Hneg, Hzero.
Qed.

Lemma ids_from_counter_forked fd c0 pid :
  ids_from_counter (forked_manager fd c0 pid).
Proof.
  split; [cbn; lia|]. intros k s Hk. cbn in Hk.
  by rewrite lookup_empty in Hk.
Qed.

(** [manager_run] up to the event loop: the pair of the controller is made,
    the broker forked, the directory scanned, the listener handed over and
    the regular connection made on the descriptor that was closed after the
    fork. *)
Lemma manager_run_bootstrap args fd dirpath names policypath w :
  launches (w_host w) ->
  service_dir args = Some dirpath ->
  service_names (w_host w) dirpath = Some names ->
  policy_path args = Some policypath ->
  0 <= fd ->
  0 <= w_next_fd w ->
  Z.of_nat (length (loaded (w_host w) dirpath names)) < 2 ^ 64 ->
  (scan_budget (w_host w) dirpath names <= w_heap w)%nat ->
  exists w1,
    manager_run args (set_fd_listen fresh_manager fd) w
    = match sd_event_loop args
              (serving_manager fd (w_next_fd w) (w_next_fd w + 1)
                 (h_fork (w_host w)) (loaded (w_host w) dirpath names))
              (watching (h_fork (w_host w))) (h_loop (w_host w)) w1 with
      | Ret r w2 =>
          Ret (run_result r,
               serving_manager fd (w_next_fd w) (w_next_fd w + 1)
                 (h_fork (w_host w)) (loaded (w_host w) dirpath names)) w2
      | Stop h w2 => Stop h w2
      end
    /\ w_trace w1
       = w_trace w
         ++ bootstrap_events args (w_host w) fd (w_next_fd w) dirpath names
              policypath
    /\ w_host w1 = w_host w
    /\ w_files w1 = w_files w
    /\ w_heap w1 = (w_heap w - scan_budget (w_host w) dirpath names)%nat.
Proof.
  intros Hlaunch Hdir Hnames Hpolicy Hfd Hnext Hroom Hheap.
  pose proof Hlaunch as (Hfork & _ & _ & _ & Hreply).
  unfold manager_run. cbn [fd_listen set_fd_listen fresh_manager].
  assert (Hfdb : (0 <=? fd) = true) by (apply Z.leb_le; lia).
  rewrite Hfdb. cbn [negb].
  unfold bind at 1. unfold fresh_fd at 1.
  unfold bind at 1. unfold fresh_fd at 1.
  cbn [bus_controller set_fd_listen fresh_manager w_next_fd set_next_fd].
  unfold bind at 1.
  erewrite manager_fork_ok by (done || reflexivity).
  cbn [Z.eqb negb]. unfold bind at 1.
  cbn [set_bus_controller set_event set_fd_listen fresh_manager event
       bus_controller bus_regular fd_listen services service_ids sd_bus_new
       bus_client bus_started ev_signals ev_exit w_host set_next_fd].
  match goal with
  | |- context [manager_load_services args ?m ?w0] =>
      change m with (forked_manager fd (w_next_fd w) (h_fork (w_host w)));
      set (w0' := w0)
  end.
  assert (Hn0 : w_next_fd w0' = w_next_fd w + 1).
  { subst w0'.
    apply (w_next_fd_close_top [EFork (h_fork (w_host w))]);
      [reflexivity|lia|reflexivity]. }
  destruct (manager_load_services_events args dirpath names
              (forked_manager fd (w_next_fd w) (h_fork (w_host w))) w0')
    as (m' & w' & Hrun & Htrace
        & (Hevent & Hcontroller & Hregular & Hlisten)
        & (Hhost & Hfds & Hfiles) & Hregistry & Hids & Hspent);
    [exact Hdir|exact Hnames|exact Hreply|reflexivity
    |apply ids_from_counter_forked|exact Hroom|exact Hheap|].
  change (w_host w0') with (w_host w) in *.
  change (w_files w0') with (w_files w) in *.
  change (w_heap w0') with (w_heap w) in *.
  rewrite Hrun. cbn [Z.eqb negb]. unfold bind at 1.
  rewrite (manager_add_listener_calls args m' policypath w');
    [|by rewrite Hhost|exact Hpolicy|by rewrite Hcontroller].
  cbn [Z.eqb negb]. unfold bind at 1.
  rewrite manager_connect_trace;
    [|by rewrite Hregular|by rewrite Hlisten
     |rewrite w_next_fd_happened by reflexivity; lia].
  rewrite (w_next_fd_happened _ w') by reflexivity.
  rewrite Hfds, Hn0, Hhost, Hlisten. cbn [fd_listen forked_manager].
  cbn [Z.eqb negb event set_bus_regular]. rewrite Hevent.
  cbn [event forked_manager]. unfold bind at 1. unfold host at 1.
  unfold bind at 1.
  match goal with
  | |- context [h_loop (w_host ?x)] => change (w_host x) with (w_host w')
  end.
  rewrite Hhost. fold (watching (h_fork (w_host w))).
  match goal with
  | |- context [sd_event_loop args ?m _ _ ?w1] =>
      assert (Hm : m = serving_manager fd (w_next_fd w) (w_next_fd w + 1)
                         (h_fork (w_host w))
                         (loaded (w_host w) dirpath names));
      [|rewrite Hm; exists w1]
  end.
  { destruct m' as [ev bc br fl sv ids].
    cbn [event bus_controller bus_regular fd_listen services service_ids
         forked_manager] in *.
    subst. unfold serving_manager. cbn. f_equal. }
  split.
  { destruct (sd_event_loop _ _ _ _ _) as [r w2|h w2]; [|reflexivity].
    unfold run_result. destruct (r <? 0); [reflexivity|].
    destruct (0 <? r); reflexivity. }
  split.
  { rewrite !w_trace_happened. cbn [w_trace set_next_fd].
    rewrite w_trace_happened, Htrace. subst w0'.
    rewrite w_trace_happened. cbn [w_trace set_next_fd].
    unfold bootstrap_events. cbn [service_ids forked_manager].
    rewrite <- !app_assoc. reflexivity. }
  split; [exact Hhost|]. split; [exact Hfiles|exact Hspent].
Qed.

(** ** The event loop *)

Lemma sd_event_loop_signal args m e signo rest w :
  ev_exit e = None ->
  signo ∈ ev_signals e ->
  sd_event_loop args m e (OnSignal signo :: rest) w = Ret 0 w.
Proof.
  intros Hexit Hin. cbn [sd_event_loop]. rewrite Hexit.
  rewrite (bool_decide_eq_true_2 _ Hin). cbn [snd sd_event_exit].
  destruct rest; reflexivity.
Qed.

Lemma sd_event_loop_child_first args manager e pid si_code si_status rest w :
  ev_exit e = None ->
  ev_child e = Some pid ->
  sd_event_loop args manager e (OnChild si_code si_status :: rest) w
  = Ret (exit_code si_code si_status)
        (happened (verbose_line args ("Caught SIGCHLD of broker" +:+ LF)) w).
Proof.
  intros Hexit Hchild. cbn [sd_event_loop]. rewrite Hexit, Hchild.
  unfold bind at 1. unfold manager_on_child_exit.
  rewrite verbose_happened. unfold ret at 1.
  by rewrite sd_event_loop_exited
    with (code := exit_code si_code si_status).
Qed.

(** Whatever the broker sends before it ends, the loop ends with what the
    termination of the broker asks for. *)
Lemma sd_event_loop_messages_child args manager e pid msgs si_code si_status
    rest :
  ev_exit e = None ->
  ev_child e = Some pid ->
  bus_open (bus_regular manager) = true ->
  registry_startable manager ->
  forall w,
    exists w',
      sd_event_loop args manager e
        (map OnMessage msgs ++ OnChild si_code si_status :: rest) w
      = Ret (exit_code si_code si_status) w'
      /\ same_place w w'.
Proof.
  intros Hexit Hchild Hopen Hstart.
  induction msgs as [|m msgs IH]; intros w.
  - cbn [map app].
    rewrite (sd_event_loop_child_first args manager e pid) by done. eauto.
  - cbn [map app sd_event_loop]. rewrite Hexit. unfold bind.
    destruct (manager_on_message_place args manager m w Hopen Hstart)
      as (r & w1 & -> & Hw1).
    destruct (IH w1) as (w2 & -> & Hw2). eauto using same_place_trans.
Qed.

Lemma registered_lookup defs : forall k reg id s,
  registered k defs reg !! id = Some s ->
  reg !! id = Some s \/ exists d, d ∈ defs /\ s = service_of id d.
Proof.
  induction defs as [|d defs IH]; intros k reg id s Hs; [by left|].
  cbn [registered] in Hs. apply IH in Hs as [Hs|(d' & Hd' & ->)].
  - apply lookup_insert_Some in Hs as [[<- <-]|[_ Hs]]; [|by left].
    right. exists d. split; [apply list_elem_of_here|reflexivity].
  - right. exists d'. split; [by apply list_elem_of_further|reflexivity].
Qed.

Lemma registry_startable_serving fd c0 s pid defs :
  Forall startable defs ->
  registry_startable (serving_manager fd c0 s pid defs).
Proof.
  intros Hdefs id sv Hs Hunit. cbn [services serving_manager] in Hs.
  apply registered_lookup in Hs as [Hs|(d & Hd & ->)];
    [by rewrite lookup_empty in Hs|].
  rewrite Forall_forall in Hdefs. exact (Hdefs d Hd Hunit).
Qed.

Lemma manager_on_message_activation args manager id body w :
  bus_open (bus_regular manager) = true ->
  registry_startable manager ->
  (1 <= w_heap w)%nat ->
  exists r w' new,
    manager_on_message args (activate_signal id body) manager w = Ret r w'
    /\ w_trace w' = w_trace w ++ new
    /\ (w_heap w - 1 <= w_heap w')%nat
    /\ filter is_bus_traffic new
       = match services manager !! id with
         | Some s => activation_traffic s
         | None => []
         end.
Proof.
  intros Hopen Hstart Hheap. rewrite manager_on_message_activate.
  destruct (services manager !! id) as [s|] eqn:Hid.
  2: { unfold manager_on_name_activate. rewrite Hid.
       unfold bind, fprintf_stderr. rewrite perform_happened. unfold ret.
       eexists _, _, _. split; [reflexivity|]. split; [reflexivity|].
       split; [cbn; lia|reflexivity]. }
  unfold activation_traffic.
  destruct (streq (s_name s) "org.freedesktop.systemd1") eqn:Hname.
  { unfold manager_on_name_activate. rewrite Hid, Hname.
    exists 0, w, []. rewrite app_nil_r. repeat split. lia. }
  destruct (s_unit s) as [unit|] eqn:Hunit.
  { rewrite (manager_on_name_activate_unit args manager _ id s unit);
      [|done|by apply String.eqb_neq|done|done].
    eexists _, _, _. split; [reflexivity|]. split; [reflexivity|].
    split; [rewrite w_heap_happened; lia|].
    rewrite filter_app, count_verbose_line by done. reflexivity. }
  destruct (Hstart id s Hid Hunit) as (path & argv & Hexec). rewrite Hexec.
  unfold manager_on_name_activate. rewrite Hid, Hname, Hunit, Hexec.
  unfold bind at 1. rewrite manager_start_transient_unit_sends by done.
  cbn [Z.eqb negb]. unfold ret.
  eexists _, _, _. split; [reflexivity|]. split; [reflexivity|].
  split; [rewrite w_heap_happened, w_heap_set_heap; lia|].
  rewrite filter_app, count_verbose_line by done. reflexivity.
Qed.

Lemma sd_event_loop_answers args manager e pid defs si_code si_status rest :
  ev_exit e = None ->
  ev_child e = Some pid ->
  bus_open (bus_regular manager) = true ->
  services manager = registered 0 defs ∅ ->
  registry_startable manager ->
  forall reqs w,
    (length reqs <= w_heap w)%nat ->
    exists w' new,
      sd_event_loop args manager e
        (activate_signals reqs ++ OnChild si_code si_status :: rest) w
      = Ret (exit_code si_code si_status) w'
      /\ w_trace w' = w_trace w ++ new
      /\ filter is_bus_traffic new = answers defs reqs.
Proof.
  intros Hexit Hchild Hopen Hregistry Hstart.
  induction reqs as [|[id body] reqs IH]; intros w Hheap.
  - cbn [activate_signals map app].
    rewrite (sd_event_loop_child_first args manager e pid) by done.
    eexists _, _. split; [reflexivity|]. split; [reflexivity|].
    by apply count_verbose_line.
  - cbn [length] in Hheap.
    cbn [activate_signals map app sd_event_loop fst snd]. rewrite Hexit.
    unfold bind at 1.
    destruct (manager_on_message_activation args manager id body w)
      as (r & w1 & first & -> & Htrace1 & Hheap1 & Hfirst);
      [exact Hopen|exact Hstart|lia|].
    fold (activate_signals reqs).
    destruct (IH w1) as (w' & new & -> & Htrace & Hnew); [lia|].
    exists w', (first ++ new). split; [reflexivity|].
    split; [by rewrite Htrace, Htrace1, app_assoc|].
    rewrite filter_app, Hfirst, Hnew, Hregistry. reflexivity.
Qed.

(** ** From the event loop to the exit status *)

Lemma manager_free_serving fd c0 s pid defs w :
  0 <= fd ->
  manager_free (Some (serving_manager fd c0 s pid defs)) w
  = Ret tt (happened (teardown fd defs) w).
Proof.
  intros Hfd. rewrite manager_free_trace.
  unfold closes_listener, teardown, teardown_events.
  cbn [fd_listen services bus_regular bus_controller event serving_manager
       closes_bus drops_event_loop].
  apply Z.ltb_ge in Hfd. rewrite Hfd. reflexivity.
Qed.

Lemma run_path_listen args path w :
  listen_path args = Some path -> run_path args w = Ret (0, Some path) w.
Proof.
  unfold listen_path, run_path.
  destruct (main_arg_listen args); [by intros [= ->]|].
  destruct (streq (main_arg_scope args) "user"); [discriminate|].
  destruct (streq (main_arg_scope args) "system");
    [by intros [= <-]|discriminate].
Qed.

Lemma main_tail args r w :
  ((if (error_trace r <? 0) && main_arg_verbose args
    then fprintf_stderr ("Exiting due to fatal error: "
                         +:+ pretty (error_trace r) +:+ LF)
    else ret tt) ;;;
   ret (if (error_trace r =? 0) || (error_trace r =? MAIN_EXIT)
        then 0 else 1)) w
  = Ret (if (r =? 0) || (r =? MAIN_EXIT) then 0 else 1)
        (happened (fatal_line args r) w).
Proof.
  unfold fatal_line, error_trace.
  destruct ((r <? 0) && main_arg_verbose args);
    unfold bind, fprintf_stderr, ret; rewrite ?perform_happened;
    by rewrite ?happened_nil.
Qed.

Lemma exit_status_cases si_code si_status :
  exit_status si_code si_status = child_status si_code si_status.
Proof.
  unfold exit_status, exit_code, child_status.
  destruct (si_code =? CLD_EXITED); cbn [andb]; [|reflexivity].
  by destruct (si_status =? 0).
Qed.

(** What [main] makes of the result of [manager_run]. *)
Lemma run_result_status si_code si_status :
  (if (run_result (exit_code si_code si_status) =? 0)
      || (run_result (exit_code si_code si_status) =? MAIN_EXIT)
   then 0 else 1)
  = child_status si_code si_status.
Proof.
  rewrite <- exit_status_cases.
  unfold exit_status, run_result, error_origin, MAIN_EXIT, MAIN_FAILED.
  generalize (exit_code si_code si_status). intros c.
  destruct (Z.ltb_spec c 0), (Z.eqb_spec c 0), (Z.ltb_spec 0 c);
    cbn; try reflexivity; try lia.
  destruct (Z.eqb_spec c 0); [lia|].
  destruct (Z.eqb_spec c 1); [lia|reflexivity].
Qed.

(** A run on an inherited listener, up to the event loop and from its
    result on. *)
Lemma main_inherit_loop args dirpath names policypath w :
  listen_path args = Some "inherit" ->
  inherits (w_host w) ->
  launches (w_host w) ->
  service_dir args = Some dirpath ->
  service_names (w_host w) dirpath = Some names ->
  policy_path args = Some policypath ->
  0 <= w_next_fd w ->
  Z.of_nat (length (loaded (w_host w) dirpath names)) < 2 ^ 64 ->
  (scan_budget (w_host w) dirpath names + 1 <= w_heap w)%nat ->
  exists w1,
    w_trace w1
    = w_trace w
      ++ verbose_line args ("Listening on inherited socket" +:+ LF)
      ++ bootstrap_events args (w_host w) SD_LISTEN_FDS_START (w_next_fd w)
           dirpath names policypath
    /\ w_host w1 = w_host w
    /\ w_files w1 = w_files w
    /\ w_heap w1
       = (w_heap w - (scan_budget (w_host w) dirpath names + 1))%nat
    /\ forall code w2,
         sd_event_loop args
           (serving_manager SD_LISTEN_FDS_START (w_next_fd w)
              (w_next_fd w + 1) (h_fork (w_host w))
              (loaded (w_host w) dirpath names))
           (watching (h_fork (w_host w))) (h_loop (w_host w)) w1
         = Ret code w2 ->
         main args 0 w
         = Ret (if (run_result code =? 0) || (run_result code =? MAIN_EXIT)
                then 0 else 1)
               (happened
                  (teardown SD_LISTEN_FDS_START
                            (loaded (w_host w) dirpath names)
                   ++ fatal_line args (run_result code)) w2).
Proof.
  intros Hlisten Hinh Hlaunch Hdir Hnames Hpolicy Hnext Hroom Hheap.
  pose proof (manager_run_bootstrap args SD_LISTEN_FDS_START dirpath names
                policypath
                (happened
                   (verbose_line args
                      ("Listening on inherited socket" +:+ LF))
                   (set_heap w (w_heap w - 1)))) as Hboot.
  rewrite w_next_fd_verbose in Hboot.
  cbn [w_host w_heap w_files w_trace w_next_fd happened set_trace
       set_next_fd set_heap] in Hboot.
  destruct Hboot as (w1 & Hrun & Htrace & Hhost & Hfiles & Hheap1);
    [exact Hlaunch|exact Hdir|exact Hnames|exact Hpolicy
    |unfold SD_LISTEN_FDS_START; lia|exact Hnext|exact Hroom|lia|].
  exists w1. split; [by rewrite Htrace, <- app_assoc|].
  split; [exact Hhost|]. split; [exact Hfiles|]. split; [lia|].
  intros code w2 Hloop.
  unfold main. cbn [Z.eqb negb]. unfold bind at 1. unfold run.
  unfold bind at 1. unfold manager_new. unfold bind at 1.
  rewrite alloc_ok by lia. cbn [negb]. unfold ret at 1.
  cbn [Z.eqb negb]. unfold bind at 1. unfold run_manager.
  unfold bind at 1. rewrite (run_path_listen args "inherit") by done.
  cbn [Z.eqb negb]. unfold streq. spell. cbv beta iota.
  unfold bind at 1. fold fresh_manager.
  rewrite manager_listen_inherit_ok by done.
  cbn [Z.eqb negb]. rewrite verbose_happened. unfold bind at 1.
  rewrite Hrun, Hloop. unfold ret at 1. cbv beta iota. unfold bind at 1.
  rewrite manager_free_serving by (unfold SD_LISTEN_FDS_START; lia).
  unfold ret at 1. rewrite main_tail. unfold error_trace.
  by rewrite happened_app.
Qed.

Lemma happened_set_files es w fs :
  happened es (set_files w fs) = set_files (happened es w) fs.
Proof. reflexivity. Qed.

(** The part of [run] that [--force] guards. *)
Lemma run_force_unlink args path w :
  h_unlink (w_host w) path = 0 ->
  (if main_arg_force args then
     r <- sys_unlink path ;;
     if r <? 0 then
       if negb (r =? - ENOENT) then ret (error_origin r)
       else (if main_arg_verbose args
             then fprintf_stderr
                    ("No conflict on socket '" +:+ path +:+ "'" +:+ LF)
             else ret tt) ;;; ret 0
     else (if main_arg_verbose args
           then fprintf_stderr
                  ("Forcibly removed conflicting socket '"
                   +:+ path +:+ "'" +:+ LF)
           else ret tt) ;;; ret 0
   else ret 0) w
  = Ret 0 (set_files (happened (forced_events args path w) w)
             (if main_arg_force args then w_files w ∖ {[path]}
              else w_files w)).
Proof.
  intros Hhost. unfold forced_events. destruct (main_arg_force args).
  - unfold bind at 1. destruct (decide (path ∈ w_files w)) as [Hin|Hout].
    + rewrite sys_unlink_present by done.
      rewrite (bool_decide_eq_true_2 _ Hin). cbn [Z.ltb Z.compare].
      rewrite verbose_happened. unfold ret.
      rewrite happened_set_files, happened_app. reflexivity.
    + rewrite sys_unlink_absent by done.
      rewrite (bool_decide_eq_false_2 _ Hout).
      change (- ENOENT <? 0) with true. cbv beta iota.
      change (negb (- ENOENT =? - ENOENT)) with false. cbv beta iota.
      rewrite verbose_happened. unfold ret. f_equal.
      destruct w as [h t hp fd fs]. unfold set_files, happened, set_trace.
      cbn in *. f_equal. apply leibniz_equiv. set_solver.
  - unfold ret. f_equal. rewrite happened_nil. by destruct w.
Qed.

(** A run on a listener bound at a path, up to the event loop and from its
    result on. *)
Lemma main_path_loop args path dirpath names policypath w :
  listen_path args = Some path ->
  streq path "inherit" = false ->
  binds args path w ->
  launches (w_host w) ->
  service_dir args = Some dirpath ->
  service_names (w_host w) dirpath = Some names ->
  policy_path args = Some policypath ->
  0 <= w_next_fd w ->
  Z.of_nat (length (loaded (w_host w) dirpath names)) < 2 ^ 64 ->
  (scan_budget (w_host w) dirpath names + 1 <= w_heap w)%nat ->
  exists w1,
    w_trace w1
    = w_trace w
      ++ forced_events args path w
      ++ [ESocket (w_next_fd w);
          EBind (w_next_fd w) path (Z.of_nat (String.length path) + 3);
          EListen (w_next_fd w) 256]
      ++ verbose_line args ("Listening on socket '" +:+ path +:+ "'" +:+ LF)
      ++ bootstrap_events args (w_host w) (w_next_fd w) (w_next_fd w + 1)
           dirpath names policypath
    /\ w_host w1 = w_host w
    /\ w_files w1 = {[path]} ∪ w_files w
    /\ w_heap w1
       = (w_heap w - (scan_budget (w_host w) dirpath names + 1))%nat
    /\ forall code w2,
         sd_event_loop args
           (serving_manager (w_next_fd w) (w_next_fd w + 1)
              (w_next_fd w + 1 + 1) (h_fork (w_host w))
              (loaded (w_host w) dirpath names))
           (watching (h_fork (w_host w))) (h_loop (w_host w)) w1
         = Ret code w2 ->
         w_host w2 = w_host w ->
         w_files w2 = w_files w1 ->
         exists w3,
           main args 0 w = Ret 0 w3
           /\ w_trace w3
              = w_trace w2
                ++ [EUnlink path]
                ++ verbose_line args ("Cleaned up listener socket '"
                                      +:+ path +:+ "'" +:+ LF)
                ++ teardown (w_next_fd w) (loaded (w_host w) dirpath names)
           /\ w_files w3 = w_files w ∖ {[path]}.
Proof.
  intros Hlisten Hinherit ((tail & Hpath) & Hlen & Hfree & Hbind & Hunlink)
    Hlaunch Hdir Hnames Hpolicy Hnext Hroom Hheap.
  set (w0 := set_files
               (happened (forced_events args path w)
                         (set_heap w (w_heap w - 1)))
               (if main_arg_force args then w_files w ∖ {[path]}
                else w_files w)).
  assert (Hfree0 : path ∉ w_files w0).
  { subst w0. cbn [w_files set_files]. destruct (main_arg_force args).
    - set_solver.
    - destruct Hfree as [Hf|Hf]; [discriminate|exact Hf]. }
  assert (Hnext0 : w_next_fd w0 = w_next_fd w).
  { subst w0. cbn [w_next_fd set_files].
    rewrite w_next_fd_happened; [reflexivity|].
    unfold forced_events. destruct (main_arg_force args); [|done].
    destruct (bool_decide (path ∈ w_files w)); cbn [forallb no_close andb];
      apply no_close_verbose. }
  set (wv := happened
               (verbose_line args
                  ("Listening on socket '" +:+ path +:+ "'" +:+ LF))
               (set_files
                  (happened
                     [ESocket (w_next_fd w0);
                      EBind (w_next_fd w0) path
                        (Z.of_nat (String.length path) + 3);
                      EListen (w_next_fd w0) 256]
                     (set_next_fd w0 (w_next_fd w0 + 1)))
                  ({[path]} ∪ w_files w0))).
  assert (Hnextv : w_next_fd wv = w_next_fd w + 1).
  { subst wv. rewrite w_next_fd_verbose. cbn [w_next_fd set_files].
    rewrite w_next_fd_happened by reflexivity. cbn [w_next_fd set_next_fd].
    by rewrite Hnext0. }
  assert (Hfilesv : w_files wv = {[path]} ∪ w_files w).
  { subst wv w0. cbn [w_files set_files happened set_trace set_next_fd].
    destruct (main_arg_force args); [|reflexivity].
    apply leibniz_equiv. intros x.
    rewrite !elem_of_union, elem_of_difference, elem_of_singleton.
    destruct (decide (x = path)); tauto. }
  destruct (manager_run_bootstrap args (w_next_fd w) dirpath names policypath
              wv)
    as (w1 & Hrun & Htrace & Hhost & Hfiles & Hheap1);
    [exact Hlaunch|exact Hdir|exact Hnames|exact Hpolicy|exact Hnext
    |rewrite Hnextv; lia|exact Hroom
    |change (w_heap wv) with (w_heap w - 1)%nat;
     change (w_host wv) with (w_host w); lia|].
  change (w_host wv) with (w_host w) in *.
  change (w_heap wv) with (w_heap w - 1)%nat in *.
  rewrite Hnextv in *.
  exists w1. split.
  { rewrite Htrace. subst wv w0.
    cbn [w_trace set_files happened set_trace set_next_fd set_heap].
    rewrite Hnext0. rewrite <- !app_assoc. reflexivity. }
  split; [exact Hhost|]. split; [by rewrite Hfiles|]. split; [lia|].
  intros code w2 Hloop Hhost2 Hfiles2.
  unfold main. cbn [Z.eqb negb]. unfold bind at 1. unfold run.
  unfold bind at 1. unfold manager_new. unfold bind at 1.
  rewrite alloc_ok by lia. cbn [negb]. unfold ret at 1.
  cbn [Z.eqb negb]. unfold bind at 1. unfold run_manager.
  unfold bind at 1. rewrite (run_path_listen args path) by done.
  cbn [Z.eqb negb]. rewrite Hinherit. fold fresh_manager.
  rewrite Hpath. cbv beta iota. rewrite <- Hpath.
  unfold bind at 1. rewrite run_force_unlink by done.
  cbn [Z.eqb negb]. unfold bind at 1.
  change (forced_events args path (set_heap w (w_heap w - 1)))
    with (forced_events args path w).
  cbn [w_files set_heap]. fold w0.
  rewrite manager_listen_path_binds;
    [|reflexivity|lia|exact Hlen|exact Hfree0|exact Hbind].
  cbn [Z.eqb negb]. rewrite verbose_happened. unfold bind at 1.
  fold wv. rewrite Hnext0, Hrun, Hloop.
  unfold bind at 1.
  rewrite sys_unlink_present;
    [|by rewrite Hhost2|rewrite Hfiles2, Hfiles, Hfilesv; set_solver].
  cbn [Z.ltb Z.compare]. rewrite verbose_happened.
  unfold ret at 1. unfold bind at 1.
  rewrite manager_free_serving by lia.
  unfold ret at 1. rewrite main_tail.
  change (fatal_line args 0) with (@nil Event). rewrite happened_nil.
  eexists. split; [reflexivity|]. split.
  { rewrite !w_trace_happened. cbn [w_trace set_files].
    rewrite w_trace_happened, <- !app_assoc. reflexivity. }
  cbn [w_files happened set_trace set_next_fd set_files].
  rewrite Hfiles2, Hfiles, Hfilesv. apply leibniz_equiv. intros x.
  rewrite elem_of_difference, elem_of_union, elem_of_difference,
    elem_of_singleton.
  tauto.
Qed.

Lemma listen_path_arg args path :
  main_arg_listen args = Some path -> listen_path args = Some path.
Proof. unfold listen_path. by intros ->. Qed.

(** ** The exit status *)




(** ** The services of the registry *)

(** C9, as the code has it.  Loading a service file keeps the registry one
    of services that have a unit or a command line.  A file with a name and
    neither of the two is rejected: one diagnostic on stderr, no service, and
    the result 0 that lets the scan go on.  A file with a name and a unit or
    a command line, loaded while memory lasts, the next id is free, the
    controller link is open and the broker accepts the name, is made into a
    service: the registry gets, under the next id, the service that carries
    the name, the unit and the command line of the file as they are, both
    when the file supplies both, and the service is announced to the broker.
    Whatever the load returns, a service that it added carries the name, the
    unit and the command line of its file. *)
Theorem manager_load_service_unit_or_exec args manager path w :
  (forall k s, services manager !! k = Some s -> has_unit_or_exec s = true) ->
  (forall f name,
     h_key_file (w_host w) path = Some f ->
     kf_name f = Some name -> kf_unit f = None -> kf_exec f = None ->
     manager_load_service args manager path w
     = Ret (0, manager)
           (happened
              (verbose_line args ("Loading service '" +:+ path +:+ "'" +:+ LF)
               ++ [EStderr ("Missing exec or unit in service file '"
                            +:+ path +:+ "'" +:+ LF)]) w))
  /\ (forall f name,
        h_key_file (w_host w) path = Some f ->
        kf_name f = Some name ->
        is_Some (kf_unit f) \/ is_Some (kf_exec f) ->
        (allocations (name, kf_unit f, kf_exec f) + 1 <= w_heap w)%nat ->
        services manager !! next_id manager = None ->
        bus_open (bus_controller manager) = true ->
        0 <= h_broker_reply (w_host w) (add_name (next_id manager) name) ->
        exists m' w',
          manager_load_service args manager path w = Ret (0, m') w'
          /\ services m'
             = <[next_id manager :=
                   {| s_rb := true; s_name := name; s_unit := kf_unit f;
                      s_exec := kf_exec f; s_id := next_id manager |}]>
                 (services manager)
          /\ w_trace w'
             = w_trace w
               ++ verbose_line args
                    ("Loading service '" +:+ path +:+ "'" +:+ LF)
               ++ [ECall Controller (add_name (next_id manager) name)])
  /\ (forall r m' w',
        manager_load_service args manager path w = Ret (r, m') w' ->
        (forall k s, services m' !! k = Some s -> has_unit_or_exec s = true)
        /\ (forall k s,
              services m' !! k = Some s -> services manager !! k = None ->
              exists f,
                h_key_file (w_host w) path = Some f
                /\ kf_name f = Some (s_name s)
                /\ s_unit s = kf_unit f
                /\ s_exec s = kf_exec f)).
Proof.
  intros Hinv. split; [|split].
  - intros f name Hf Hname Hunit Hexec.
    apply manager_load_service_skips. rewrite Hf, Hname, Hunit, Hexec.
    split; [|reflexivity].
    rewrite (bool_decide_eq_false_2 (is_Some (@None string))),
      (bool_decide_eq_false_2 (is_Some (@None (list string))))
      by (intros [? ?]; discriminate).
    reflexivity.
  - intros f name Hf Hname Hsupplied Hheap Hfree Hopen Hreply.
    rewrite (manager_load_service_calls args manager path f name w)
      by done.
    apply Z.ltb_ge in Hreply. rewrite Hreply.
    eexists _, _. split; [reflexivity|]. split; [reflexivity|].
    cbn [w_trace set_heap]. by rewrite w_trace_happened.
  - intros r m' w' Hload.
    pose proof (manager_load_service_cases args manager path w) as Hcases.
    rewrite Hload in Hcases.
    destruct Hcases as [Hsame|(-> & f & name & Hf & Hname & Hsupplied
                                & Hfree & Hins)].
    + rewrite Hsame. split; [exact Hinv|].
      intros k s Hk Hnone. congruence.
    + rewrite Hins. split.
      * intros k s Hk.
        destruct (decide (next_id manager = k)) as [<-|Hne].
        -- rewrite lookup_insert_eq in Hk. injection Hk as <-.
           unfold has_unit_or_exec, new_service. cbn [s_unit s_exec].
           destruct Hsupplied as [H|H].
           ++ by rewrite (bool_decide_eq_true_2 _ H).
           ++ rewrite (bool_decide_eq_true_2 _ H). apply orb_true_r.
        -- rewrite lookup_insert_ne in Hk by done. eauto.
      * intros k s Hk Hnone.
        destruct (decide (next_id manager = k)) as [<-|Hne].
        -- rewrite lookup_insert_eq in Hk. injection Hk as <-.
           exists f. auto.
        -- rewrite lookup_insert_ne in Hk by done. congruence.
Qed.

Lemma manager_load_service_unit_or_exec_witness :
  exists m' w',
    manager_load_service default_args Sample.manager
      "/usr/share/dbus-1/system-services/both.service"
      (Sample.world_with_file Sample.both_file) = Ret (0, m') w'
    /\ services m'
       = {[ "1" := {| s_rb := true; s_name := "org.example.Both";
                      s_unit := Some "both.service";
                      s_exec := Some ["/bin/x"; "--a"]; s_id := "1" |} ]}
    /\ w_trace w' = [ECall Controller (add_name "1" "org.example.Both")].
Proof.
  destruct (manager_load_service_unit_or_exec default_args Sample.manager
              "/usr/share/dbus-1/system-services/both.service"
              (Sample.world_with_file Sample.both_file))
    as (_ & Hmade & _).
  - intros k s Hk. vm_compute in Hk. discriminate.
  - apply (Hmade Sample.both_file "org.example.Both").
    + reflexivity.
    + reflexivity.
    + left. by eexists.
    + vm_compute. lia.
    + reflexivity.
    + reflexivity.
    + vm_compute. discriminate.
Defined.

(** ** A listener bound by the launcher, from the socket to its removal *)



(** On a listener bound at a path, [run] puts the result of [unlink] where
    the result of [manager_run] was: once the socket is removed the launcher
    leaves with status 0, whatever the status of the broker. *)
Remark main_path_bound_exit :
  exists w',
    main Sample.path_args 0 Sample.world = Ret 0 w'
    /\ filter is_stderr (w_trace w')
       = [EStderr ("Listening on socket '/run/bus'" +:+ LF);
          EStderr ("Caught SIGCHLD of broker" +:+ LF);
          EStderr ("Cleaned up listener socket '/run/bus'" +:+ LF)].
Proof.
  eexists. split; [vm_compute; reflexivity|reflexivity].
Qed.

(** ** Ending by a signal *)



(** ** A launcher that serves a directory *)

Lemma filter_teardown fd defs : filter is_bus_traffic (teardown fd defs) = [].
Proof.
  unfold teardown. rewrite filter_app.
  assert (Hfree : forall l : list (string * Service),
            filter is_bus_traffic
              (map (fun kv : string * Service => EFreeService (s_id kv.2)) l)
            = []).
  { induction l as [|kv l IH]; [done|]. cbn [map]. by rewrite filter_cons. }
  by rewrite Hfree.
Qed.


